(** * Mood analytics engine: a shallow embedding of [utils/analytics.py]

    The class [MoodAnalytics] wraps one pandas DataFrame with the columns
    [date], [mood] and [journal] and offers six independent queries over it.
    This development embeds the queries as functions over the list of rows
    and proves the properties the specification states about them.

    Conventions of the embedding.
    - A DataFrame is the list of its rows in index order; [df.empty] is the
      empty list.  A method that returns the empty dict [{}] on one path and
      a dict with a fixed set of keys on the other returns an [option] of a
      record; [None] is [{}].
    - Python integers are [Z].  float64 arithmetic is idealised as exact
      arithmetic: means, ratios and rounded values are rationals ([Q]); the
      two quantities that need a square root (the sample standard deviation
      and Pearson's coefficient) are reals ([R]) obtained from a rational
      that is computed exactly.  Only where a mean lies exactly half-way
      between two hundredths does [round(2)] follow the float64 product.
      NaN is [None].
    - A method that can raise returns an [Outcome]: its value, or the
      exception.
    - [datetime.date] is a record of year, month and day; a difference of
      dates is the difference of their proleptic Gregorian ordinals, as in
      CPython's [datetime]. *)

From Stdlib Require Import String Ascii.
From Stdlib Require Import ZArith QArith Qround Qabs Qfield List Bool.
From Stdlib Require Import Permutation Sorted.
From Stdlib Require Import Reals Qreals Psatz.
Import ListNotations.

#[local] Open Scope Z_scope.

(** ** The calendar ([datetime.date]) *)

Module Calendar.

Record date : Set := mkDate { year : Z; month : Z; day : Z }.

(** [date.__le__]: dates compare as their (year, month, day) triples. *)
Definition date_leb (a b : date) : bool :=
  match year a ?= year b with
  | Lt => true
  | Gt => false
  | Eq => match month a ?= month b with
          | Lt => true
          | Gt => false
          | Eq => day a <=? day b
          end
  end.

Definition date_eqb (a b : date) : bool :=
  (year a =? year b) && (month a =? month b) && (day a =? day b).

(** [_is_leap] *)
Definition is_leap (y : Z) : bool :=
  (y mod 4 =? 0) && (negb (y mod 100 =? 0) || (y mod 400 =? 0)).

(** [_days_before_year]: days before January 1st of year [y]. *)
Definition days_before_year (y : Z) : Z :=
  let y' := y - 1 in y' * 365 + y' / 4 - y' / 100 + y' / 400.

(** [_DAYS_IN_MONTH], with the leap day of February. *)
Definition days_in_month (y m : Z) : Z :=
  if (m =? 2) && is_leap y then 29
  else nth (Z.to_nat m) [0; 31; 28; 31; 30; 31; 30; 31; 31; 30; 31; 30; 31] 0.

(** [_days_before_month]: days of the year before the first of month [m]. *)
Definition days_before_month (y m : Z) : Z :=
  nth (Z.to_nat m) [0; 0; 31; 59; 90; 120; 151; 181; 212; 243; 273; 304; 334] 0
  + (if (2 <? m) && is_leap y then 1 else 0).

(** [date.toordinal]: 0001-01-01 is day 1. *)
Definition toordinal (d : date) : Z :=
  days_before_year (year d) + days_before_month (year d) (month d) + day d.

(** [(a - b).days] *)
Definition days_between (a b : date) : Z := toordinal a - toordinal b.

(** [date.weekday] and pandas' [dt.dayofweek]: Monday is 0. *)
Definition dayofweek (d : date) : Z := (toordinal d + 6) mod 7.

Definition weekday_order : list string :=
  ["Monday"; "Tuesday"; "Wednesday"; "Thursday"; "Friday"; "Saturday";
   "Sunday"]%string.

(** pandas' [dt.day_name()] *)
Definition day_name (d : date) : string :=
  nth (Z.to_nat (dayofweek d)) weekday_order ""%string.

Definition month_names : list string :=
  ["January"; "February"; "March"; "April"; "May"; "June"; "July";
   "August"; "September"; "October"; "November"; "December"]%string.

Definition month_label (m : Z) : string :=
  nth (Z.to_nat (m - 1)) month_names ""%string.

(** [strftime('%B')] *)
Definition month_name (d : date) : string := month_label (month d).

(** The triples that [datetime.date] accepts. *)
Definition valid_date (d : date) : Prop :=
  1 <= year d <= 9999 /\ 1 <= month d <= 12 /\
  1 <= day d <= days_in_month (year d) (month d).

End Calendar.
Export Calendar.

(** ** Rows and frames *)

(** A cell of a column that the engine adds to a copy of the frame. *)
Inductive Cell : Set :=
| CNum (q : Q)
| CInt (z : Z)
| CStr (s : string)
| CDate (d : date).

(** One row of a frame: the three columns of the store, and the columns
    added later, by name.  A journal cell read back from the CSV store is
    either a text or missing (NaN). *)
Record Row : Set := mkRow {
  date_of : date;
  mood : Z;
  journal : option string;
  extras : list (string * Cell)
}.

Definition DataFrame : Set := list Row.

(** ** The pandas and numpy operations the engine calls *)

Module Pandas.

(** *** Exceptions

    The result of a call that may raise: the value it returns, or the
    exception. *)
Inductive Exception : Set :=
| AttributeError
| ReError.

Inductive Outcome (A : Type) : Type :=
| Returns (a : A)
| Raises (e : Exception).

Arguments Returns {A} a.
Arguments Raises {A} e.

Section Sorting.
Context {A : Type} (leb : A -> A -> bool).

Fixpoint insert_sorted (x : A) (l : list A) : list A :=
  match l with
  | [] => [x]
  | y :: t => if leb x y then x :: y :: t else y :: insert_sorted x t
  end.

(** A stable sort.  pandas sorts with an unstable quicksort by default,
    which may leave rows of equal key in another order in a frame of more
    than 16 rows; the two agree on the keys of the result always, and on
    the rows whenever the keys are pairwise distinct, as the group keys of
    the engine are.  A statement about sorted rows, and not only about their
    dates, assumes distinct dates. *)
Fixpoint sort_by (l : list A) : list A :=
  match l with
  | [] => []
  | x :: t => insert_sorted x (sort_by t)
  end.
End Sorting.

(** [df.sort_values('date')] *)
Definition sort_values_date (df : DataFrame) : DataFrame :=
  sort_by (fun a b => date_leb (date_of a) (date_of b)) df.

(** [s.tail(n)] and [s.head(n)] *)
Definition tail {A : Type} (n : nat) (l : list A) : list A :=
  skipn (length l - n) l.

Definition head {A : Type} (n : nat) (l : list A) : list A := firstn n l.

(** *** Added columns: [df[name] = values] and [df[name]] *)

Fixpoint set_cell (name : string) (v : Cell) (cs : list (string * Cell))
    : list (string * Cell) :=
  match cs with
  | [] => [(name, v)]
  | (n, c) :: t =>
      if String.eqb n name then (n, v) :: t else (n, c) :: set_cell name v t
  end.

Fixpoint get_cell (name : string) (cs : list (string * Cell)) : option Cell :=
  match cs with
  | [] => None
  | (n, c) :: t => if String.eqb n name then Some c else get_cell name t
  end.

(** [df[name] = values], the values in row order.  The engine always
    derives [values] from the frame it assigns to, so there is one value
    per row. *)
Definition set_column (name : string) (values : list Cell) (df : DataFrame)
    : DataFrame :=
  map (fun rv : Row * Cell =>
         let (r, v) := rv in
         mkRow (date_of r) (mood r) (journal r) (set_cell name v (extras r)))
      (combine df values).

Definition str_cell (name : string) (r : Row) : string :=
  match get_cell name (extras r) with Some (CStr s) => s | _ => ""%string end.

Definition int_cell (name : string) (r : Row) : Z :=
  match get_cell name (extras r) with Some (CInt z) => z | _ => 0 end.

Definition date_cell (name : string) (r : Row) : date :=
  match get_cell name (extras r) with
  | Some (CDate d) => d
  | _ => mkDate 0 0 0
  end.

(** *** Means and rounding *)

Definition Zsum (l : list Z) : Z := fold_right Z.add 0 l.

Definition Qsum (l : list Q) : Q := fold_right Qplus 0%Q l.

Definition Zlen {A : Type} (l : list A) : Z := Z.of_nat (length l).

(** [s.mean()] of an integer column.  pandas gives NaN for an empty
    column; every call of the engine is on a non-empty one. *)
Definition mean (l : list Z) : Q := (inject_Z (Zsum l) / inject_Z (Zlen l))%Q.

Definition Qltb (x y : Q) : bool := negb (Qle_bool y x).

(** [numpy.rint]: round to the nearest integer, halves to the even one. *)
Definition rint (x : Q) : Z :=
  let f := Qfloor x in
  match (x - inject_Z f ?= 1 # 2)%Q with
  | Lt => f
  | Gt => f + 1
  | Eq => if Z.even f then f else f + 1
  end.

(** [2 ** e] for an integer exponent of either sign. *)
Definition pow2 (e : Z) : Q :=
  if 0 <=? e then inject_Z (2 ^ e) else (/ inject_Z (2 ^ (- e)))%Q.

(** The float64 nearest to a rational, halves to the even mantissa: the
    value that IEEE 754 arithmetic stores for an exact result in the normal
    range of the format.  The mantissa has 53 bits. *)
Definition float64 (x : Q) : Q :=
  let a := Qabs x in
  if Qeq_bool a 0 then 0%Q
  else
    let e0 := Z.log2 (Qnum a) - Z.log2 (Zpos (Qden a)) in
    let e := if Qle_bool (pow2 e0) a then e0 else e0 - 1 in
    let ulp := pow2 (e - 52) in
    let m := (inject_Z (rint (a / ulp)) * ulp)%Q in
    if Qle_bool 0 x then m else (- m)%Q.

(** The number of hundredths that [.round(2)] gives: numpy computes
    [rint(x * 100) / 100] in float64.  The rounding error of the product is
    far smaller than the distance of a mean of moods from the next half of
    a hundredth unless the mean is exactly half-way; there the float
    product, which can fall on either side, decides. *)
Definition round2_hundredths (x : Q) : Z :=
  let y := (x * 100)%Q in
  let f := Qfloor y in
  match (y - inject_Z f ?= 1 # 2)%Q with
  | Lt => f
  | Gt => f + 1
  | Eq => if rint (float64 (float64 x * 100)) <=? f then f else f + 1
  end.

(** [.round(2)] on a float column. *)
Definition round2 (x : Q) : Q := (inject_Z (round2_hundredths x) / 100)%Q.

(** [s.rolling(window=w, min_periods=1).mean()]: at each position the mean
    of the last [w] values up to and including it. *)
Definition rolling_mean (w : nat) (l : list Z) : list Q :=
  map (fun i => mean (tail w (firstn (S i) l))) (seq 0 (length l)).

(** [s.idxmax()] and [s.idxmin()]: the label of the first row that holds
    the largest (smallest) value. *)
Fixpoint idx_first {K : Type} (better : Q -> Q -> bool) (best : K * Q)
    (l : list (K * Q)) : K :=
  match l with
  | [] => fst best
  | kv :: t =>
      if better (snd kv) (snd best) then idx_first better kv t
      else idx_first better best t
  end.

Definition idxmax {K : Type} (l : list (K * Q)) : option K :=
  match l with
  | [] => None
  | kv :: t => Some (idx_first (fun v b => Qltb b v) kv t)
  end.

Definition idxmin {K : Type} (l : list (K * Q)) : option K :=
  match l with
  | [] => None
  | kv :: t => Some (idx_first (fun v b => Qltb v b) kv t)
  end.

(** *** [df.groupby(key)['mood'].agg(['mean', 'count']).round(2)] *)

Section GroupBy.
Context {K : Type} (K_eq_dec : forall a b : K, {a = b} + {a <> b}).
Context (K_leb : K -> K -> bool) (key : Row -> K).

(** The group labels: the distinct keys, sorted. *)
Definition group_keys (df : DataFrame) : list K :=
  sort_by K_leb (nodup K_eq_dec (map key df)).

Definition group_rows (df : DataFrame) (k : K) : DataFrame :=
  filter (fun r => if K_eq_dec (key r) k then true else false) df.

(** One row per label: the mean of the group's moods, rounded, and the
    group's size (an integer column, which [round] leaves as it is). *)
Definition groupby_mood_stats (df : DataFrame) : list (K * (Q * Z)) :=
  map (fun k =>
         let g := map mood (group_rows df k) in
         (k, (round2 (mean g), Zlen g)))
      (group_keys df).
End GroupBy.

(** The ['mean'] column of a statistics table, with its index. *)
Definition mean_column {K : Type} (t : list (K * (Q * Z))) : list (K * Q) :=
  map (fun row => (fst row, fst (snd row))) t.

(** [t.reindex(labels)].  pandas fills the row of a label that the index
    lacks with NaN; the engine passes labels of the index only. *)
Definition reindex {V : Type} (labels : list string) (t : list (string * V))
    : list (string * V) :=
  flat_map (fun l =>
              match find (fun row => String.eqb (fst row) l) t with
              | Some row => [(l, snd row)]
              | None => []
              end) labels.

(** *** [DataFrame.corr] and [Series.std] *)

(** Sum of the squared deviations from the mean. *)
Definition ssqd (x : list Z) : Q :=
  let m := mean x in
  Qsum (map (fun v => (inject_Z v - m) * (inject_Z v - m))%Q x).

(** Sum of the products of the deviations of two columns. *)
Definition sprod (x y : list Z) : Q :=
  let mx := mean x in
  let my := mean y in
  Qsum (map (fun vw : Z * Z => (inject_Z (fst vw) - mx) * (inject_Z (snd vw) - my))%Q
            (combine x y)).

(** Pearson's coefficient of two columns of one frame, [None] for NaN:
    the coefficient is undefined when the divisor
    [sqrt (ssqd x * ssqd y)] is zero. *)
Definition corr (x y : list Z) : option R :=
  let p := (ssqd x * ssqd y)%Q in
  if Qeq_bool p 0 then None
  else Some (Q2R (sprod x y) / sqrt (Q2R p))%R.

(** [s.var()], with [ddof = 1]. *)
Definition sample_variance (x : list Z) : Q :=
  (ssqd x / inject_Z (Zlen x - 1))%Q.

(** [s.std()] *)
Definition std (x : list Z) : R := sqrt (Q2R (sample_variance x)).

(** [s.diff().abs().dropna()] *)
Fixpoint abs_diffs (l : list Z) : list Z :=
  match l with
  | a :: (b :: _) as t => Z.abs (b - a) :: abs_diffs t
  | _ => []
  end.

Definition Zmax_list (l : list Z) : Z :=
  match l with [] => 0 | a :: t => fold_left Z.max t a end.

Definition Zmin_list (l : list Z) : Z :=
  match l with [] => 0 | a :: t => fold_left Z.min t a end.

End Pandas.
Export Pandas.

(** * The engine: the methods of [MoodAnalytics] as functions of [self.df] *)

(** ** [get_mood_trends] *)

Record TrendResult : Type := mkTrend {
  trend_direction : string;
  recent_average : Q;
  previous_average : Q;
  data_with_averages : DataFrame
}.

Definition classify_trend (recent_avg previous_avg : Q) : string :=
  if Qltb (previous_avg + (2 # 10)) recent_avg then "improving"%string
  else if Qltb recent_avg (previous_avg - (2 # 10)) then "declining"%string
  else "stable"%string.

(** Lines 19-20: the two rolling means, written into [df_sorted]. *)
Definition add_moving_averages (df_sorted : DataFrame) : DataFrame :=
  let with7 :=
    set_column "mood_7day_avg"
      (map CNum (rolling_mean 7 (map mood df_sorted))) df_sorted in
  set_column "mood_30day_avg"
    (map CNum (rolling_mean 30 (map mood with7))) with7.

(** Lines 23-37, on the sorted frame with its added columns. *)
Definition trend_result (df_sorted : DataFrame) : TrendResult :=
  let recent_avg := mean (tail 7 (map mood df_sorted)) in
  let previous_avg :=
    if (14 <=? length df_sorted)%nat
    then mean (head 7 (tail 14 (map mood df_sorted)))
    else recent_avg in
  {| trend_direction := classify_trend recent_avg previous_avg;
     recent_average := recent_avg;
     previous_average := previous_avg;
     data_with_averages := df_sorted |}.

Definition get_mood_trends (df : DataFrame) : option TrendResult :=
  match df with
  | [] => None
  | _ => Some (trend_result (add_moving_averages (sort_values_date df)))
  end.

(** ** [get_weekly_patterns] *)

Record WeeklyResult : Type := mkWeekly {
  weekday_averages : list (string * (Q * Z));
  best_day : option string;
  worst_day : option string
}.

(** Line 45: the added column [weekday]. *)
Definition add_weekday (df : DataFrame) : DataFrame :=
  set_column "weekday" (map (fun r => CStr (day_name (date_of r))) df) df.

(** Lines 47-57, on the copy with its added column. *)
Definition weekly_result (df_with_weekday : DataFrame) : WeeklyResult :=
  let weekday_stats :=
    groupby_mood_stats string_dec String.leb (str_cell "weekday")
      df_with_weekday in
  let weekday_stats :=
    reindex
      (filter (fun day => existsb (String.eqb day) (map fst weekday_stats))
              weekday_order)
      weekday_stats in
  {| weekday_averages := weekday_stats;
     best_day := idxmax (mean_column weekday_stats);
     worst_day := idxmin (mean_column weekday_stats) |}.

Definition get_weekly_patterns (df : DataFrame) : option WeeklyResult :=
  match df with
  | [] => None
  | _ => Some (weekly_result (add_weekday df))
  end.

(** ** [get_monthly_patterns] *)

Record MonthlyResult : Type := mkMonthly {
  monthly_averages : list ((string * Z) * (Q * Z));
  best_month : option string;
  worst_month : option string
}.

Definition month_key_dec (a b : string * Z) : {a = b} + {a <> b}.
Proof. decide equality; [apply Z.eq_dec | apply string_dec]. Defined.

(** The order of the two-level index [(month, month_num)]. *)
Definition month_key_leb (a b : string * Z) : bool :=
  if String.ltb (fst a) (fst b) then true
  else if String.eqb (fst a) (fst b) then snd a <=? snd b
  else false.

(** Lines 65-66: the added columns [month] and [month_num]. *)
Definition add_month (df : DataFrame) : DataFrame :=
  let with_name :=
    set_column "month" (map (fun r => CStr (month_name (date_of r))) df) df in
  set_column "month_num"
    (map (fun r => CInt (month (date_of r))) with_name) with_name.

(** The order of [sort_values('month_num')]. *)
Definition month_num_leb (a b : (string * Z) * (Q * Z)) : bool :=
  snd (fst a) <=? snd (fst b).

(** Lines 68-75, on the copy with its added columns. *)
Definition monthly_result (df_with_month : DataFrame) : MonthlyResult :=
  let monthly_stats :=
    groupby_mood_stats month_key_dec month_key_leb
      (fun r => (str_cell "month" r, int_cell "month_num" r)) df_with_month in
  let monthly_stats :=
    sort_by month_num_leb monthly_stats in
  {| monthly_averages := monthly_stats;
     best_month := option_map fst (idxmax (mean_column monthly_stats));
     worst_month := option_map fst (idxmin (mean_column monthly_stats)) |}.

Definition get_monthly_patterns (df : DataFrame) : option MonthlyResult :=
  match df with
  | [] => None
  | _ => Some (monthly_result (add_month df))
  end.

(** ** [get_mood_correlations] *)

(** The dtype of the [journal] column as [read_csv] leaves it: a column
    with a text in some row holds strings and NaN; a column without any
    text is a float64 column of NaN, on which the accessor [.str] raises
    [AttributeError]. *)
Definition has_journal_text (df : DataFrame) : bool :=
  existsb (fun r => match journal r with Some _ => true | None => false end)
          df.

(** A text is given by its UTF-8 bytes; every byte but a continuation byte
    [10xxxxxx] starts a code point. *)
Definition is_continuation_byte (c : ascii) : bool :=
  let n := N_of_ascii c in ((128 <=? n) && (n <? 192))%N.

Fixpoint code_points (s : string) : Z :=
  match s with
  | EmptyString => 0
  | String c t => (if is_continuation_byte c then 0 else 1) + code_points t
  end.

(** [s.str.len().fillna(0)] on one cell: Python's [len] of a string is the
    number of its code points. *)
Definition journal_len (r : Row) : Z :=
  match journal r with
  | Some s => code_points s
  | None => 0
  end.

(** Lines 83-86: the four columns added from the date. *)
Definition add_date_factors (df : DataFrame) : DataFrame :=
  let a := set_column "date_dt" (map (fun r => CDate (date_of r)) df) df in
  let b :=
    set_column "day_of_week"
      (map (fun r => CInt (dayofweek (date_cell "date_dt" r))) a) a in
  let c :=
    set_column "day_of_month"
      (map (fun r => CInt (day (date_cell "date_dt" r))) b) b in
  set_column "month" (map (fun r => CInt (month (date_cell "date_dt" r))) c) c.

(** Lines 83-87: the five added columns. *)
Definition add_factors (df : DataFrame) : DataFrame :=
  let d := add_date_factors df in
  set_column "journal_length" (map (fun r => CInt (journal_len r)) d) d.

Definition factor_names : list string :=
  ["day_of_week"; "day_of_month"; "month"; "journal_length"]%string.

(** Lines 89-96: the four coefficients, without the undefined ones.  The
    result is a dict on both paths, so it is an association list; the empty
    list is [{}]. *)
Definition correlations_result (df_analysis : DataFrame) : list (string * R) :=
  let correlations :=
    map (fun f => (f, corr (map mood df_analysis) (map (int_cell f) df_analysis)))
        factor_names in
  flat_map (fun kv : string * option R =>
              match snd kv with
              | Some v => [(fst kv, v)]
              | None => []
              end) correlations.

(** Lines 79-96.  Line 87 raises when the [journal] column holds no
    string. *)
Definition get_mood_correlations (df : DataFrame)
    : Outcome (list (string * R)) :=
  match df with
  | [] => Returns []
  | _ =>
      if has_journal_text df
      then Returns (correlations_result (add_factors df))
      else Raises AttributeError
  end.

(** ** [get_streak_analysis] *)

Record StreakResult : Type := mkStreak {
  longest_streak : Z;
  average_streak : Q;
  total_streaks : Z;
  consistency_score : Q
}.

(** Lines 110-116: the loop over [dates[1:]]; [prev] is [dates[i-1]]. *)
Fixpoint streak_loop (prev : date) (rest : list date) (streaks : list Z)
    (current_streak : Z) : list Z * Z :=
  match rest with
  | [] => (streaks, current_streak)
  | d :: rest' =>
      if days_between d prev =? 1
      then streak_loop d rest' streaks (current_streak + 1)
      else streak_loop d rest'
             (if 1 <? current_streak then streaks ++ [current_streak]
              else streaks)
             1
  end.

(** Lines 118-119: the last run is closed like the others. *)
Definition closed_streaks (state : list Z * Z) : list Z :=
  let (streaks, current_streak) := state in
  if 1 <? current_streak then streaks ++ [current_streak] else streaks.

(** Lines 107-119: the list [streaks] when the method reaches its [return]. *)
Definition find_streaks (dates : list date) : list Z :=
  closed_streaks
    match dates with
    | [] => ([], 1)
    | d0 :: rest => streak_loop d0 rest [] 1
    end.

(** Lines 104-126, on the frame sorted by date. *)
Definition streak_result (df_sorted : DataFrame) : StreakResult :=
  let dates := map date_of df_sorted in
  let streaks := find_streaks dates in
  let no_date := mkDate 0 0 0 in
  {| longest_streak :=
       match streaks with [] => 1 | _ => Zmax_list streaks end;
     average_streak :=
       match streaks with [] => 1%Q | _ => mean streaks end;
     total_streaks := Zlen streaks;
     consistency_score :=
       if 1 <? Zlen dates
       then (inject_Z (Zlen dates)
             / inject_Z (days_between (last dates no_date)
                                      (hd no_date dates) + 1))%Q
       else 1%Q |}.

Definition get_streak_analysis (df : DataFrame) : option StreakResult :=
  match df with
  | [] => None
  | _ => Some (streak_result (sort_values_date df))
  end.

(** ** [get_mood_volatility] *)

Record VolatilityResult : Type := mkVolatility {
  standard_deviation : R;
  mood_range : Z;
  average_daily_change : Q;
  stability_score : R;
  volatility_category : string
}.

(** [_categorize_volatility].  The comparisons are on reals, so the
    function is defined but does not evaluate. *)
Definition _categorize_volatility (std_dev : R) : string :=
  if Rlt_dec std_dev (5 / 10) then "Very Stable"%string
  else if Rlt_dec std_dev 1 then "Stable"%string
  else if Rlt_dec std_dev (15 / 10) then "Moderate"%string
  else if Rlt_dec std_dev 2 then "Variable"%string
  else "Highly Variable"%string.

(** Lines 133-153, on the frame sorted by date. *)
Definition volatility_result (df_sorted : DataFrame) : VolatilityResult :=
    let mood_values := map mood df_sorted in
    let std_dev := std mood_values in
    let range_val := Zmax_list mood_values - Zmin_list mood_values in
    let daily_changes := abs_diffs mood_values in
    let avg_daily_change := mean daily_changes in
    let normalized_volatility := (std_dev / 4)%R in
    let stability_score := (1 - normalized_volatility)%R in
    {| standard_deviation := std_dev;
       mood_range := range_val;
       average_daily_change := avg_daily_change;
       stability_score := stability_score;
       volatility_category := _categorize_volatility std_dev |}.

Definition is_empty (df : DataFrame) : bool :=
  match df with [] => true | _ => false end.

Definition get_mood_volatility (df : DataFrame) : option VolatilityResult :=
  if is_empty df || (length df <? 2)%nat then None
  else Some (volatility_result (sort_values_date df)).

(** * The object store: which frames a method call writes

    [MoodAnalytics] keeps a reference to the caller's frame.  pandas frames
    are mutable objects: [df[name] = values] writes into the frame it is
    applied to, while [df.copy()] and [df.sort_values(...)] build a new
    frame.  The store below keeps every frame under a reference, so that a
    write into the caller's frame would be visible. *)

Module Store.

Definition ref : Set := nat.
Definition heap : Set := list DataFrame.

(** [__init__]: the object holds the reference it was given. *)
Record MoodAnalytics : Set := mkAnalytics { self_df : ref }.

Definition M (A : Type) : Type := heap -> A * heap.

Definition ret {A : Type} (a : A) : M A := fun h => (a, h).

Definition bind {A B : Type} (m : M A) (k : A -> M B) : M B :=
  fun h => let (a, h') := m h in k a h'.

Notation "x <- m ;; k" := (bind m (fun x => k))
  (at level 61, m at next level, right associativity).
Notation "m ;;; k" := (bind m (fun _ => k))
  (at level 61, right associativity).

Definition read (r : ref) : M DataFrame := fun h => (nth r h [], h).

Definition alloc (f : DataFrame) : M ref := fun h => (length h, h ++ [f]).

Fixpoint replace_nth (r : nat) (f : DataFrame) (h : heap) : heap :=
  match r, h with
  | _, [] => []
  | O, _ :: t => f :: t
  | S r', g :: t => g :: replace_nth r' f t
  end.

Definition write (r : ref) (f : DataFrame) : M unit :=
  fun h => (tt, replace_nth r f h).

(** [df.copy()] *)
Definition copy (r : ref) : M ref := f <- read r ;; alloc f.

(** [df.sort_values('date')]: a new frame. *)
Definition sort_values (r : ref) : M ref :=
  f <- read r ;; alloc (sort_values_date f).

(** [df[name] = values]: in place; [values] is computed from the frame. *)
Definition setitem (r : ref) (name : string)
    (values : DataFrame -> list Cell) : M unit :=
  f <- read r ;; write r (set_column name (values f) f).

Definition call_get_mood_trends (self : MoodAnalytics)
    : M (option TrendResult) :=
  df <- read (self_df self) ;;
  if is_empty df then ret None
  else
    df_sorted <- sort_values (self_df self) ;;
    setitem df_sorted "mood_7day_avg"
      (fun f => map CNum (rolling_mean 7 (map mood f))) ;;;
    setitem df_sorted "mood_30day_avg"
      (fun f => map CNum (rolling_mean 30 (map mood f))) ;;;
    f <- read df_sorted ;;
    ret (Some (trend_result f)).

Definition call_get_weekly_patterns (self : MoodAnalytics)
    : M (option WeeklyResult) :=
  df <- read (self_df self) ;;
  if is_empty df then ret None
  else
    df_with_weekday <- copy (self_df self) ;;
    setitem df_with_weekday "weekday"
      (map (fun r => CStr (day_name (date_of r)))) ;;;
    f <- read df_with_weekday ;;
    ret (Some (weekly_result f)).

Definition call_get_monthly_patterns (self : MoodAnalytics)
    : M (option MonthlyResult) :=
  df <- read (self_df self) ;;
  if is_empty df then ret None
  else
    df_with_month <- copy (self_df self) ;;
    setitem df_with_month "month"
      (map (fun r => CStr (month_name (date_of r)))) ;;;
    setitem df_with_month "month_num"
      (map (fun r => CInt (month (date_of r)))) ;;;
    f <- read df_with_month ;;
    ret (Some (monthly_result f)).

Definition call_get_mood_correlations (self : MoodAnalytics)
    : M (Outcome (list (string * R))) :=
  df <- read (self_df self) ;;
  if is_empty df then ret (Returns [])
  else
    df_analysis <- copy (self_df self) ;;
    setitem df_analysis "date_dt" (map (fun r => CDate (date_of r))) ;;;
    setitem df_analysis "day_of_week"
      (map (fun r => CInt (dayofweek (date_cell "date_dt" r)))) ;;;
    setitem df_analysis "day_of_month"
      (map (fun r => CInt (day (date_cell "date_dt" r)))) ;;;
    setitem df_analysis "month"
      (map (fun r => CInt (month (date_cell "date_dt" r)))) ;;;
    f <- read df_analysis ;;
    if has_journal_text f
    then
      setitem df_analysis "journal_length"
        (map (fun r => CInt (journal_len r))) ;;;
      f <- read df_analysis ;;
      ret (Returns (correlations_result f))
    else ret (Raises AttributeError).

Definition call_get_streak_analysis (self : MoodAnalytics)
    : M (option StreakResult) :=
  df <- read (self_df self) ;;
  if is_empty df then ret None
  else
    df_sorted <- sort_values (self_df self) ;;
    f <- read df_sorted ;;
    ret (Some (streak_result f)).

Definition call_get_mood_volatility (self : MoodAnalytics)
    : M (option VolatilityResult) :=
  df <- read (self_df self) ;;
  if is_empty df || (length df <? 2)%nat then ret None
  else
    df_sorted <- sort_values (self_df self) ;;
    f <- read df_sorted ;;
    ret (Some (volatility_result f)).

(** The caller's frame, as the object sees it. *)
Definition frame_of (self : MoodAnalytics) (h : heap) : DataFrame :=
  nth (self_df self) h [].

(** What the specification asks of an operation: a second call returns
    what the first one returned, and no frame that existed before a call
    is changed by it, the caller's frame among them. *)
Definition pure_operation {A : Type} (op : MoodAnalytics -> M A) : Prop :=
  forall (self : MoodAnalytics) (h : heap),
    let (r1, h1) := op self h in
    let (r2, h2) := op self h1 in
    r1 = r2 /\
    frame_of self h1 = frame_of self h /\
    frame_of self h2 = frame_of self h /\
    (forall r : ref, (r < length h)%nat -> nth r h1 [] = nth r h []).

End Store.

(** * The properties of the specification, in its own words *)

Module Spec.

(** The entry ranked [k]-th most recent of a series in date order; rank 1
    is the latest entry. *)
Definition ranked {A : Type} (l : list A) (k : nat) : option A :=
  if (1 <=? k)%nat && (k <=? length l)%nat then nth_error l (length l - k)
  else None.

(** The entries ranked [lo] to [hi] most recent, oldest first; ranks that
    the series is too short for contribute nothing. *)
Definition ranked_between {A : Type} (l : list A) (lo hi : nat) : list A :=
  flat_map (fun k => match ranked l k with Some a => [a] | None => [] end)
           (rev (seq lo (S hi - lo))).

(** The maximal runs of consecutive calendar dates of a series in date
    order: a date joins the run of its successor when they are exactly one
    day apart. *)
Fixpoint runs (dates : list date) : list (list date) :=
  match dates with
  | [] => []
  | d :: rest =>
      let later := runs rest in
      match rest, later with
      | d' :: _, r :: rs =>
          if days_between d' d =? 1 then (d :: r) :: rs else [d] :: r :: rs
      | _, _ => [[d]]
      end
  end.

(** Within a run, neighbours are one day apart. *)
Fixpoint day_by_day (run : list date) : Prop :=
  match run with
  | a :: (b :: _) as t => days_between b a = 1 /\ day_by_day t
  | _ => True
  end.

(** Between two neighbouring runs the dates are not one day apart, so no
    run can be extended. *)
Fixpoint separated (rs : list (list date)) : Prop :=
  match rs with
  | r1 :: (r2 :: _) as t =>
      days_between (hd (mkDate 0 0 0) r2) (last r1 (mkDate 0 0 0)) <> 1 /\
      separated t
  | _ => True
  end.

Definition runs_of (df : DataFrame) : list (list date) :=
  runs (map date_of (sort_values_date df)).

(** The runs that count as streaks. *)
Definition long_runs (df : DataFrame) : list (list date) :=
  filter (fun r => (1 <? length r)%nat) (runs_of df).

(** The entries of a series that fall on a weekday, or in a month of any
    year. *)
Definition on_weekday (name : string) (df : DataFrame) : DataFrame :=
  filter (fun r => String.eqb (day_name (date_of r)) name) df.

Definition in_month (m : Z) (df : DataFrame) : DataFrame :=
  filter (fun r => month (date_of r) =? m) df.

(** Ascending date order of rows. *)
Definition date_ordered (a b : Row) : Prop :=
  date_leb (date_of a) (date_of b) = true.

(** The six dates of the example of the specification: five days in a
    row, a gap, and one day alone. *)
Definition january_dates : list date :=
  [mkDate 2024 1 1; mkDate 2024 1 2; mkDate 2024 1 3; mkDate 2024 1 4;
   mkDate 2024 1 5; mkDate 2024 1 10].

(** The statistics of one weekday and of one month, from the series. *)
Definition weekday_stat (df : DataFrame) (name : string) : Q * Z :=
  (round2 (mean (map mood (on_weekday name df))), Zlen (on_weekday name df)).

Definition month_stat (df : DataFrame) (m : Z) : Q * Z :=
  (round2 (mean (map mood (in_month m df))), Zlen (in_month m df)).



(** A weekday has an entry in the series. *)
Definition has_entry_on (df : DataFrame) (name : string) : bool :=
  existsb (fun r => String.eqb (day_name (date_of r)) name) df.



(** A column without variance: all its values are the same. *)
Definition constant (x : list Z) : Prop :=
  forall a b, In a x -> In b x -> a = b.


(** The key of the monthly grouping, from the date of a row. *)
Definition month_key (r : Row) : string * Z :=
  (month_name (date_of r), month (date_of r)).

Definition moods_in_range (df : DataFrame) : Prop :=
  Forall (fun r => 1 <= mood r <= 5) df.

End Spec.

(** * More of the code: readers, the store file, charts and pages *)

(** The value of an added numeric column in a row; [None] when the row has
    no such column. *)
Definition num_cell (name : string) (r : Row) : option Q :=
  match get_cell name (extras r) with Some (CNum q) => Some q | _ => None end.

(** ** [utils/visualizations.py]: the table behind [create_streak_chart] *)

Module Visualizations.

(** One bar of the chart: a dict with the keys [start], [end] and
    [length]. *)
Record ChartStreak : Set := mkChartStreak {
  streak_start : date;
  streak_end : date;
  streak_length : Z
}.

(** Lines 203-213: the loop over [dates[1:]]; [prev] is [dates[i-1]]. *)
Fixpoint chart_streak_loop (prev : date) (rest : list date)
    (streaks : list ChartStreak) (current_streak : Z) (streak_start : date)
    : list ChartStreak * Z * date :=
  match rest with
  | [] => (streaks, current_streak, streak_start)
  | d :: rest' =>
      if days_between d prev =? 1
      then chart_streak_loop d rest' streaks (current_streak + 1)
             streak_start
      else chart_streak_loop d rest'
             (streaks ++ [mkChartStreak streak_start prev current_streak])
             1 d
  end.

(** Lines 192-220: the list [streaks] from which the bars are drawn; an
    empty frame gives an empty figure, and no bars. *)
Definition chart_streaks (df : DataFrame) : list ChartStreak :=
  match df with
  | [] => []
  | _ =>
      let dates := map date_of (sort_values_date df) in
      match dates with
      | [] => []
      | d0 :: rest =>
          let '(streaks, current_streak, streak_start) :=
            chart_streak_loop d0 rest [] 1 d0 in
          streaks ++
          [mkChartStreak streak_start (last dates d0) current_streak]
      end
  end.

(** A run of dates as a bar. *)
Definition bar_of_run (run : list date) : ChartStreak :=
  mkChartStreak (hd (mkDate 0 0 0) run) (last run (mkDate 0 0 0)) (Zlen run).

(** *** [create_mood_distribution] *)

(** Line 69: [df['mood'].value_counts().sort_index()], the distinct
    moods in ascending order, each with the number of its rows. *)
Definition mood_counts (df : DataFrame) : list (Z * Z) :=
  map (fun k => (k, Zlen (group_rows Z.eq_dec mood df k)))
      (group_keys Z.eq_dec Z.leb mood df).

(** Lines 64-69: the index and the values of [mood_counts], from which
    the slices of the pie are drawn; none for an empty frame. *)
Definition mood_distribution_slices (df : DataFrame) : list (Z * Z) :=
  match df with
  | [] => []
  | _ => mood_counts df
  end.

(** *** [create_weekly_pattern_chart] *)

(** Lines 91-92: the added columns [weekday] and [weekday_num]. *)
Definition add_weekday_columns (df : DataFrame) : DataFrame :=
  let with_name :=
    set_column "weekday" (map (fun r => CStr (day_name (date_of r))) df)
      df in
  set_column "weekday_num"
    (map (fun r => CInt (dayofweek (date_of r))) with_name) with_name.

(** [df.groupby(key)['mood'].mean()]: one row per key, in key order, with
    the mean of the group's moods. *)
Definition groupby_mood_mean {K : Type}
    (K_eq_dec : forall a b : K, {a = b} + {a <> b})
    (K_leb : K -> K -> bool) (key : Row -> K) (df : DataFrame)
    : list (K * Q) :=
  map (fun k => (k, mean (map mood (group_rows K_eq_dec key df k))))
      (group_keys K_eq_dec K_leb key df).

(** The order of [sort_values('weekday_num')]. *)
Definition weekday_num_leb (a b : (string * Z) * Q) : bool :=
  snd (fst a) <=? snd (fst b).

(** Lines 94-95, on the copy with its added columns: the rows
    [(weekday, weekday_num, mood)] of [weekday_avg]. *)
Definition weekday_avg (df_with_weekday : DataFrame)
    : list ((string * Z) * Q) :=
  sort_by weekday_num_leb
    (groupby_mood_mean month_key_dec month_key_leb
       (fun r => (str_cell "weekday" r, int_cell "weekday_num" r))
       df_with_weekday).

(** Lines 85-95: the table behind the bars; none for an empty frame. *)
Definition weekly_pattern_bars (df : DataFrame) : list ((string * Z) * Q) :=
  match df with
  | [] => []
  | _ => weekday_avg (add_weekday_columns df)
  end.

(** The weekdays with the numbers of [dt.dayofweek]. *)
Definition weekday_numbers : list (string * Z) :=
  combine weekday_order [0; 1; 2; 3; 4; 5; 6].

(** The grouping key of the weekly chart, read off the date. *)
Definition weekday_key (r : Row) : string * Z :=
  (day_name (date_of r), dayofweek (date_of r)).

(** *** [create_monthly_trend_chart] *)

Definition date_eq_dec (a b : date) : {a = b} + {a <> b}.
Proof. decide equality; apply Z.eq_dec. Defined.

(** [dt.to_period('M')]: the month of a date, written as its first day;
    periods are ordered in time. *)
Definition to_period_M (d : date) : date := mkDate (year d) (month d) 1.

(** Line 117: the added column [year_month]. *)
Definition add_year_month (df : DataFrame) : DataFrame :=
  set_column "year_month"
    (map (fun r => CDate (to_period_M (date_of r))) df) df.

(** Line 119, on the copy with its added column: one row
    [(year_month, mean, count)] per month of a year, in the order of
    time. *)
Definition monthly_stats (df_monthly : DataFrame)
    : list (date * (Q * Z)) :=
  map (fun k =>
         let g := map mood
                    (group_rows date_eq_dec (date_cell "year_month")
                       df_monthly k) in
         (k, (mean g, Zlen g)))
      (group_keys date_eq_dec date_leb (date_cell "year_month")
         df_monthly).

(** Lines 112-119: the table behind the line and the bars; none for an
    empty frame. *)
Definition monthly_trend_points (df : DataFrame) : list (date * (Q * Z)) :=
  match df with
  | [] => []
  | _ => monthly_stats (add_year_month df)
  end.

End Visualizations.

(** ** [utils/data_manager.py]: the queries on the loaded frame

    Each query starts with [df = self.load_data()]; the functions below
    take that frame as their argument. *)

Module DataManager.

(** [date.min] *)
Definition date_min : date := mkDate 1 1 1.

(** [d - timedelta(days=1)]; [None] is the [OverflowError] that CPython
    raises for the day before [date.min]. *)
Definition prev_day (d : date) : option date :=
  if date_eqb d date_min then None
  else if 1 <? day d then Some (mkDate (year d) (month d) (day d - 1))
  else if 1 <? month d
       then Some (mkDate (year d) (month d - 1)
                    (days_in_month (year d) (month d - 1)))
       else Some (mkDate (year d - 1) 12 31).

(** Lines 54-57: [parsed] is the frame that [read_csv] gives, with the
    dates of line 56; a frame with rows is sorted by date.  Rows of equal
    date keep their order here; pandas may order them otherwise (see
    [sort_by]), so what is stated of the rows of a loaded frame assumes
    distinct dates. *)
Definition load_data (parsed : DataFrame) : DataFrame :=
  if is_empty parsed then parsed else sort_values_date parsed.

(** Lines 65-74.  The result is the first row of the filtered frame, as
    a dict; [None] when the frame is empty or no row has the date. *)
Definition get_entry_by_date (df : DataFrame) (entry_date : date)
    : option Row :=
  if is_empty df then None
  else
    let date_filter := map (fun r => date_eqb (date_of r) entry_date) df in
    if existsb (fun b => b) date_filter
    then hd_error (filter (fun r => date_eqb (date_of r) entry_date) df)
    else None.

(** Lines 76-83. *)
Definition get_date_range_data (df : DataFrame) (start_date end_date : date)
    : DataFrame :=
  if is_empty df then df
  else
    filter (fun r => date_leb start_date (date_of r)
                     && date_leb (date_of r) end_date) df.

(** [df.sort_values('date', ascending=False)] *)
Definition sort_values_date_desc (df : DataFrame) : DataFrame :=
  sort_by (fun a b => date_leb (date_of b) (date_of a)) df.

(** Lines 97-102: the loop over the rows, latest first; it stops at the
    first row that is not dated [current_date].  [None] is the exception
    of [prev_day], which the function does not catch. *)
Fixpoint streak_scan (rows : list Row) (current_date : date) (streak : Z)
    : option Z :=
  match rows with
  | [] => Some streak
  | entry :: rest =>
      if date_eqb (date_of entry) current_date
      then match prev_day current_date with
           | Some d => streak_scan rest d (streak + 1)
           | None => None
           end
      else Some streak
  end.

(** Lines 85-104; [today] is [date.today()]. *)
Definition get_current_streak (df : DataFrame) (today : date) : option Z :=
  if is_empty df then Some 0
  else streak_scan (sort_values_date_desc df) today 0.

(** *** [save_entry] *)

(** A value of the [date] column while [save_entry] runs: [load_data]
    leaves [datetime.date] objects there (line 56), [save_entry] works
    with an ISO string (line 27). *)
Inductive PyVal : Set :=
| PyStr (s : string)
| PyDate (d : date).

(** Python's [==] on these values: a string and a date are never equal. *)
Definition py_eq (a b : PyVal) : bool :=
  match a, b with
  | PyStr x, PyStr y => String.eqb x y
  | PyDate x, PyDate y => date_eqb x y
  | _, _ => false
  end.

Definition digit (n : Z) : ascii := ascii_of_nat (48 + Z.to_nat (n mod 10)).

Definition zero_pad2 (n : Z) : string :=
  String (digit (n / 10)) (String (digit n) EmptyString).

Definition zero_pad4 (n : Z) : string :=
  String (digit (n / 1000)) (String (digit (n / 100)) (zero_pad2 n)).

(** [date.isoformat]: YYYY-MM-DD. *)
Definition isoformat (d : date) : string :=
  (zero_pad4 (year d) ++ "-" ++ zero_pad2 (month d) ++ "-"
   ++ zero_pad2 (day d))%string.

(** A row of the frame that [save_entry] writes back with [to_csv]. *)
Record SavedRow : Set := mkSavedRow {
  saved_date : PyVal;
  saved_mood : Z;
  saved_journal : option string
}.

(** A loaded row, as it is. *)
Definition unchanged (r : Row) : SavedRow :=
  mkSavedRow (PyDate (date_of r)) (mood r) (journal r).

(** Lines 24-45: the frame handed to [to_csv], from the loaded frame
    [df]; [entry_date] is a date or a string (line 27). *)
Definition save_entry_frame (df : DataFrame) (entry_date : PyVal)
    (mood : Z) (journal : string) : list SavedRow :=
  let date_str :=
    match entry_date with
    | PyDate d => PyStr (isoformat d)
    | PyStr s => PyStr s
    end in
  let values := map (fun r => PyDate (date_of r)) df in
  if negb (is_empty df) && existsb (fun v => py_eq v date_str) values
  then
    map (fun r =>
           if py_eq (PyDate (date_of r)) date_str
           then mkSavedRow (PyDate (date_of r)) mood (Some journal)
           else unchanged r) df
  else
    map unchanged df ++ [mkSavedRow date_str mood (Some journal)].

(** *** [get_mood_statistics] *)

(** [s.median()]: the middle of the sorted values, or the mean of the
    two in the middle. *)
Definition median (l : list Z) : Q :=
  let s := sort_by Z.leb l in
  let mid := (length s / 2)%nat in
  if Nat.even (length s)
  then inject_Z (nth (mid - 1)%nat s 0 + nth mid s 0) / 2
  else inject_Z (nth mid s 0).

(** [s.min()] and [s.max()] on the dates [d0 :: t]. *)
Definition earliest (d0 : date) (t : list date) : date :=
  fold_left (fun a d => if date_leb d a then d else a) t d0.

Definition latest (d0 : date) (t : list date) : date :=
  fold_left (fun a d => if date_leb a d then d else a) t d0.

(** The result: a dict with these keys.  [mood_distribution] is the dict
    of [value_counts], given by its lookup: a mood that does not occur
    is not a key. *)
Record MoodStatistics : Type := mkMoodStatistics {
  total_entries : Z;
  average_mood : Q;
  median_mood : Q;
  mood_distribution : Z -> option Z;
  best_mood_date : date;
  worst_mood_date : date;
  date_range_start : date;
  date_range_end : date
}.

(** Lines 106-124.  [idxmax] gives the label of the first row with the
    largest mood, and [df.loc[label, 'date']] the date of that row. *)
Definition get_mood_statistics (df : DataFrame) : option MoodStatistics :=
  match df with
  | [] => None
  | r0 :: t =>
      let key := fun r : Row => (date_of r, inject_Z (mood r)) in
      Some
        {| total_entries := Zlen df;
           average_mood := mean (map mood df);
           median_mood := median (map mood df);
           mood_distribution :=
             (fun k =>
                let count := Zlen (filter (fun r => mood r =? k) df) in
                if count =? 0 then None else Some count);
           best_mood_date :=
             idx_first (fun v b => Qltb b v) (key r0) (map key t);
           worst_mood_date :=
             idx_first (fun v b => Qltb v b) (key r0) (map key t);
           date_range_start := earliest (date_of r0) (map date_of t);
           date_range_end := latest (date_of r0) (map date_of t) |}
  end.

End DataManager.

(** ** [pages/Calendar_View.py]: the month on display

    [current_month] is a [datetime]; the page uses its date, and the
    model keeps only that. *)

Module CalendarView.

(** The dates that [date(y, m, d)] accepts. *)
Definition valid_dateb (d : date) : bool :=
  (1 <=? year d) && (year d <=? 9999) && (1 <=? month d)
  && (month d <=? 12) && (1 <=? day d)
  && (day d <=? days_in_month (year d) (month d)).

(** [d.replace(year=y, month=m)]; [None] is the [ValueError] of a date
    that does not exist. *)
Definition replace_year_month (d : date) (y m : Z) : option date :=
  let d' := mkDate y m (day d) in
  if valid_dateb d' then Some d' else None.

(** [d.replace(day=1)] *)
Definition replace_day_1 (d : date) : date := mkDate (year d) (month d) 1.

(** Lines 33-34: the button "Previous Month". *)
Definition previous_month (current_month : date) : option date :=
  match DataManager.prev_day (replace_day_1 current_month) with
  | Some d => Some (replace_day_1 d)
  | None => None
  end.

(** Lines 52-59: the button "Next Month"; lines 89-92 compute the same
    date before stepping one day back. *)
Definition next_month (current_month : date) : option date :=
  if month current_month =? 12
  then replace_year_month current_month (year current_month + 1) 1
  else replace_year_month current_month (year current_month)
         (month current_month + 1).

(** Lines 89-92. *)
Definition month_end (current_month : date) : option date :=
  match next_month current_month with
  | Some d => DataManager.prev_day d
  | None => None
  end.

(** Lines 88-94: the entries of the month on display; [None] when
    computing [month_end] raises. *)
Definition month_data (df : DataFrame) (current_month : date)
    : option DataFrame :=
  match month_end current_month with
  | Some e => Some (DataManager.get_date_range_data df current_month e)
  | None => None
  end.

(** A Python dict with dates as keys, in insertion order:
    [d[k] = v] and [d.get(k)]. *)
Definition MoodDict : Set := list (date * (Z * option string)).

Fixpoint dict_set (k : date) (v : Z * option string) (d : MoodDict)
    : MoodDict :=
  match d with
  | [] => [(k, v)]
  | (k', v') :: t =>
      if date_eqb k' k then (k', v) :: t else (k', v') :: dict_set k v t
  end.

Fixpoint dict_get (k : date) (d : MoodDict) : option (Z * option string) :=
  match d with
  | [] => None
  | (k', v') :: t => if date_eqb k' k then Some v' else dict_get k t
  end.

(** Lines 97-104: the mood and the journal of each date of the month. *)
Definition mood_lookup (month_data : DataFrame) : MoodDict :=
  if is_empty month_data then []
  else
    fold_left (fun lookup row =>
                 dict_set (date_of row) (mood row, journal row) lookup)
              month_data [].

End CalendarView.

(** ** [app.py]: the quick statistics of the home page *)

Module HomePage.

(** Line 115: [df.tail(7)], on the loaded frame. *)
Definition recent_entries (df : DataFrame) : DataFrame := tail 7 df.

(** Line 116. *)
Definition avg_mood (df : DataFrame) : Q :=
  mean (map mood (recent_entries df)).

(** Line 121: the difference to the neutral mood, shown with more than
    one recent entry. *)
Definition delta (df : DataFrame) : option Q :=
  if 1 <? Zlen (recent_entries df) then Some (avg_mood df - 3)%Q else None.

(** Line 144: the entries of the preview. *)
Definition recent_df (df : DataFrame) : DataFrame :=
  DataManager.sort_values_date_desc (tail 5 df).

End HomePage.

(** ** [pages/History.py]: the pages of the result list *)

Module History.

(** Line 110; [//] is floor division. *)
Definition total_pages (n entries_per_page : Z) : Z :=
  (n - 1) / entries_per_page + 1.

(** Lines 143-144. *)
Definition start_idx (current_page entries_per_page : Z) : Z :=
  (current_page - 1) * entries_per_page.

Definition end_idx (n current_page entries_per_page : Z) : Z :=
  Z.min (start_idx current_page entries_per_page + entries_per_page) n.

(** Line 146: [filtered_df.iloc[start_idx:end_idx]], for indices within
    the frame. *)
Definition page_df {A : Type} (filtered_df : list A)
    (current_page entries_per_page : Z) : list A :=
  let s := start_idx current_page entries_per_page in
  let e := end_idx (Zlen filtered_df) current_page entries_per_page in
  firstn (Z.to_nat (e - s)) (skipn (Z.to_nat s) filtered_df).

(** Lines 58-63: the four orders of the result list. *)
Inductive SortOption : Set :=
| NewestFirst
| OldestFirst
| HighestMood
| LowestMood.

(** Lines 93-94: [sort_values(sort_column, ascending=ascending)]. *)
Definition row_leb (option : SortOption) (a b : Row) : bool :=
  match option with
  | NewestFirst => date_leb (date_of b) (date_of a)
  | OldestFirst => date_leb (date_of a) (date_of b)
  | HighestMood => mood b <=? mood a
  | LowestMood => mood a <=? mood b
  end.

Section Filters.
(** [re.compile(query, re.IGNORECASE)] succeeds, and
    [pat.search(cell) is not None] on one journal cell, [False] for a
    missing one ([na=False]). *)
Variable valid_pattern : string -> bool.
Variable contains : string -> option string -> bool.

(** Lines 72-94.  [date_range] is the tuple of the date input, of one
    or two dates.  With a query, line 87 raises [AttributeError] when
    the [journal] column of the loaded frame holds no string, and
    [re.error] when the query is not a regular expression. *)
Definition apply_filters (df : DataFrame) (date_range : list date)
    (mood_filter : list Z) (search_query : string)
    (sort_option : SortOption) : Outcome DataFrame :=
  let filtered_df := df in
  let filtered_df :=
    match date_range with
    | [start_date; end_date] =>
        filter (fun r => date_leb start_date (date_of r)
                         && date_leb (date_of r) end_date) filtered_df
    | _ => filtered_df
    end in
  let filtered_df :=
    filter (fun r => existsb (Z.eqb (mood r)) mood_filter) filtered_df in
  if String.eqb search_query ""
  then Returns (sort_by (row_leb sort_option) filtered_df)
  else if negb (has_journal_text df) then Raises AttributeError
  else if negb (valid_pattern search_query) then Raises ReError
  else
    let filtered_df :=
      filter (fun r => contains search_query (journal r)) filtered_df in
    Returns (sort_by (row_leb sort_option) filtered_df).
End Filters.

End History.

(** * Proofs *)
(** * Facts about the pandas operations *)

Section SortFacts.
Context {A : Type} (leb : A -> A -> bool).

Lemma insert_sorted_perm (x : A) (l : list A) :
  Permutation (insert_sorted leb x l) (x :: l).
Proof.
  induction l as [|y t IH]; simpl; [reflexivity|].
  destruct (leb x y); [reflexivity|].
  rewrite IH. apply perm_swap.
Qed.

Lemma sort_by_perm (l : list A) : Permutation (sort_by leb l) l.
Proof.
  induction l as [|x t IH]; simpl; [constructor|].
  rewrite insert_sorted_perm. now constructor.
Qed.

Lemma sort_by_length (l : list A) : length (sort_by leb l) = length l.
Proof. apply Permutation_length, sort_by_perm. Qed.

Lemma sort_by_in (x : A) (l : list A) : In x (sort_by leb l) <-> In x l.
Proof.
  split; apply Permutation_in;
    [apply sort_by_perm | apply Permutation_sym, sort_by_perm].
Qed.

Hypothesis leb_total : forall a b, leb a b = true \/ leb b a = true.
Hypothesis leb_trans :
  forall a b c, leb a b = true -> leb b c = true -> leb a c = true.

Let le (a b : A) : Prop := leb a b = true.

Lemma insert_sorted_sorted (x : A) (l : list A) :
  StronglySorted le l -> StronglySorted le (insert_sorted leb x l).
Proof.
  induction 1 as [|y t Hs IH Hall]; simpl.
  - repeat constructor.
  - destruct (leb x y) eqn:Hxy.
    + constructor; [now constructor|].
      constructor; [exact Hxy|].
      eapply Forall_impl; [|exact Hall].
      intros z Hz. now apply leb_trans with y.
    + constructor; [exact IH|].
      eapply Permutation_Forall;
        [apply Permutation_sym, insert_sorted_perm|].
      constructor; [|exact Hall].
      destruct (leb_total x y) as [H|H]; [congruence | exact H].
Qed.

Lemma sort_by_sorted (l : list A) : StronglySorted le (sort_by leb l).
Proof.
  induction l as [|x t IH]; simpl; [constructor|].
  now apply insert_sorted_sorted.
Qed.

Hypothesis leb_antisym : forall a b, leb a b = true -> leb b a = true -> a = b.

(** Two sorted arrangements of the same elements coincide: the order of
    the rows before sorting does not matter, nor does the sorting
    algorithm. *)
Lemma sorted_perm_unique (l1 l2 : list A) :
  StronglySorted le l1 -> StronglySorted le l2 -> Permutation l1 l2 ->
  l1 = l2.
Proof.
  intros H1; revert l2.
  induction H1 as [|a t1 Hs1 IH Ha]; intros l2 H2 Hp.
  - now apply Permutation_nil in Hp.
  - destruct H2 as [|b t2 Hs2 Hb].
    + now apply Permutation_sym, Permutation_nil in Hp.
    + assert (a = b) as ->.
      { assert (In a (b :: t2)) as Hin1
          by (eapply Permutation_in; [exact Hp | now left]).
        assert (In b (a :: t1)) as Hin2
          by (eapply Permutation_in;
              [apply Permutation_sym; exact Hp | now left]).
        destruct Hin1 as [->|Hin1]; [reflexivity|].
        destruct Hin2 as [->|Hin2]; [reflexivity|].
        rewrite Forall_forall in Ha, Hb.
        apply leb_antisym; [now apply Ha | now apply Hb]. }
      f_equal. apply IH; [exact Hs2|].
      now apply Permutation_cons_inv with b.
Qed.

Lemma sort_by_perm_invariant (l1 l2 : list A) :
  Permutation l1 l2 -> sort_by leb l1 = sort_by leb l2.
Proof.
  intros Hp. apply sorted_perm_unique; try apply sort_by_sorted.
  rewrite !sort_by_perm. exact Hp.
Qed.
End SortFacts.

Lemma sort_by_map {A B : Type} (f : A -> B) (leb : B -> B -> bool)
    (l : list A) :
  map f (sort_by (fun a b => leb (f a) (f b)) l) = sort_by leb (map f l).
Proof.
  induction l as [|x t IH]; simpl; [reflexivity|].
  rewrite <- IH. generalize (sort_by (fun a b => leb (f a) (f b)) t).
  intros s. induction s as [|y s IHs]; simpl; [reflexivity|].
  destruct (leb (f x) (f y)); simpl; [reflexivity | now rewrite IHs].
Qed.

Lemma date_leb_total (a b : date) : date_leb a b = true \/ date_leb b a = true.
Proof.
  unfold date_leb.
  rewrite (Z.compare_antisym (year a) (year b)).
  rewrite (Z.compare_antisym (month a) (month b)).
  destruct (year a ?= year b); simpl; auto.
  destruct (month a ?= month b); simpl; auto.
  destruct (Z.leb_spec (day a) (day b)); auto.
  right. apply Z.leb_le. lia.
Qed.

Lemma date_leb_trans (a b c : date) :
  date_leb a b = true -> date_leb b c = true -> date_leb a c = true.
Proof.
  unfold date_leb.
  destruct (Z.compare_spec (year a) (year b)); try discriminate;
  destruct (Z.compare_spec (year b) (year c)); try discriminate;
  destruct (Z.compare_spec (year a) (year c)); try lia; try reflexivity;
  destruct (Z.compare_spec (month a) (month b)); try discriminate;
  destruct (Z.compare_spec (month b) (month c)); try discriminate;
  destruct (Z.compare_spec (month a) (month c)); try lia; try reflexivity;
  rewrite !Z.leb_le; lia.
Qed.

Lemma date_leb_antisym (a b : date) :
  date_leb a b = true -> date_leb b a = true -> a = b.
Proof.
  unfold date_leb. destruct a as [ya ma da], b as [yb mb db]; simpl.
  destruct (Z.compare_spec ya yb); try discriminate;
  destruct (Z.compare_spec yb ya); try discriminate; try lia;
  destruct (Z.compare_spec ma mb); try discriminate;
  destruct (Z.compare_spec mb ma); try discriminate; try lia.
  rewrite !Z.leb_le. intros. f_equal; lia.
Qed.

Lemma sort_values_date_perm (df : DataFrame) :
  Permutation (sort_values_date df) df.
Proof. apply sort_by_perm. Qed.

Lemma sort_values_date_sorted (df : DataFrame) :
  StronglySorted Spec.date_ordered (sort_values_date df).
Proof.
  apply sort_by_sorted.
  - intros a b. apply date_leb_total.
  - intros a b c. apply date_leb_trans.
Qed.

Lemma sort_values_date_length (df : DataFrame) :
  length (sort_values_date df) = length df.
Proof. apply sort_by_length. Qed.

Lemma sort_values_date_nonempty (df : DataFrame) :
  df <> [] -> sort_values_date df <> [].
Proof.
  intros H Hs. apply H, length_zero_iff_nil.
  now rewrite <- sort_values_date_length, Hs.
Qed.

(** The dates of the sorted frame depend on the set of dates only. *)
Lemma sorted_dates_perm_invariant (df : DataFrame) (dates : list date) :
  Permutation (map date_of df) dates ->
  map date_of (sort_values_date df) = sort_by date_leb dates.
Proof.
  intros Hp. unfold sort_values_date.
  rewrite (sort_by_map date_of date_leb).
  apply sort_by_perm_invariant;
    [exact date_leb_total | exact date_leb_trans | exact date_leb_antisym
    | exact Hp].
Qed.

(** ** Ordinals of calendar dates *)

Lemma days_before_year_step (y : Z) :
  days_before_year (y + 1) = days_before_year y + (if is_leap y then 366 else 365).
Proof.
  unfold days_before_year, is_leap. cbv zeta.
  replace (y + 1 - 1) with y by lia.
  destruct (Z.eqb_spec (y mod 4) 0), (Z.eqb_spec (y mod 100) 0),
    (Z.eqb_spec (y mod 400) 0); cbn [negb andb orb];
    Z.div_mod_to_equations; lia.
Qed.

Lemma days_before_year_mono (y1 y2 : Z) :
  y1 <= y2 -> days_before_year y1 <= days_before_year y2.
Proof.
  unfold days_before_year. cbv zeta. intros H. Z.div_mod_to_equations. lia.
Qed.

Ltac eval_month :=
  repeat match goal with
         | |- context [Z.to_nat ?k] =>
             let n := eval vm_compute in (Z.to_nat k) in
             change (Z.to_nat k) with n
         end;
  cbn [nth Z.eqb Z.ltb Z.compare Pos.eqb Pos.compare Pos.compare_cont andb].

Lemma day_of_year_bounds (y m dd : Z) :
  1 <= m <= 12 -> 1 <= dd <= days_in_month y m ->
  1 <= days_before_month y m + dd <= (if is_leap y then 366 else 365).
Proof.
  intros Hm Hd. unfold days_before_month, days_in_month in *.
  assert (m = 1 \/ m = 2 \/ m = 3 \/ m = 4 \/ m = 5 \/ m = 6 \/ m = 7 \/
          m = 8 \/ m = 9 \/ m = 10 \/ m = 11 \/ m = 12) as Hcases by lia.
  revert Hd. destruct (is_leap y);
    repeat (destruct Hcases as [->|Hcases]); try subst m;
    eval_month; lia.
Qed.

Lemma days_before_month_mono (y m1 m2 dd : Z) :
  1 <= m1 -> m1 < m2 <= 12 -> 1 <= dd <= days_in_month y m1 ->
  days_before_month y m1 + dd <= days_before_month y m2.
Proof.
  intros H1 H2 Hd. unfold days_before_month, days_in_month in *.
  assert (m1 = 1 \/ m1 = 2 \/ m1 = 3 \/ m1 = 4 \/ m1 = 5 \/ m1 = 6 \/
          m1 = 7 \/ m1 = 8 \/ m1 = 9 \/ m1 = 10 \/ m1 = 11) as C1 by lia.
  assert (m2 = 2 \/ m2 = 3 \/ m2 = 4 \/ m2 = 5 \/ m2 = 6 \/ m2 = 7 \/
          m2 = 8 \/ m2 = 9 \/ m2 = 10 \/ m2 = 11 \/ m2 = 12) as C2 by lia.
  revert Hd. destruct (is_leap y);
    repeat (destruct C1 as [->|C1]); try subst m1;
    repeat (destruct C2 as [->|C2]); try subst m2;
    eval_month; lia.
Qed.

(** On calendar dates the order of the triples is the order of the
    ordinals, so the span between the first and the last date of a sorted
    series is not negative and the divisor of the consistency score is at
    least 1. *)
Lemma toordinal_mono (a b : date) :
  valid_date a -> valid_date b -> date_leb a b = true ->
  toordinal a <= toordinal b.
Proof.
  intros (Hya & Hma & Hda) (Hyb & Hmb & Hdb). unfold date_leb, toordinal.
  destruct (Z.compare_spec (year a) (year b)) as [Ey|Hy|Hy];
    [|intros _|discriminate].
  - rewrite Ey in *.
    destruct (Z.compare_spec (month a) (month b)) as [Em|Hm|Hm];
      [|intros _|discriminate].
    + rewrite Em. rewrite Z.leb_le. lia.
    + pose proof (days_before_month_mono (year b) (month a) (month b) (day a)).
      lia.
  - pose proof (day_of_year_bounds _ _ _ Hma Hda) as Ba.
    pose proof (day_of_year_bounds _ _ _ Hmb Hdb) as Bb.
    pose proof (days_before_year_step (year a)) as Hs.
    pose proof (days_before_year_mono (year a + 1) (year b)).
    destruct (is_leap (year a)), (is_leap (year b)); lia.
Qed.

Lemma consistency_divisor_positive (df : DataFrame) :
  df <> [] -> Forall (fun r => valid_date (date_of r)) df ->
  let dates := map date_of (sort_values_date df) in
  1 <= days_between (last dates (mkDate 0 0 0)) (hd (mkDate 0 0 0) dates) + 1.
Proof.
  intros Hne Hvalid. cbv zeta.
  pose proof (sort_values_date_sorted df) as Hsorted.
  assert (Forall (fun r => valid_date (date_of r)) (sort_values_date df))
    as Hv.
  { eapply Permutation_Forall;
      [apply Permutation_sym, sort_values_date_perm | exact Hvalid]. }
  pose proof (sort_values_date_nonempty df Hne) as Hne'.
  destruct (sort_values_date df) as [|r0 t]; [congruence|].
  inversion Hsorted as [|? ? _ Hall]; subst.
  inversion Hv as [|? ? Hv0 Hvt]; subst.
  cbn [map hd]. unfold days_between.
  assert (In (last (date_of r0 :: map date_of t) (mkDate 0 0 0))
             (date_of r0 :: map date_of t)) as Hin.
  { destruct (exists_last (l := date_of r0 :: map date_of t))
      as (l' & a & E); [discriminate|].
    rewrite E, last_last. apply in_or_app. right. now left. }
  destruct Hin as [<-|Hin]; [lia|].
  apply in_map_iff in Hin. destruct Hin as (r & Er & Hr).
  rewrite <- Er.
  rewrite Forall_forall in Hall, Hvt.
  pose proof (toordinal_mono (date_of r0) (date_of r) Hv0 (Hvt r Hr)
                (Hall r Hr)).
  lia.
Qed.

(** ** Added columns *)

Lemma set_column_base (name : string) (values : list Cell) (df : DataFrame) :
  length values = length df ->
  map date_of (set_column name values df) = map date_of df /\
  map mood (set_column name values df) = map mood df /\
  map journal (set_column name values df) = map journal df /\
  length (set_column name values df) = length df.
Proof.
  unfold set_column. revert values.
  induction df as [|r t IH]; intros [|v vs] Hlen; simpl in *;
    try discriminate; [tauto|].
  injection Hlen as Hlen. destruct (IH vs Hlen) as (Hd & Hm & Hj & Hl).
  now rewrite Hd, Hm, Hj, Hl.
Qed.

Lemma set_column_map (name : string) (g : Row -> Cell) (df : DataFrame) :
  set_column name (map g df) df =
  map (fun r => mkRow (date_of r) (mood r) (journal r)
                      (set_cell name (g r) (extras r))) df.
Proof.
  unfold set_column. induction df as [|r t IH]; simpl; [reflexivity|].
  now rewrite IH.
Qed.

Lemma get_set_cell_same (name : string) (v : Cell) (cs : list (string * Cell)) :
  get_cell name (set_cell name v cs) = Some v.
Proof.
  induction cs as [|[n c] t IH]; simpl.
  - now rewrite String.eqb_refl.
  - destruct (String.eqb n name) eqn:E; simpl; rewrite E; auto.
Qed.

Lemma get_set_cell_other (name other : string) (v : Cell)
    (cs : list (string * Cell)) :
  name <> other ->
  get_cell other (set_cell name v cs) = get_cell other cs.
Proof.
  intros Hne. induction cs as [|[n c] t IH]; simpl.
  - destruct (String.eqb_spec name other); congruence.
  - destruct (String.eqb_spec n name) as [->|Hn]; simpl.
    + destruct (String.eqb_spec name other); congruence.
    + now rewrite IH.
Qed.

Lemma rolling_mean_length (w : nat) (l : list Z) :
  length (rolling_mean w l) = length l.
Proof. unfold rolling_mean. now rewrite length_map, length_seq. Qed.

Lemma add_moving_averages_base (df : DataFrame) :
  map date_of (add_moving_averages df) = map date_of df /\
  map mood (add_moving_averages df) = map mood df /\
  length (add_moving_averages df) = length df.
Proof.
  unfold add_moving_averages.
  destruct (set_column_base "mood_7day_avg"
              (map CNum (rolling_mean 7 (map mood df))) df)
    as (Hd & Hm & _ & Hl).
  { now rewrite !length_map, rolling_mean_length, length_map. }
  match goal with |- context [set_column "mood_30day_avg" ?v ?f] =>
    destruct (set_column_base "mood_30day_avg" v f) as (Hd' & Hm' & _ & Hl')
  end.
  { now rewrite !length_map, rolling_mean_length, length_map. }
  rewrite Hd', Hm', Hl'. auto.
Qed.

(** ** Means and comparisons *)

Lemma Zsum_perm (l1 l2 : list Z) : Permutation l1 l2 -> Zsum l1 = Zsum l2.
Proof. induction 1; simpl; lia. Qed.

Lemma mean_perm (l1 l2 : list Z) : Permutation l1 l2 -> mean l1 = mean l2.
Proof.
  intros Hp. unfold mean, Zlen.
  now rewrite (Zsum_perm _ _ Hp), (Permutation_length Hp).
Qed.

Lemma Qltb_lt (x y : Q) : Qltb x y = true <-> (x < y)%Q.
Proof.
  unfold Qltb. rewrite negb_true_iff, <- not_true_iff_false, Qle_bool_iff.
  split; [apply Qnot_le_lt | apply Qlt_not_le].
Qed.

Lemma Qltb_ge (x y : Q) : Qltb x y = false <-> (y <= x)%Q.
Proof.
  unfold Qltb. rewrite negb_false_iff. apply Qle_bool_iff.
Qed.

(** ** Slices: [tail] and [head] against ranks counted from the end *)

Lemma skipn_nth_error {A : Type} (l : list A) (m : nat) (x : A) :
  nth_error l m = Some x -> skipn m l = x :: skipn (S m) l.
Proof.
  revert m. induction l as [|a t IH]; intros [|m] H; simpl in *;
    try discriminate.
  - now injection H as ->.
  - now apply IH.
Qed.

Lemma ranked_in_range {A : Type} (l : list A) (k : nat) :
  (1 <= k <= length l)%nat ->
  exists x, Spec.ranked l k = Some x /\ nth_error l (length l - k) = Some x.
Proof.
  intros Hk. unfold Spec.ranked.
  destruct (Nat.leb_spec 1 k); [|lia].
  destruct (Nat.leb_spec k (length l)); [|lia]. simpl.
  destruct (nth_error l (length l - k)) as [x|] eqn:E; [eauto|].
  apply nth_error_None in E. lia.
Qed.

Lemma ranked_out_of_range {A : Type} (l : list A) (k : nat) :
  (length l < k)%nat -> Spec.ranked l k = None.
Proof.
  intros Hk. unfold Spec.ranked.
  destruct (Nat.leb_spec k (length l)); [lia|].
  now rewrite andb_false_r.
Qed.

(** Ranks [lo .. lo + c - 1], all within the series, are a slice of it. *)
Lemma ranked_slice {A : Type} (l : list A) (c lo : nat) :
  (1 <= lo)%nat -> (lo + c <= S (length l))%nat ->
  flat_map (fun k => match Spec.ranked l k with Some a => [a] | None => [] end)
           (rev (seq lo c))
  = firstn c (skipn (S (length l) - lo - c) l).
Proof.
  induction c as [|c IH]; intros Hlo Hc; [reflexivity|].
  rewrite seq_S, rev_app_distr. cbn [rev flat_map app].
  destruct (ranked_in_range l (lo + c)) as (x & Hr & Hn); [lia|].
  rewrite Hr. cbn [app]. rewrite IH by lia.
  replace (S (length l) - lo - S c)%nat with (length l - (lo + c))%nat by lia.
  rewrite (skipn_nth_error _ _ _ Hn), firstn_cons.
  do 3 f_equal. lia.
Qed.

(** Ranks beyond the length of the series contribute nothing. *)
Lemma ranked_beyond {A : Type} (l : list A) (c lo : nat) :
  (length l < lo)%nat ->
  flat_map (fun k => match Spec.ranked l k with Some a => [a] | None => [] end)
           (rev (seq lo c)) = [].
Proof.
  intros Hlo. induction c as [|c IH]; [reflexivity|].
  rewrite seq_S, rev_app_distr. cbn [rev flat_map app].
  rewrite ranked_out_of_range by lia. exact IH.
Qed.

Lemma tail_is_most_recent {A : Type} (n : nat) (l : list A) :
  tail n l = Spec.ranked_between l 1 n.
Proof.
  unfold tail, Spec.ranked_between.
  replace (S n - 1)%nat with n by lia.
  destruct (Nat.le_gt_cases n (length l)) as [Hle|Hgt].
  - rewrite ranked_slice by lia.
    replace (S (length l) - 1 - n)%nat with (length l - n)%nat by lia.
    symmetry. apply firstn_all2. rewrite length_skipn. lia.
  - replace n with (length l + (n - length l))%nat at 2 by lia.
    rewrite seq_app, rev_app_distr, flat_map_app.
    rewrite ranked_beyond by lia. cbn [app].
    rewrite ranked_slice by lia.
    replace (length l - n)%nat with 0%nat by lia.
    replace (S (length l) - 1 - length l)%nat with 0%nat by lia.
    cbn [skipn]. symmetry. apply firstn_all.
Qed.

Lemma head_of_tail_is_ranked {A : Type} (a b : nat) (l : list A) :
  (a + b <= length l)%nat ->
  head b (tail (a + b) l) = Spec.ranked_between l (S a) (a + b).
Proof.
  intros Hle. unfold head, tail, Spec.ranked_between.
  replace (S (a + b) - S a)%nat with b by lia.
  rewrite ranked_slice by lia.
  do 2 f_equal. lia.
Qed.

Lemma tail_map {A B : Type} (f : A -> B) (n : nat) (l : list A) :
  tail n (map f l) = map f (tail n l).
Proof. unfold tail. now rewrite length_map, skipn_map. Qed.

Lemma head_map {A B : Type} (f : A -> B) (n : nat) (l : list A) :
  head n (map f l) = map f (head n l).
Proof. unfold head. now rewrite firstn_map. Qed.

Lemma tail_all {A : Type} (n : nat) (l : list A) :
  (length l <= n)%nat -> tail n l = l.
Proof.
  intros H. unfold tail. now replace (length l - n)%nat with 0%nat by lia.
Qed.

(** ** [get_mood_trends] *)

Lemma classify_trend_spec (recent previous : Q) :
  (classify_trend recent previous = "improving"%string
     <-> (previous + (2 # 10) < recent)%Q) /\
  (classify_trend recent previous = "declining"%string
     <-> (recent < previous - (2 # 10))%Q) /\
  (classify_trend recent previous = "stable"%string
     <-> ~ (previous + (2 # 10) < recent)%Q /\
         ~ (recent < previous - (2 # 10))%Q).
Proof.
  unfold classify_trend.
  destruct (Qltb (previous + (2 # 10)) recent) eqn:Hup.
  - apply Qltb_lt in Hup.
    split; [|split]; split; intros ?; try discriminate; try tauto; lra.
  - apply Qltb_ge in Hup.
    destruct (Qltb recent (previous - (2 # 10))) eqn:Hdown.
    + apply Qltb_lt in Hdown.
      split; [|split]; split; intros ?; try discriminate; try tauto; lra.
    + apply Qltb_ge in Hdown.
      split; [|split]; split; intros ?; try discriminate; try tauto;
        lra.
Qed.

Lemma get_mood_trends_some (df : DataFrame) :
  df <> [] ->
  get_mood_trends df =
  Some (trend_result (add_moving_averages (sort_values_date df))).
Proof. destruct df; [congruence | reflexivity]. Qed.

(** C1, as the specification states it, fails: a single entry already gets
    a numeric trend. *)
Lemma short_series_gets_numeric_trend :
  let df := [mkRow (mkDate 2024 1 1) 3 None []] in
  (length df < 7)%nat /\
  exists r, get_mood_trends df = Some r /\
            trend_direction r = "stable"%string /\
            (recent_average r == 3)%Q /\ (previous_average r == 3)%Q.
Proof.
  split; [simpl; lia|].
  eexists. split; [reflexivity|]. repeat split.
Qed.

(** C1 (amended): on a series of fewer than 7 entries [get_mood_trends]
    gives the empty result only for the empty series; for a non-empty one it
    returns a numeric trend whose recent average is the mean mood of all its
    entries, whose previous average is that same number and whose direction
    is "stable". *)
Theorem mood_trends_on_short_series (df : DataFrame) :
  (length df < 7)%nat ->
  (df = [] -> get_mood_trends df = None) /\
  (df <> [] ->
   exists r, get_mood_trends df = Some r /\
             recent_average r = mean (map mood df) /\
             previous_average r = recent_average r /\
             trend_direction r = "stable"%string).
Proof.
  intros Hlen. split; [now intros ->|].
  intros Hne. rewrite (get_mood_trends_some df Hne).
  eexists. split; [reflexivity|].
  destruct (add_moving_averages_base (sort_values_date df)) as (_ & Hm & Hl).
  unfold trend_result; cbn [recent_average previous_average trend_direction].
  rewrite Hm, Hl, sort_values_date_length.
  destruct (Nat.leb_spec 14 (length df)) as [H14|_]; [lia|].
  repeat split.
  - rewrite tail_all by (rewrite length_map, sort_values_date_length; lia).
    apply mean_perm, Permutation_map, sort_values_date_perm.
  - apply classify_trend_spec. split; lra.
Qed.

Lemma mood_trends_on_short_series_witness :
  exists r, get_mood_trends [mkRow (mkDate 2024 1 1) 4 None [];
                             mkRow (mkDate 2024 1 3) 1 None []] = Some r /\
            recent_average r = (5 # 2)%Q /\
            previous_average r = recent_average r /\
            trend_direction r = "stable"%string.
Proof.
  apply (mood_trends_on_short_series
           [mkRow (mkDate 2024 1 1) 4 None [];
            mkRow (mkDate 2024 1 3) 1 None []]);
    [simpl; lia | discriminate].
Defined.

Lemma mean_is_sum_over_count (l : list Z) :
  l <> [] -> (mean l * inject_Z (Zlen l) == inject_Z (Zsum l))%Q.
Proof.
  intros Hne. unfold mean. field. intros E.
  unfold Qeq, Zlen in E. cbn [Qnum Qden inject_Z] in E.
  destruct l; [congruence | cbn [length] in E; lia].
Qed.

Lemma tail_length {A : Type} (n : nat) (l : list A) :
  length (tail n l) = Nat.min n (length l).
Proof. unfold tail. rewrite length_skipn. lia. Qed.

(** C2: for a non-empty series the recent average is the mean mood of the
    entries ranked 1 to 7 most recent in ascending date order (all entries
    when there are fewer), the sum of their moods over their number; the
    previous average is the mean of the seven entries ranked 8 to 14 when
    there are at least 14 entries and the recent average otherwise; and the
    direction is "improving" exactly above previous + 0.2, "declining"
    exactly below previous - 0.2 and "stable" otherwise. *)
Theorem mood_trends_algorithm (df : DataFrame) :
  df <> [] ->
  exists r,
    get_mood_trends df = Some r /\
    let sorted := sort_values_date df in
    let recent := Spec.ranked_between sorted 1 7 in
    let previous := Spec.ranked_between sorted 8 14 in
    Permutation sorted df /\
    StronglySorted Spec.date_ordered sorted /\
    recent_average r = mean (map mood recent) /\
    Zlen recent = Z.min 7 (Zlen df) /\
    (recent_average r * inject_Z (Zlen recent)
     == inject_Z (Zsum (map mood recent)))%Q /\
    previous_average r =
      (if (14 <=? length df)%nat
       then mean (map mood previous)
       else recent_average r) /\
    ((14 <= length df)%nat ->
     Zlen previous = 7 /\
     (previous_average r * 7 == inject_Z (Zsum (map mood previous)))%Q) /\
    (trend_direction r = "improving"%string
       <-> (previous_average r + (2 # 10) < recent_average r)%Q) /\
    (trend_direction r = "declining"%string
       <-> (recent_average r < previous_average r - (2 # 10))%Q) /\
    (trend_direction r = "stable"%string
       <-> ~ (previous_average r + (2 # 10) < recent_average r)%Q /\
           ~ (recent_average r < previous_average r - (2 # 10))%Q).
Proof.
  intros Hne. rewrite (get_mood_trends_some df Hne).
  eexists. split; [reflexivity|]. cbv zeta.
  split; [apply sort_values_date_perm|].
  split; [apply sort_values_date_sorted|].
  destruct (add_moving_averages_base (sort_values_date df)) as (_ & Hm & Hl).
  unfold trend_result; cbn [recent_average previous_average trend_direction].
  rewrite Hm, Hl, sort_values_date_length.
  set (sorted := sort_values_date df).
  assert (length sorted = length df) as Hlen
    by apply sort_values_date_length.
  assert (length df <> 0%nat) as Hpos by (destruct df; [congruence|discriminate]).
  assert (tail 7 (map mood sorted)
          = map mood (Spec.ranked_between sorted 1 7)) as Hrecent
    by (now rewrite tail_map, tail_is_most_recent).
  assert (length (Spec.ranked_between sorted 1 7)
          = Nat.min 7 (length df)) as Hcount
    by (now rewrite <- tail_is_most_recent, tail_length, Hlen).
  rewrite Hrecent.
  split; [reflexivity|].
  split; [unfold Zlen; rewrite Hcount; lia|].
  split.
  { rewrite <- (mean_is_sum_over_count (map mood (Spec.ranked_between sorted 1 7))).
    - unfold Zlen. now rewrite length_map.
    - intros E. apply (f_equal (@length Z)) in E.
      rewrite length_map, Hcount in E. cbn [length] in E. lia. }
  assert ((14 <= length df)%nat ->
          head 7 (tail 14 (map mood sorted))
          = map mood (Spec.ranked_between sorted 8 14)) as Hprevious.
  { intros H14. rewrite tail_map, head_map.
    change 14%nat with (7 + 7)%nat.
    rewrite head_of_tail_is_ranked by (rewrite Hlen; exact H14).
    reflexivity. }
  assert ((14 <= length df)%nat ->
          length (Spec.ranked_between sorted 8 14) = 7%nat) as Hseven.
  { intros H14. change 8%nat with (S 7). change 14%nat with (7 + 7)%nat.
    rewrite <- head_of_tail_is_ranked by (rewrite Hlen; exact H14).
    unfold head. rewrite length_firstn, tail_length, Hlen. lia. }
  split.
  { destruct (Nat.leb_spec 14 (length df)) as [H14|_]; [|reflexivity].
    now rewrite Hprevious. }
  split; [|apply classify_trend_spec].
  intros H14.
  destruct (Nat.leb_spec 14 (length df)) as [_|Hlt]; [|lia].
  rewrite (Hprevious H14).
  split; [unfold Zlen; rewrite (Hseven H14); reflexivity|].
  rewrite <- (mean_is_sum_over_count
                (map mood (Spec.ranked_between sorted 8 14))).
  - unfold Zlen. rewrite length_map, (Hseven H14). reflexivity.
  - intros E. apply (f_equal (@length Z)) in E.
    rewrite length_map, (Hseven H14) in E. discriminate.
Qed.

Lemma mood_trends_algorithm_witness :
  (exists r,
     get_mood_trends
       [mkRow (mkDate 2024 1 13) 4 None [];
        mkRow (mkDate 2024 1 11) 4 None [];
        mkRow (mkDate 2024 1 7) 2 None [];
        mkRow (mkDate 2024 1 12) 4 None [];
        mkRow (mkDate 2024 1 15) 4 None [];
        mkRow (mkDate 2024 1 1) 5 None []; mkRow (mkDate 2024 1 5) 2 None [];
        mkRow (mkDate 2024 1 2) 2 None []; mkRow (mkDate 2024 1 8) 2 None [];
        mkRow (mkDate 2024 1 14) 4 None [];
        mkRow (mkDate 2024 1 6) 2 None []; mkRow (mkDate 2024 1 3) 2 None [];
        mkRow (mkDate 2024 1 9) 4 None [];
        mkRow (mkDate 2024 1 10) 4 None []; mkRow (mkDate 2024 1 4) 2 None []] = Some r /\
     (recent_average r == 4)%Q /\ (previous_average r == 2)%Q /\
     trend_direction r = "improving"%string) /\
  (exists r,
     get_mood_trends
       [mkRow (mkDate 2024 2 1) 5 None [];
        mkRow (mkDate 2024 2 14) 3 None [];
        mkRow (mkDate 2024 2 3) 5 None []; mkRow (mkDate 2024 2 5) 5 None [];
        mkRow (mkDate 2024 2 10) 3 None [];
        mkRow (mkDate 2024 2 2) 5 None []; mkRow (mkDate 2024 2 6) 5 None [];
        mkRow (mkDate 2024 2 7) 5 None [];
        mkRow (mkDate 2024 2 13) 3 None [];
        mkRow (mkDate 2024 2 11) 3 None [];
        mkRow (mkDate 2024 2 9) 3 None []; mkRow (mkDate 2024 2 8) 3 None [];
        mkRow (mkDate 2024 2 12) 3 None []; mkRow (mkDate 2024 2 4) 5 None []] = Some r /\
     (recent_average r == 3)%Q /\ (previous_average r == 5)%Q /\
     trend_direction r = "declining"%string).
Proof.
  split.
  - destruct (mood_trends_algorithm
       [mkRow (mkDate 2024 1 13) 4 None [];
        mkRow (mkDate 2024 1 11) 4 None [];
        mkRow (mkDate 2024 1 7) 2 None [];
        mkRow (mkDate 2024 1 12) 4 None [];
        mkRow (mkDate 2024 1 15) 4 None [];
        mkRow (mkDate 2024 1 1) 5 None []; mkRow (mkDate 2024 1 5) 2 None [];
        mkRow (mkDate 2024 1 2) 2 None []; mkRow (mkDate 2024 1 8) 2 None [];
        mkRow (mkDate 2024 1 14) 4 None [];
        mkRow (mkDate 2024 1 6) 2 None []; mkRow (mkDate 2024 1 3) 2 None [];
        mkRow (mkDate 2024 1 9) 4 None [];
        mkRow (mkDate 2024 1 10) 4 None []; mkRow (mkDate 2024 1 4) 2 None []])
      as (r & Hr & _ & _ & Hrecent & _ & _ & Hprevious & _ & Hup & _);
      [discriminate|].
    exists r. split; [exact Hr|].
    assert (recent_average r == 4)%Q as H1
      by (rewrite Hrecent; vm_compute; reflexivity).
    assert (previous_average r == 2)%Q as H2
      by (rewrite Hprevious; vm_compute; reflexivity).
    split; [exact H1|]. split; [exact H2|].
    apply Hup. rewrite H1, H2. reflexivity.
  - destruct (mood_trends_algorithm
       [mkRow (mkDate 2024 2 1) 5 None [];
        mkRow (mkDate 2024 2 14) 3 None [];
        mkRow (mkDate 2024 2 3) 5 None []; mkRow (mkDate 2024 2 5) 5 None [];
        mkRow (mkDate 2024 2 10) 3 None [];
        mkRow (mkDate 2024 2 2) 5 None []; mkRow (mkDate 2024 2 6) 5 None [];
        mkRow (mkDate 2024 2 7) 5 None [];
        mkRow (mkDate 2024 2 13) 3 None [];
        mkRow (mkDate 2024 2 11) 3 None [];
        mkRow (mkDate 2024 2 9) 3 None []; mkRow (mkDate 2024 2 8) 3 None [];
        mkRow (mkDate 2024 2 12) 3 None []; mkRow (mkDate 2024 2 4) 5 None []])
      as (r & Hr & _ & _ & Hrecent & _ & _ & Hprevious & _ & _ & Hdown & _);
      [discriminate|].
    exists r. split; [exact Hr|].
    assert (recent_average r == 3)%Q as H1
      by (rewrite Hrecent; vm_compute; reflexivity).
    assert (previous_average r == 5)%Q as H2
      by (rewrite Hprevious; vm_compute; reflexivity).
    split; [exact H1|]. split; [exact H2|].
    apply Hdown. rewrite H1, H2. reflexivity.
Defined.

(** ** Streaks: the loop against the maximal runs *)

Lemma runs_head (d : date) (rest : list date) :
  exists r rs, Spec.runs (d :: rest) = (d :: r) :: rs.
Proof.
  revert d. induction rest as [|d' rest' IH]; intros d; [now exists [], []|].
  destruct (IH d') as (r & rs & Hr).
  cbn [Spec.runs] in *. rewrite Hr.
  destruct (days_between d' d =? 1); eauto.
Qed.

Lemma runs_step (d d' : date) (rest : list date) :
  exists r rs,
    Spec.runs (d' :: rest) = r :: rs /\
    Spec.runs (d :: d' :: rest) =
      if days_between d' d =? 1 then (d :: r) :: rs else [d] :: r :: rs.
Proof.
  destruct (runs_head d' rest) as (r & rs & Hr).
  exists (d' :: r), rs. split; [exact Hr|].
  change (Spec.runs (d :: d' :: rest)) with
    (match Spec.runs (d' :: rest) with
     | r :: rs =>
         if days_between d' d =? 1 then (d :: r) :: rs else [d] :: r :: rs
     | [] => [[d]]
     end).
  now rewrite Hr.
Qed.

(** The runs partition the series, in order. *)
Lemma runs_concat (dates : list date) : concat (Spec.runs dates) = dates.
Proof.
  induction dates as [|d rest IH]; [reflexivity|].
  destruct rest as [|d' rest']; [reflexivity|].
  destruct (runs_step d d' rest') as (r & rs & Hr & Hstep).
  rewrite Hstep. rewrite Hr in IH.
  destruct (days_between d' d =? 1); cbn [concat app] in *; now rewrite IH.
Qed.

Lemma runs_day_by_day (dates : list date) :
  Forall Spec.day_by_day (Spec.runs dates).
Proof.
  induction dates as [|d rest IH]; [constructor|].
  destruct rest as [|d' rest']; [repeat constructor|].
  destruct (runs_step d d' rest') as (r & rs & Hr & Hstep).
  rewrite Hstep. rewrite Hr in IH.
  destruct (runs_head d' rest') as (r' & rs' & Hr').
  rewrite Hr in Hr'. injection Hr' as -> ->.
  inversion IH as [|? ? Hrun Hrest]; subst.
  destruct (Z.eqb_spec (days_between d' d) 1) as [E|E].
  - constructor; [|exact Hrest]. split; assumption.
  - constructor; [exact I|]. constructor; assumption.
Qed.

Lemma runs_separated (dates : list date) :
  Spec.separated (Spec.runs dates) /\ Forall (fun r => r <> []) (Spec.runs dates).
Proof.
  induction dates as [|d rest IH]; [split; [exact I | constructor]|].
  destruct rest as [|d' rest'].
  { split; [exact I|]. repeat constructor. discriminate. }
  destruct (runs_step d d' rest') as (r & rs & Hr & Hstep).
  rewrite Hstep. rewrite Hr in IH. destruct IH as [Hsep Hne].
  destruct (runs_head d' rest') as (r' & rs' & Hr').
  rewrite Hr in Hr'. injection Hr' as -> ->.
  destruct (Z.eqb_spec (days_between d' d) 1) as [E|E].
  - split.
    + destruct rs' as [|r2 rs2]; [exact I|].
      cbn [Spec.separated] in *. destruct Hsep as [H1 H2]. split; [|exact H2].
      exact H1.
    + inversion Hne; subst. constructor; [discriminate | assumption].
  - split.
    + cbn [Spec.separated hd last]. split; [exact E | exact Hsep].
    + constructor; [discriminate | exact Hne].
Qed.

Lemma Zlen_cons {A : Type} (a : A) (l : list A) : Zlen (a :: l) = Zlen l + 1.
Proof. unfold Zlen. cbn [length]. lia. Qed.

Lemma Zlen_app {A : Type} (l1 l2 : list A) :
  Zlen (l1 ++ l2) = Zlen l1 + Zlen l2.
Proof. unfold Zlen. rewrite length_app. lia. Qed.

Lemma Zlen_nonneg {A : Type} (l : list A) : 0 <= Zlen l.
Proof. unfold Zlen. lia. Qed.

Lemma streak_loop_runs (rest : list date) :
  forall (prev : date) (streaks : list Z) (c : Z),
  exists r rs,
    Spec.runs (prev :: rest) = r :: rs /\
    closed_streaks (streak_loop prev rest streaks c) =
      streaks ++ filter (fun n => 1 <? n) ((c - 1 + Zlen r) :: map Zlen rs).
Proof.
  induction rest as [|d rest' IH]; intros prev streaks c.
  - exists [prev], []. split; [reflexivity|].
    unfold closed_streaks. cbn [streak_loop map filter].
    replace (c - 1 + Zlen [prev]) with c by (unfold Zlen; simpl; lia).
    destruct (1 <? c); [reflexivity | now rewrite app_nil_r].
  - destruct (runs_step prev d rest') as (r & rs & Hr & Hstep).
    rewrite Hstep. cbn [streak_loop].
    destruct (days_between d prev =? 1).
    + destruct (IH d streaks (c + 1)) as (r' & rs' & Hr' & Hloop).
      rewrite Hr in Hr'. injection Hr' as <- <-.
      exists (prev :: r), rs. split; [reflexivity|].
      rewrite Hloop, Zlen_cons. do 3 f_equal. lia.
    + destruct (IH d (if 1 <? c then streaks ++ [c] else streaks) 1)
        as (r' & rs' & Hr' & Hloop).
      rewrite Hr in Hr'. injection Hr' as <- <-.
      exists [prev], (r :: rs). split; [reflexivity|].
      rewrite Hloop. cbn [map filter].
      replace (c - 1 + Zlen [prev]) with c by (unfold Zlen; simpl; lia).
      replace (1 - 1 + Zlen r) with (Zlen r) by lia.
      destruct (1 <? c); [now rewrite <- app_assoc | reflexivity].
Qed.

(** The list [streaks] of the method holds the lengths of the maximal runs
    that are longer than one day, in date order. *)
Lemma find_streaks_runs (dates : list date) :
  find_streaks dates =
  filter (fun n => 1 <? n) (map Zlen (Spec.runs dates)).
Proof.
  unfold find_streaks. destruct dates as [|d0 rest]; [reflexivity|].
  destruct (streak_loop_runs rest d0 [] 1) as (r & rs & Hr & Hloop).
  rewrite Hr, Hloop. cbn [app map].
  now replace (1 - 1 + Zlen r) with (Zlen r) by lia.
Qed.

Lemma filter_map_comm {A B : Type} (f : A -> B) (p : B -> bool) (l : list A) :
  filter p (map f l) = map f (filter (fun a => p (f a)) l).
Proof.
  induction l as [|a t IH]; simpl; [reflexivity|].
  destruct (p (f a)); simpl; now rewrite IH.
Qed.

Lemma find_streaks_long_runs (df : DataFrame) :
  find_streaks (map date_of (sort_values_date df)) =
  map Zlen (Spec.long_runs df).
Proof.
  rewrite find_streaks_runs, filter_map_comm. unfold Spec.long_runs, Spec.runs_of.
  f_equal. apply filter_ext. intros r. unfold Zlen.
  destruct (Nat.ltb_spec 1 (length r)); destruct (Z.ltb_spec 1 (Z.of_nat (length r)));
    lia || reflexivity.
Qed.

Lemma get_streak_analysis_some (df : DataFrame) :
  df <> [] ->
  get_streak_analysis df = Some (streak_result (sort_values_date df)).
Proof. destruct df; [congruence | reflexivity]. Qed.

(** ** Maximum and mean of a list of integers *)

Lemma fold_left_max_ge (l : list Z) (a : Z) :
  a <= fold_left Z.max l a /\ Forall (fun x => x <= fold_left Z.max l a) l.
Proof.
  revert a. induction l as [|x t IH]; intros a; simpl; [split; [lia|constructor]|].
  destruct (IH (Z.max a x)) as [H1 H2]. split; [lia|].
  constructor; [lia | exact H2].
Qed.

Lemma Zmax_list_ge (l : list Z) : Forall (fun x => x <= Zmax_list l) l.
Proof.
  destruct l as [|a t]; [constructor|]. unfold Zmax_list.
  destruct (fold_left_max_ge t a). now constructor.
Qed.

Lemma Zsum_le_max (l : list Z) (m : Z) :
  Forall (fun x => x <= m) l -> Zsum l <= Zlen l * m.
Proof.
  induction 1 as [|x t Hx _ IH]; [unfold Zlen; simpl; lia|].
  rewrite Zlen_cons. simpl. lia.
Qed.

Lemma mean_le_max (l : list Z) :
  l <> [] -> (mean l <= inject_Z (Zmax_list l))%Q.
Proof.
  intros Hne. unfold mean.
  assert (0 < Zlen l) as Hpos.
  { destruct l; [congruence|]. rewrite Zlen_cons. pose proof (Zlen_nonneg l). lia. }
  apply Qle_shift_div_r.
  - change 0%Q with (inject_Z 0). now rewrite <- Zlt_Qlt.
  - rewrite <- inject_Z_mult, <- Zle_Qle, Z.mul_comm.
    apply Zsum_le_max, Zmax_list_ge.
Qed.

(** ** [get_streak_analysis] *)

(** C3, as the specification states it, fails at the empty series: it has
    no run at all, and the method returns the empty result for it. *)
Lemma empty_series_has_no_streak_defaults :
  Forall (fun run => (length run <= 1)%nat) (Spec.runs_of []) /\
  ~ exists r, get_streak_analysis [] = Some r /\
              longest_streak r = 1 /\ (average_streak r == 1)%Q /\
              total_streaks r = 0.
Proof.
  split; [constructor|]. intros (r & H & _). discriminate H.
Qed.

(** C3 (amended): the empty series gets the empty result.  For a non-empty
    series [total_streaks] is the number of maximal runs of consecutive
    dates that are longer than one day, and when no run is longer than one
    day, [longest_streak] and [average_streak] are 1 and [total_streaks]
    is 0. *)
Theorem streak_defaults_without_runs (df : DataFrame) :
  (df = [] -> get_streak_analysis df = None) /\
  (df <> [] ->
   exists r,
     get_streak_analysis df = Some r /\
     total_streaks r = Zlen (Spec.long_runs df) /\
     (Forall (fun run => (length run <= 1)%nat) (Spec.runs_of df) ->
      longest_streak r = 1 /\ average_streak r = 1%Q /\ total_streaks r = 0)).
Proof.
  split; [now intros ->|]. intros Hne.
  rewrite (get_streak_analysis_some df Hne).
  eexists. split; [reflexivity|].
  unfold streak_result;
    cbn [longest_streak average_streak total_streaks].
  rewrite find_streaks_long_runs.
  split; [unfold Zlen; now rewrite length_map|].
  intros Hshort.
  assert (Spec.long_runs df = []) as ->; [|now repeat split].
  unfold Spec.long_runs. induction Hshort as [|run t Hrun _ IH]; [reflexivity|].
  cbn [filter]. destruct (Nat.ltb_spec 1 (length run)); [lia | exact IH].
Qed.

Lemma streak_defaults_without_runs_witness :
  exists r,
    get_streak_analysis [mkRow (mkDate 2024 1 1) 4 None [];
                         mkRow (mkDate 2024 1 3) 2 None []] = Some r /\
    longest_streak r = 1 /\ average_streak r = 1%Q /\ total_streaks r = 0.
Proof.
  destruct (streak_defaults_without_runs
              [mkRow (mkDate 2024 1 1) 4 None [];
               mkRow (mkDate 2024 1 3) 2 None []]) as [_ H].
  destruct H as (r & Hr & _ & Hdef); [discriminate|].
  exists r. split; [exact Hr|]. apply Hdef.
  vm_compute. repeat constructor.
Defined.

(** C4: five days in a row, a gap and a day alone give a longest streak of
    5, one streak and a consistency score of 6/10, whatever the moods, the
    journals and the order of the rows. *)
Theorem streak_example_january (df : DataFrame) :
  Permutation (map date_of df) Spec.january_dates ->
  exists r,
    get_streak_analysis df = Some r /\
    longest_streak r = 5 /\ total_streaks r = 1 /\
    (consistency_score r == 6 # 10)%Q.
Proof.
  intros Hp.
  assert (df <> []) as Hne.
  { intros ->. apply Permutation_length in Hp. discriminate Hp. }
  rewrite (get_streak_analysis_some df Hne).
  eexists. split; [reflexivity|].
  unfold streak_result.
  rewrite (sorted_dates_perm_invariant df _ Hp).
  repeat split.
Qed.

Lemma streak_example_january_witness :
  exists r,
    get_streak_analysis
      (map (fun dm => mkRow (fst dm) (snd dm) None [])
           (combine (rev Spec.january_dates) [3; 1; 4; 1; 5; 2])) = Some r /\
    longest_streak r = 5 /\ total_streaks r = 1 /\
    (consistency_score r == 6 # 10)%Q.
Proof.
  apply streak_example_january.
  vm_compute. apply Permutation_rev.
Defined.

(** C10: for a non-empty series the longest streak is at least the average
    streak; when no streak is recorded both are 1. *)
Theorem longest_streak_bounds_average (df : DataFrame) :
  df <> [] ->
  exists r,
    get_streak_analysis df = Some r /\
    (average_streak r <= inject_Z (longest_streak r))%Q /\
    (Spec.long_runs df = [] ->
     longest_streak r = 1 /\ average_streak r = 1%Q) /\
    (Spec.long_runs df <> [] ->
     longest_streak r = Zmax_list (map Zlen (Spec.long_runs df)) /\
     average_streak r = mean (map Zlen (Spec.long_runs df))).
Proof.
  intros Hne. rewrite (get_streak_analysis_some df Hne).
  eexists. split; [reflexivity|].
  unfold streak_result; cbn [longest_streak average_streak].
  rewrite find_streaks_long_runs.
  destruct (Spec.long_runs df) as [|run t] eqn:E.
  - repeat split; try congruence. cbn [map]. apply Qle_refl.
  - split; [|split; [discriminate | intros _; split; reflexivity]].
    cbn [map]. apply mean_le_max. discriminate.
Qed.

Lemma longest_streak_bounds_average_witness :
  exists r,
    get_streak_analysis [mkRow (mkDate 2024 1 1) 4 None [];
                         mkRow (mkDate 2024 1 2) 2 None []] = Some r /\
    (average_streak r <= inject_Z (longest_streak r))%Q.
Proof.
  destruct (longest_streak_bounds_average
              [mkRow (mkDate 2024 1 1) 4 None [];
               mkRow (mkDate 2024 1 2) 2 None []]) as (r & Hr & Hle & _);
    [discriminate|].
  exists r. split; assumption.
Defined.

(** ** Grouping *)

Section GroupByFacts.
Context {K : Type} (K_eq_dec : forall a b : K, {a = b} + {a <> b}).
Context (K_leb : K -> K -> bool) (key : Row -> K).

Lemma group_keys_in (df : DataFrame) (k : K) :
  In k (group_keys K_eq_dec K_leb key df) <->
  exists r, In r df /\ key r = k.
Proof.
  unfold group_keys. rewrite sort_by_in, nodup_In, in_map_iff.
  split; intros (r & H1 & H2); exists r; auto.
Qed.

Lemma group_keys_nodup (df : DataFrame) :
  NoDup (group_keys K_eq_dec K_leb key df).
Proof.
  unfold group_keys.
  eapply Permutation_NoDup; [apply Permutation_sym, sort_by_perm|].
  apply NoDup_nodup.
Qed.

Lemma group_rows_nonempty (df : DataFrame) (k : K) :
  In k (group_keys K_eq_dec K_leb key df) -> group_rows K_eq_dec key df k <> [].
Proof.
  rewrite group_keys_in. intros (r & Hin & Hk) Hnil.
  assert (In r (group_rows K_eq_dec key df k)) as H.
  { unfold group_rows. apply filter_In. split; [exact Hin|].
    destruct (K_eq_dec (key r) k); congruence. }
  rewrite Hnil in H. exact H.
Qed.

(** Rows rebuilt with more columns group as the original ones, as long as
    the key read from the new rows is the key of the old ones. *)
Lemma groupby_mood_stats_map (g : Row -> Row) (key' : Row -> K)
    (df : DataFrame) :
  (forall r, key' (g r) = key r) -> (forall r, mood (g r) = mood r) ->
  groupby_mood_stats K_eq_dec K_leb key' (map g df) =
  groupby_mood_stats K_eq_dec K_leb key df.
Proof.
  intros Hkey Hmood. unfold groupby_mood_stats, group_keys, group_rows.
  rewrite map_map. rewrite (map_ext (fun r => key' (g r)) key Hkey).
  apply map_ext. intros k.
  assert (map mood (filter (fun r => if K_eq_dec (key' r) k then true else false)
                           (map g df))
          = map mood (filter (fun r => if K_eq_dec (key r) k then true else false)
                             df)) as ->; [|reflexivity].
  induction df as [|r t IH]; [reflexivity|].
  cbn [map filter]. rewrite Hkey.
  destruct (K_eq_dec (key r) k); cbn [map]; now rewrite ?Hmood, IH.
Qed.
End GroupByFacts.

(** ** [reindex] on the labels of the index *)

Lemma find_label {V : Type} (F : string -> V) (keys : list string) (l : string) :
  find (fun row : string * V => String.eqb (fst row) l)
       (map (fun k => (k, F k)) keys)
  = if existsb (String.eqb l) keys then Some (l, F l) else None.
Proof.
  induction keys as [|k t IH]; [reflexivity|].
  cbn [map find existsb fst]. rewrite (String.eqb_sym l k).
  destruct (String.eqb_spec k l) as [->|_]; [reflexivity | exact IH].
Qed.

Lemma reindex_present {V : Type} (F : string -> V) (keys order : list string) :
  reindex (filter (fun l => existsb (String.eqb l) keys) order)
          (map (fun k => (k, F k)) keys)
  = map (fun l => (l, F l)) (filter (fun l => existsb (String.eqb l) keys) order).
Proof.
  unfold reindex. induction order as [|l t IH]; [reflexivity|].
  cbn [filter]. destruct (existsb (String.eqb l) keys) eqn:E; [|exact IH].
  cbn [flat_map map]. rewrite find_label, E. cbn [snd app]. now rewrite IH.
Qed.

(** ** [idxmax] and [idxmin] *)

Section FirstBest.
Context {K : Type} (better : Q -> Q -> bool).
Hypothesis better_trans :
  forall a b c, better b a = true -> better c b = true -> better c a = true.
Hypothesis better_pass :
  forall a b c, better a b = false -> better c b = true -> better c a = true.

Lemma idx_first_split (l : list (K * Q)) :
  forall (pre0 : list (K * Q)) (best : K * Q) (post0 : list (K * Q)),
    Forall (fun row => better (snd best) (snd row) = true) pre0 ->
    Forall (fun row => better (snd row) (snd best) = false) post0 ->
    exists pre v post,
      pre0 ++ best :: post0 ++ l
        = pre ++ (idx_first better best l, v) :: post /\
      Forall (fun row => better v (snd row) = true) pre /\
      Forall (fun row => better (snd row) v = false) post.
Proof.
  induction l as [|kv t IH]; intros pre0 best post0 Hpre Hpost.
  - exists pre0, (snd best), post0. cbn [idx_first].
    rewrite app_nil_r, <- surjective_pairing. auto.
  - cbn [idx_first]. destruct (better (snd kv) (snd best)) eqn:E.
    + destruct (IH (pre0 ++ best :: post0) kv []) as (pre & v & post & H & H1 & H2).
      * apply Forall_app. split.
        { eapply Forall_impl; [|exact Hpre]. intros row Hrow.
          now apply better_trans with (snd best). }
        constructor; [exact E|].
        eapply Forall_impl; [|exact Hpost]. intros row Hrow.
        now apply better_pass with (snd best).
      * constructor.
      * exists pre, v, post. rewrite <- H, <- app_assoc. auto.
    + destruct (IH pre0 best (post0 ++ [kv])) as (pre & v & post & H & H1 & H2).
      * exact Hpre.
      * apply Forall_app. split; [exact Hpost|]. now constructor.
      * exists pre, v, post. rewrite <- H, <- app_assoc. auto.
Qed.
End FirstBest.




(** ** [get_weekly_patterns] *)

(** ** Rounding to two decimals *)

Lemma round2_hundredths_close (x : Q) :
  (x * 100 - (1 # 2) <= inject_Z (round2_hundredths x)
   <= x * 100 + (1 # 2))%Q.
Proof.
  unfold round2_hundredths. cbv zeta.
  pose proof (Qfloor_le (x * 100)) as Hlo.
  pose proof (Qlt_floor (x * 100)) as Hhi.
  rewrite inject_Z_plus in Hhi. change (inject_Z 1) with 1%Q in Hhi.
  set (f := Qfloor (x * 100)) in *.
  destruct (x * 100 - inject_Z f ?= 1 # 2)%Q eqn:E.
  - apply Qeq_alt in E.
    destruct (rint (float64 (float64 x * 100)) <=? f).
    + lra.
    + rewrite inject_Z_plus. change (inject_Z 1) with 1%Q. lra.
  - apply Qlt_alt in E. lra.
  - apply Qgt_alt in E. rewrite inject_Z_plus.
    change (inject_Z 1) with 1%Q. lra.
Qed.

(** A rounded value is a whole number of hundredths. *)
Lemma round2_hundredth (x : Q) :
  exists k : Z, (round2 x == inject_Z k / 100)%Q.
Proof. exists (round2_hundredths x). reflexivity. Qed.

(** A rounded value is within half a hundredth of the exact one. *)
Lemma round2_close (x : Q) :
  (x - (1 # 200) <= round2 x <= x + (1 # 200))%Q.
Proof.
  unfold round2. pose proof (round2_hundredths_close x) as [H1 H2].
  set (k := inject_Z (round2_hundredths x)) in *.
  split; [apply Qle_shift_div_l | apply Qle_shift_div_r];
    try reflexivity; lra.
Qed.

(** Rounding does not cross an integer. *)
Lemma round2_between (x : Q) (lo hi : Z) :
  (inject_Z lo <= x <= inject_Z hi)%Q ->
  (inject_Z lo <= round2 x <= inject_Z hi)%Q.
Proof.
  intros [Hlo Hhi]. unfold round2.
  pose proof (round2_hundredths_close x) as [H1 H2].
  assert (lo * 100 <= round2_hundredths x <= hi * 100) as [H3 H4].
  { assert (inject_Z (lo * 100) - (1 # 2) <= inject_Z (round2_hundredths x)
            <= inject_Z (hi * 100) + (1 # 2))%Q as [H5 H6].
    { rewrite !inject_Z_mult. change (inject_Z 100) with 100%Q. lra. }
    revert H5 H6. generalize (round2_hundredths x). intros k H5 H6.
    unfold Qle, Qminus, Qplus, Qopp in H5, H6.
    cbn [Qnum Qden inject_Z] in H5, H6. lia. }
  rewrite Zle_Qle in H3, H4.
  rewrite inject_Z_mult in H3, H4. change (inject_Z 100) with 100%Q in H3, H4.
  split; [apply Qle_shift_div_l | apply Qle_shift_div_r];
    try reflexivity; lra.
Qed.

(** Numpy's rounding of 161/40 = 4.025: the float product is
    402.50000000000006, so the result is 4.03 and not the even 4.02. *)
Example round2_follows_the_float_product :
  (round2 (161 # 40) == 403 # 100)%Q /\
  (float64 (float64 (161 # 40) * 100) == (805 # 2) + pow2 (-44))%Q.
Proof. split; vm_compute; reflexivity. Qed.

Lemma day_name_in_order (d : date) : In (day_name d) weekday_order.
Proof.
  unfold day_name, dayofweek.
  pose proof (Z.mod_pos_bound (toordinal d + 6) 7 eq_refl) as Hb.
  set (w := (toordinal d + 6) mod 7) in *.
  assert (Z.to_nat w < 7)%nat as Hn by lia.
  apply nth_In. exact Hn.
Qed.

Lemma str_cell_add_weekday (r : Row) :
  str_cell "weekday"
    (mkRow (date_of r) (mood r) (journal r)
           (set_cell "weekday" (CStr (day_name (date_of r))) (extras r)))
  = day_name (date_of r).
Proof. unfold str_cell. cbn [extras]. now rewrite get_set_cell_same. Qed.

Lemma weekly_keys_present (df : DataFrame) (name : string) :
  existsb (String.eqb name)
    (group_keys string_dec String.leb (fun r => day_name (date_of r)) df)
  = Spec.has_entry_on df name.
Proof.
  apply eq_iff_eq_true. unfold Spec.has_entry_on.
  rewrite !existsb_exists. split.
  - intros (k & Hk & E). apply String.eqb_eq in E. subst k.
    apply group_keys_in in Hk. destruct Hk as (r & Hr & Hkey).
    exists r. split; [exact Hr|]. now apply String.eqb_eq.
  - intros (r & Hr & E). apply String.eqb_eq in E.
    exists name. split; [|apply String.eqb_refl].
    apply group_keys_in. eauto.
Qed.

Lemma weekly_table (df : DataFrame) :
  weekday_averages (weekly_result (add_weekday df)) =
  map (fun name => (name, Spec.weekday_stat df name))
      (filter (Spec.has_entry_on df) weekday_order).
Proof.
  unfold weekly_result; cbn [weekday_averages].
  unfold add_weekday. rewrite set_column_map.
  rewrite (groupby_mood_stats_map string_dec String.leb
             (fun r => day_name (date_of r)));
    [|exact str_cell_add_weekday | reflexivity].
  unfold groupby_mood_stats.
  rewrite map_map. cbn [fst]. rewrite map_id.
  rewrite (filter_ext _ (Spec.has_entry_on df) (weekly_keys_present df)).
  set (F := fun k =>
    (round2 (mean (map mood (group_rows string_dec
                               (fun r => day_name (date_of r)) df k))),
     Zlen (map mood (group_rows string_dec
                       (fun r => day_name (date_of r)) df k)))).
  change (reindex (filter (Spec.has_entry_on df) weekday_order)
            (map (fun k => (k, F k))
               (group_keys string_dec String.leb
                  (fun r => day_name (date_of r)) df))
          = map (fun name => (name, Spec.weekday_stat df name))
              (filter (Spec.has_entry_on df) weekday_order)).
  rewrite <- (filter_ext _ (Spec.has_entry_on df) (weekly_keys_present df)).
  rewrite reindex_present. apply map_ext. intros name.
  unfold F, Spec.weekday_stat. unfold Zlen at 1. rewrite length_map.
  assert (group_rows string_dec (fun r => day_name (date_of r)) df name
          = Spec.on_weekday name df) as ->; [|reflexivity].
  apply filter_ext. intros r.
  destruct (string_dec (day_name (date_of r)) name) as [->|Hne].
  - now rewrite String.eqb_refl.
  - symmetry. now apply String.eqb_neq.
Qed.

Lemma get_weekly_patterns_some (df : DataFrame) :
  df <> [] ->
  get_weekly_patterns df = Some (weekly_result (add_weekday df)).
Proof. destruct df; [congruence | reflexivity]. Qed.




(** The means are compared after rounding.  Seven Mondays with mean 23/7
    and seventeen Tuesdays with mean 56/17 are both reported as 3.29, so
    Monday, the first of the two in the table, is the best day although the
    exact mean of the Tuesdays is the larger one. *)
Example best_day_compares_rounded_means :
  let df :=
    map (fun e : Z * Z * Z * Z =>
           let '(y, m, d, v) := e in mkRow (mkDate y m d) v None [])
    [
     (2024, 1, 1, 4); (2024, 1, 8, 4); (2024, 1, 15, 3); (2024, 1, 22,
     3); (2024, 1, 29, 3); (2024, 2, 5, 3); (2024, 2, 12, 3); (2024,
     1, 2, 4); (2024, 1, 9, 4); (2024, 1, 16, 4); (2024, 1, 23, 4);
     (2024, 1, 30, 4); (2024, 2, 6, 3); (2024, 2, 13, 3); (2024, 2,
     20, 3); (2024, 2, 27, 3); (2024, 3, 5, 3); (2024, 3, 12, 3);
     (2024, 3, 19, 3); (2024, 3, 26, 3); (2024, 4, 2, 3); (2024, 4, 9,
     3); (2024, 4, 16, 3); (2024, 4, 23, 3)] in
  option_map weekday_averages (get_weekly_patterns df)
    = Some [("Monday"%string, ((329 # 100)%Q, 7));
            ("Tuesday"%string, ((329 # 100)%Q, 17))] /\
  option_map best_day (get_weekly_patterns df) = Some (Some "Monday"%string) /\
  (mean (map mood (Spec.on_weekday "Monday" df))
   < mean (map mood (Spec.on_weekday "Tuesday" df)))%Q.
Proof. vm_compute. repeat split. Qed.

(** A mean exactly half-way between two hundredths.  Forty Mondays with
    mean 161/40 = 4.025 are reported as 4.03, as numpy rounds the float
    product, and thirty-three Tuesdays with mean 133/33 as 4.03 too, so
    Monday, the first of the two, is the best day. *)
Example best_day_at_a_rounding_tie :
  let df :=
    map (fun e : Z * Z * Z * Z =>
           let '(y, m, d, v) := e in mkRow (mkDate y m d) v None [])
    [
     (2024, 1, 1, 5); (2024, 1, 8, 4); (2024, 1, 15, 4); (2024, 1, 22, 4);
     (2024, 1, 29, 4); (2024, 2, 5, 4); (2024, 2, 12, 4); (2024, 2, 19, 4);
     (2024, 2, 26, 4); (2024, 3, 4, 4); (2024, 3, 11, 4); (2024, 3, 18, 4);
     (2024, 3, 25, 4); (2024, 4, 1, 4); (2024, 4, 8, 4); (2024, 4, 15, 4);
     (2024, 4, 22, 4); (2024, 4, 29, 4); (2024, 5, 6, 4); (2024, 5, 13, 4);
     (2024, 5, 20, 4); (2024, 5, 27, 4); (2024, 6, 3, 4); (2024, 6, 10, 4);
     (2024, 6, 17, 4); (2024, 6, 24, 4); (2024, 7, 1, 4); (2024, 7, 8, 4);
     (2024, 7, 15, 4); (2024, 7, 22, 4); (2024, 7, 29, 4); (2024, 8, 5, 4);
     (2024, 8, 12, 4); (2024, 8, 19, 4); (2024, 8, 26, 4); (2024, 9, 2, 4);
     (2024, 9, 9, 4); (2024, 9, 16, 4); (2024, 9, 23, 4); (2024, 9, 30, 4);
     (2024, 1, 2, 5); (2024, 1, 9, 4); (2024, 1, 16, 4); (2024, 1, 23, 4);
     (2024, 1, 30, 4); (2024, 2, 6, 4); (2024, 2, 13, 4); (2024, 2, 20, 4);
     (2024, 2, 27, 4); (2024, 3, 5, 4); (2024, 3, 12, 4); (2024, 3, 19, 4);
     (2024, 3, 26, 4); (2024, 4, 2, 4); (2024, 4, 9, 4); (2024, 4, 16, 4);
     (2024, 4, 23, 4); (2024, 4, 30, 4); (2024, 5, 7, 4); (2024, 5, 14, 4);
     (2024, 5, 21, 4); (2024, 5, 28, 4); (2024, 6, 4, 4); (2024, 6, 11, 4);
     (2024, 6, 18, 4); (2024, 6, 25, 4); (2024, 7, 2, 4); (2024, 7, 9, 4);
     (2024, 7, 16, 4); (2024, 7, 23, 4); (2024, 7, 30, 4); (2024, 8, 6, 4);
     (2024, 8, 13, 4)] in
  option_map weekday_averages (get_weekly_patterns df)
    = Some [("Monday"%string, ((403 # 100)%Q, 40));
            ("Tuesday"%string, ((403 # 100)%Q, 33))] /\
  option_map best_day (get_weekly_patterns df) = Some (Some "Monday"%string).
Proof. vm_compute. repeat split. Qed.

(** ** [get_monthly_patterns] *)

Lemma month_key_add_month (r : Row) :
  let with_name :=
    mkRow (date_of r) (mood r) (journal r)
          (set_cell "month" (CStr (month_name (date_of r))) (extras r)) in
  let with_num :=
    mkRow (date_of with_name) (mood with_name) (journal with_name)
          (set_cell "month_num" (CInt (month (date_of with_name)))
                    (extras with_name)) in
  (str_cell "month" with_num, int_cell "month_num" with_num) = Spec.month_key r.
Proof.
  cbv zeta. unfold str_cell, int_cell, Spec.month_key. cbn [extras date_of].
  rewrite get_set_cell_same, get_set_cell_other by discriminate.
  now rewrite get_set_cell_same.
Qed.

Lemma month_group_rows (df : DataFrame) (m : Z) :
  group_rows month_key_dec Spec.month_key df (month_label m, m) = Spec.in_month m df.
Proof.
  apply filter_ext. intros r. unfold Spec.month_key, month_name.
  destruct (month_key_dec (month_label (month (date_of r)), month (date_of r))
                          (month_label m, m)) as [E|Hne].
  - injection E as _ ->. symmetry. apply Z.eqb_refl.
  - symmetry. apply Z.eqb_neq. intros E. apply Hne. now rewrite E.
Qed.

Lemma monthly_table (df : DataFrame) :
  monthly_averages (monthly_result (add_month df)) =
  sort_by month_num_leb
    (map (fun k => (k, Spec.month_stat df (snd k)))
         (group_keys month_key_dec month_key_leb Spec.month_key df)).
Proof.
  unfold monthly_result; cbn [monthly_averages].
  unfold add_month. rewrite set_column_map, set_column_map, map_map.
  rewrite (groupby_mood_stats_map month_key_dec month_key_leb Spec.month_key);
    [|exact month_key_add_month | reflexivity].
  unfold groupby_mood_stats. f_equal.
  apply map_ext_in. intros k Hk. f_equal.
  apply group_keys_in in Hk. destruct Hk as (r & _ & <-).
  pose proof (month_group_rows df (month (date_of r))) as Hg.
  change (month_label (month (date_of r)), month (date_of r))
    with (Spec.month_key r) in Hg.
  rewrite Hg. unfold Spec.month_stat, Spec.month_key. cbn [snd].
  unfold Zlen at 1. now rewrite length_map.
Qed.

Lemma StronglySorted_map {A B : Type} (f : A -> B) (R : B -> B -> Prop)
    (l : list A) :
  StronglySorted (fun a b => R (f a) (f b)) l -> StronglySorted R (map f l).
Proof.
  induction 1 as [|a t Hs IH Ha]; cbn [map]; constructor; [exact IH|].
  now apply Forall_map.
Qed.

Lemma StronglySorted_impl {A : Type} (R R' : A -> A -> Prop) (l : list A) :
  (forall a b, R a b -> R' a b) -> StronglySorted R l -> StronglySorted R' l.
Proof.
  intros HR. induction 1 as [|a t Hs IH Ha]; constructor; [exact IH|].
  eapply Forall_impl; [|exact Ha]. intros b. apply HR.
Qed.

Lemma sorted_nodup_strict (l : list Z) :
  StronglySorted Z.le l -> NoDup l -> StronglySorted Z.lt l.
Proof.
  induction 1 as [|a t Hs IH Ha]; intros Hnd; constructor;
    inversion Hnd as [|? ? Hnotin Hnd']; subst.
  - now apply IH.
  - rewrite Forall_forall in *. intros x Hx.
    specialize (Ha x Hx). assert (a <> x) by congruence. lia.
Qed.

Lemma month_keys_shape (df : DataFrame) :
  let keys := group_keys month_key_dec month_key_leb Spec.month_key df in
  keys = map (fun m => (month_label m, m)) (map snd keys).
Proof.
  cbv zeta. rewrite map_map. symmetry.
  erewrite map_ext_in; [apply map_id|].
  intros k Hk. apply group_keys_in in Hk. now destruct Hk as (r & _ & <-).
Qed.

Lemma get_monthly_patterns_some (df : DataFrame) :
  df <> [] ->
  get_monthly_patterns df = Some (monthly_result (add_month df)).
Proof. destruct df; [congruence | reflexivity]. Qed.

(** C5: the monthly table has one bucket per calendar month, whatever the
    year: the buckets come in strictly increasing month number, every entry
    falls into the bucket of its month, and a bucket holds the number of all
    the entries of that month, over all years, and their mean mood rounded
    to two decimals: a whole number of hundredths within half a hundredth
    of the exact mean. *)
Theorem monthly_patterns_merge_years (df : DataFrame) :
  df <> [] ->
  exists r,
    get_monthly_patterns df = Some r /\
    StronglySorted Z.lt (map (fun b => snd (fst b)) (monthly_averages r)) /\
    (forall row,
       In row df ->
       exists m,
         In ((month_name (date_of row), month (date_of row)),
             (m, Zlen (Spec.in_month (month (date_of row)) df)))
            (monthly_averages r)) /\
    (forall name n m c,
       In ((name, n), (m, c)) (monthly_averages r) ->
       name = month_label n /\
       Spec.in_month n df <> [] /\
       c = Zlen (Spec.in_month n df) /\
       (exists k : Z, (m == inject_Z k / 100)%Q) /\
       (mean (map mood (Spec.in_month n df)) - (1 # 200) <= m
        <= mean (map mood (Spec.in_month n df)) + (1 # 200))%Q).
Proof.
  intros Hne. rewrite (get_monthly_patterns_some df Hne).
  eexists. split; [reflexivity|]. rewrite monthly_table.
  set (keys := group_keys month_key_dec month_key_leb Spec.month_key df).
  set (stats := map (fun k => (k, Spec.month_stat df (snd k))) keys).
  split; [|split].
  - apply sorted_nodup_strict.
    + apply StronglySorted_map with (f := fun b => snd (fst b)).
      apply StronglySorted_impl
        with (R := fun a b => month_num_leb a b = true).
      * intros a b. apply Z.leb_le.
      * apply (sort_by_sorted month_num_leb); unfold month_num_leb.
        -- intros a b. rewrite !Z.leb_le. lia.
        -- intros a b c. rewrite !Z.leb_le. lia.
    + eapply Permutation_NoDup.
      * apply Permutation_map, Permutation_sym, sort_by_perm.
      * unfold stats. rewrite map_map. cbn [fst snd].
        apply NoDup_map_inv with (f := fun m => (month_label m, m)).
        fold keys. unfold keys at 1. rewrite <- month_keys_shape.
        apply group_keys_nodup.
  - intros row Hrow.
    exists (fst (Spec.month_stat df (month (date_of row)))).
    apply sort_by_in. unfold stats.
    apply in_map_iff. exists (Spec.month_key row). split; [reflexivity|].
    apply group_keys_in. eauto.
  - intros name n m c Hin. apply sort_by_in in Hin. unfold stats in Hin.
    apply in_map_iff in Hin. destruct Hin as (k & Hk & Hkeys).
    pose proof (group_rows_nonempty month_key_dec month_key_leb Spec.month_key
                  df k Hkeys) as Hrows.
    apply group_keys_in in Hkeys. destruct Hkeys as (r & _ & <-).
    unfold Spec.month_key, month_name, Spec.month_stat in Hk, Hrows.
    cbn [snd] in Hk. injection Hk as <- <- <- <-.
    rewrite month_group_rows in Hrows.
    split; [reflexivity|]. split; [exact Hrows|]. split; [reflexivity|].
    split; [apply round2_hundredth | apply round2_close].
Qed.

Lemma monthly_patterns_merge_years_witness :
  exists r,
    get_monthly_patterns
      [mkRow (mkDate 2023 3 14) 4 None []; mkRow (mkDate 2024 3 2) 5 None []]
      = Some r /\
    StronglySorted Z.lt (map (fun b => snd (fst b)) (monthly_averages r)) /\
    exists m, In (("March"%string, 3), (m, 2)) (monthly_averages r) /\
              (m == 9 # 2)%Q.
Proof.
  destruct (monthly_patterns_merge_years
              [mkRow (mkDate 2023 3 14) 4 None [];
               mkRow (mkDate 2024 3 2) 5 None []])
    as (r & Hr & Hsorted & Hin & Hbucket); [discriminate|].
  exists r. split; [exact Hr|]. split; [exact Hsorted|].
  destruct (Hin (mkRow (mkDate 2023 3 14) 4 None []) (or_introl eq_refl))
    as (m & Hm).
  exists m. split; [exact Hm|].
  destruct (Hbucket _ _ _ _ Hm) as (_ & _ & _ & (k & Hk) & H1 & H2).
  assert (mean (map mood
                  (Spec.in_month 3
                     [mkRow (mkDate 2023 3 14) 4 None [];
                      mkRow (mkDate 2024 3 2) 5 None []])) == 9 # 2)%Q
    as E by (vm_compute; reflexivity).
  cbn [date_of month] in H1, H2. rewrite E in H1, H2.
  rewrite Hk in H1, H2 |- *.
  assert (k = 450) as ->.
  { unfold Qle, Qminus, Qplus, Qopp, Qdiv, Qmult, Qinv in H1, H2.
    cbn [Qnum Qden inject_Z] in H1, H2. lia. }
  reflexivity.
Defined.

(** The example of the specification, evaluated: one bucket for March. *)
Example march_of_two_years :
  option_map monthly_averages
    (get_monthly_patterns
       [mkRow (mkDate 2023 3 14) 4 None []; mkRow (mkDate 2024 3 2) 5 None []])
  = Some [(("March"%string, 3), ((450 # 100)%Q, 2))].
Proof. reflexivity. Qed.

(** ** Sums of squares and products over the rationals *)

Lemma Qsquare_nonneg (a : Q) : (0 <= a * a)%Q.
Proof. nra. Qed.

Lemma Qsum_nonneg (l : list Q) : Forall (fun q => 0 <= q)%Q l -> (0 <= Qsum l)%Q.
Proof.
  induction 1 as [|q t Hq _ IH]; cbn [Qsum fold_right]; [apply Qle_refl|].
  unfold Qsum in IH. lra.
Qed.

Lemma Qsum_le (f g : Z -> Q) (l : list Z) :
  Forall (fun v => f v <= g v)%Q l ->
  (Qsum (map f l) <= Qsum (map g l))%Q.
Proof.
  induction 1 as [|v t Hv _ IH]; cbn [Qsum fold_right map]; [apply Qle_refl|].
  unfold Qsum in IH. lra.
Qed.

Lemma Qsum_const (c : Q) (l : list Z) :
  (Qsum (map (fun _ => c) l) == inject_Z (Zlen l) * c)%Q.
Proof.
  induction l as [|v t IH]; cbn [Qsum fold_right map].
  - unfold Zlen. cbn. ring.
  - unfold Qsum in IH. rewrite IH, Zlen_cons, inject_Z_plus. ring.
Qed.

(** Sums of squared deviations from two centres [m] and [c]. *)
Lemma ssq_shift (x : list Z) (m c : Q) :
  (Qsum (map (fun v => (inject_Z v - c) * (inject_Z v - c)) x)
   == Qsum (map (fun v => (inject_Z v - m) * (inject_Z v - m)) x)
      + 2 * (m - c) * (inject_Z (Zsum x) - inject_Z (Zlen x) * m)
      + inject_Z (Zlen x) * ((m - c) * (m - c)))%Q.
Proof.
  induction x as [|v t IH]; cbn [Qsum fold_right map Zsum].
  - unfold Zlen. cbn. ring.
  - unfold Qsum, Zsum in IH. rewrite IH, Zlen_cons, !inject_Z_plus. ring.
Qed.

Lemma Zlen_pos {A : Type} (l : list A) : l <> [] -> 0 < Zlen l.
Proof.
  destruct l; [congruence|]. intros _. rewrite Zlen_cons.
  pose proof (Zlen_nonneg l). lia.
Qed.

Lemma mean_times_len (x : list Z) :
  x <> [] -> (inject_Z (Zlen x) * mean x == inject_Z (Zsum x))%Q.
Proof.
  intros Hne. unfold mean. field.
  apply Zlen_pos in Hne. intros E.
  unfold Qeq in E. cbn [Qnum Qden inject_Z] in E. lia.
Qed.

(** The mean is the centre with the least sum of squared deviations. *)
Lemma ssqd_least (x : list Z) (c : Q) :
  x <> [] ->
  (ssqd x <= Qsum (map (fun v => (inject_Z v - c) * (inject_Z v - c)) x))%Q.
Proof.
  intros Hne. unfold ssqd. rewrite (ssq_shift x (mean x) c).
  pose proof (mean_times_len x Hne) as Hm.
  assert (0 <= inject_Z (Zlen x))%Q as Hn.
  { change 0%Q with (inject_Z 0). rewrite <- Zle_Qle. apply Zlen_nonneg. }
  pose proof (Qsquare_nonneg (mean x - c)) as Hsq.
  assert (0 <= inject_Z (Zlen x) * ((mean x - c) * (mean x - c)))%Q as Hprod
    by (apply Qmult_le_0_compat; assumption).
  rewrite Hm in *. lra.
Qed.

Lemma ssqd_nonneg (x : list Z) : (0 <= ssqd x)%Q.
Proof.
  unfold ssqd. apply Qsum_nonneg, Forall_map, Forall_forall.
  intros v _. apply Qsquare_nonneg.
Qed.

(** On the scale 1 to 5 no mood is further than 2 from 3. *)
Lemma ssqd_scale_bound (x : list Z) :
  x <> [] -> Forall (fun v => 1 <= v <= 5) x ->
  (ssqd x <= inject_Z (Zlen x) * 4)%Q.
Proof.
  intros Hne Hrange.
  eapply Qle_trans; [apply (ssqd_least x 3 Hne)|].
  rewrite <- Qsum_const. apply Qsum_le.
  eapply Forall_impl; [|exact Hrange]. intros v Hv. cbv beta in Hv |- *.
  assert (1 <= inject_Z v)%Q
    by (change 1%Q with (inject_Z 1); rewrite <- Zle_Qle; lia).
  assert (inject_Z v <= 5)%Q
    by (change 5%Q with (inject_Z 5); rewrite <- Zle_Qle; lia).
  nra.
Qed.

Lemma sample_variance_bound (x : list Z) :
  (2 <= length x)%nat -> Forall (fun v => 1 <= v <= 5) x ->
  (0 <= sample_variance x <= 16)%Q.
Proof.
  intros Hlen Hrange. unfold sample_variance.
  assert (x <> []) as Hne by (intros ->; simpl in Hlen; lia).
  pose proof (ssqd_scale_bound x Hne Hrange) as Hb.
  pose proof (ssqd_nonneg x) as H0.
  assert (2 <= Zlen x) as Hn by (unfold Zlen; lia).
  assert (1 <= inject_Z (Zlen x - 1))%Q as Hd
    by (change 1%Q with (inject_Z 1); rewrite <- Zle_Qle; lia).
  assert (inject_Z (Zlen x) == inject_Z (Zlen x - 1) + 1)%Q as Hsplit.
  { unfold Z.sub. rewrite inject_Z_plus. cbn. ring. }
  split.
  - apply Qle_shift_div_l; lra.
  - apply Qle_shift_div_r; [lra|]. rewrite Hsplit in Hb. lra.
Qed.

(** ** [get_mood_volatility] *)

Lemma Q2R_16 : Q2R 16 = 16%R.
Proof. unfold Q2R. cbn. lra. Qed.

Lemma std_bound (x : list Z) :
  (2 <= length x)%nat -> Forall (fun v => 1 <= v <= 5) x ->
  (0 <= std x <= 4)%R.
Proof.
  intros Hlen Hrange. unfold std.
  destruct (sample_variance_bound x Hlen Hrange) as [H0 H16].
  split; [apply sqrt_pos|].
  apply Qle_Rle in H16. rewrite Q2R_16 in H16.
  replace 4%R with (sqrt 16).
  - now apply sqrt_le_1_alt.
  - replace 16%R with (4 * 4)%R by lra. apply sqrt_square. lra.
Qed.

Lemma get_mood_volatility_some (df : DataFrame) :
  (2 <= length df)%nat ->
  get_mood_volatility df = Some (volatility_result (sort_values_date df)).
Proof.
  intros Hlen. unfold get_mood_volatility.
  destruct df as [|r t]; [simpl in Hlen; lia|]. cbn [is_empty orb].
  destruct (Nat.ltb_spec (length (r :: t)) 2); [lia | reflexivity].
Qed.

(** C9: with at least two entries and every mood between 1 and 5, the
    stability score, 1 minus the sample standard deviation over 4, is not
    negative: the standard deviation is at most 4. *)
Theorem stability_score_nonnegative (df : DataFrame) :
  (2 <= length df)%nat -> Spec.moods_in_range df ->
  exists r,
    get_mood_volatility df = Some r /\
    stability_score r = (1 - standard_deviation r / 4)%R /\
    standard_deviation r = std (map mood (sort_values_date df)) /\
    (standard_deviation r <= 4)%R /\
    (0 <= stability_score r)%R.
Proof.
  intros Hlen Hrange. rewrite (get_mood_volatility_some df Hlen).
  eexists. split; [reflexivity|].
  unfold volatility_result; cbn [stability_score standard_deviation].
  split; [reflexivity|]. split; [reflexivity|].
  destruct (std_bound (map mood (sort_values_date df))) as [H0 H4].
  - now rewrite length_map, sort_values_date_length.
  - apply Forall_map.
    eapply Permutation_Forall;
      [apply Permutation_sym, sort_values_date_perm | exact Hrange].
  - split; lra.
Qed.

Lemma stability_score_nonnegative_witness :
  exists r,
    get_mood_volatility [mkRow (mkDate 2024 1 1) 1 None [];
                         mkRow (mkDate 2024 1 2) 5 None []] = Some r /\
    (0 <= stability_score r)%R.
Proof.
  destruct (stability_score_nonnegative
              [mkRow (mkDate 2024 1 1) 1 None [];
               mkRow (mkDate 2024 1 2) 5 None []])
    as (r & Hr & _ & _ & _ & Hs).
  - simpl; lia.
  - repeat constructor; simpl; lia.
  - exists r. split; assumption.
Defined.

(** ** The Cauchy-Schwarz inequality for two columns *)

Section CauchySchwarz.


End CauchySchwarz.





(** ** Pearson's coefficient *)




(** A column whose values are all the same has no variance; a column of
    fewer than two values is such a column. *)
Lemma constant_ssqd (x : list Z) : Spec.constant x -> (ssqd x == 0)%Q.
Proof.
  intros Hc. destruct x as [|a t]; [reflexivity|].
  assert (Forall (fun v => v = a) (a :: t)) as Hall.
  { apply Forall_forall. intros v Hv. apply Hc; [exact Hv | now left]. }
  assert (ssqd (a :: t) <= 0)%Q as Hle.
  { eapply Qle_trans; [apply (ssqd_least (a :: t) (inject_Z a)); discriminate|].
    assert (Qsum (map (fun _ : Z => 0%Q) (a :: t)) == 0)%Q as H0
      by (rewrite Qsum_const; ring).
    rewrite <- H0. apply Qsum_le.
    eapply Forall_impl; [|exact Hall]. intros v ->. cbv beta. lra. }
  pose proof (ssqd_nonneg (a :: t)). lra.
Qed.




(** ** [get_mood_correlations] *)



Lemma has_journal_text_map (g : Row -> Row) (df : DataFrame) :
  (forall r, journal (g r) = journal r) ->
  has_journal_text (map g df) = has_journal_text df.
Proof.
  intros Hg. unfold has_journal_text.
  induction df as [|r t IH]; [reflexivity|].
  cbn [map existsb]. now rewrite Hg, IH.
Qed.

Lemma add_date_factors_journal (df : DataFrame) :
  has_journal_text (add_date_factors df) = has_journal_text df.
Proof.
  unfold add_date_factors. cbv zeta.
  rewrite !set_column_map, !map_map.
  now apply has_journal_text_map.
Qed.

Lemma has_journal_text_false (df : DataFrame) :
  has_journal_text df = false <-> forall r, In r df -> journal r = None.
Proof.
  unfold has_journal_text. split.
  - intros H r Hr. destruct (journal r) as [s|] eqn:E; [|reflexivity].
    assert (existsb (fun r => match journal r with
                              | Some _ => true
                              | None => false
                              end) df = true) as Ht
      by (apply existsb_exists; exists r; now rewrite E).
    congruence.
  - intros H. induction df as [|r t IH]; [reflexivity|].
    cbn [existsb]. rewrite (H r (or_introl eq_refl)). apply IH.
    intros x Hx. apply H. now right.
Qed.


(** C6: the claim fails on a series without any journal text.  The
    accessor [.str] of line 87 raises [AttributeError] on the column of
    missing values, so the call returns no mapping at all, where the claim
    has it return the coefficients of the other factors and leave the
    constant journal length out. *)
Theorem correlations_raise_without_journal_text (df : DataFrame) :
  df <> [] -> (forall r, In r df -> journal r = None) ->
  get_mood_correlations df = Raises AttributeError.
Proof.
  intros Hne Hnone. apply has_journal_text_false in Hnone.
  unfold get_mood_correlations. destruct df; [congruence|].
  now rewrite Hnone.
Qed.

Lemma correlations_raise_without_journal_text_witness :
  get_mood_correlations
    [mkRow (mkDate 2024 1 1) 2 None []; mkRow (mkDate 2024 1 2) 4 None []]
  = Raises AttributeError.
Proof.
  apply (correlations_raise_without_journal_text
           [mkRow (mkDate 2024 1 1) 2 None [];
            mkRow (mkDate 2024 1 2) 4 None []]).
  - discriminate.
  - intros r [<-|[<-|[]]]; reflexivity.
Defined.

(** * The object store: calls leave the caller's frame alone *)

Module StoreFacts.
Import Store.

Lemma nth_fresh (h : heap) (f : DataFrame) : nth (length h) (h ++ [f]) [] = f.
Proof. rewrite app_nth2 by lia. now rewrite Nat.sub_diag. Qed.

Lemma replace_fresh (h : heap) (f g : DataFrame) :
  replace_nth (length h) g (h ++ [f]) = h ++ [g].
Proof. induction h as [|x t IH]; cbn; [reflexivity | now rewrite IH]. Qed.

(** Assigning a column of a frame that was just allocated. *)
Lemma setitem_fresh (h : heap) (f : DataFrame) (name : string)
    (values : DataFrame -> list Cell) :
  setitem (length h) name values (h ++ [f])
  = (tt, h ++ [set_column name (values f) f]).
Proof.
  unfold setitem, bind, read, write. now rewrite nth_fresh, replace_fresh.
Qed.

Lemma read_fresh (h : heap) (f : DataFrame) :
  read (length h) (h ++ [f]) = (f, h ++ [f]).
Proof. unfold read. now rewrite nth_fresh. Qed.

(** Each call returns what the function of the engine returns on the
    caller's frame, and extends the store by the frame it built. *)

Lemma call_get_mood_trends_run (self : MoodAnalytics) (h : heap) :
  call_get_mood_trends self h =
  (get_mood_trends (frame_of self h),
   h ++ if is_empty (frame_of self h) then []
        else [add_moving_averages (sort_values_date (frame_of self h))]).
Proof.
  unfold call_get_mood_trends, frame_of, bind at 1, read at 1.
  destruct (nth (self_df self) h []) as [|r t] eqn:E;
    cbn [is_empty]; [unfold ret; now rewrite app_nil_r|].
  unfold sort_values, alloc, bind, read at 1. rewrite E.
  rewrite !setitem_fresh, read_fresh. reflexivity.
Qed.

Lemma call_get_weekly_patterns_run (self : MoodAnalytics) (h : heap) :
  call_get_weekly_patterns self h =
  (get_weekly_patterns (frame_of self h),
   h ++ if is_empty (frame_of self h) then []
        else [add_weekday (frame_of self h)]).
Proof.
  unfold call_get_weekly_patterns, frame_of, bind at 1, read at 1.
  destruct (nth (self_df self) h []) as [|r t] eqn:E;
    cbn [is_empty]; [unfold ret; now rewrite app_nil_r|].
  unfold copy, alloc, bind, read at 1. rewrite E.
  rewrite !setitem_fresh, read_fresh. reflexivity.
Qed.

Lemma call_get_monthly_patterns_run (self : MoodAnalytics) (h : heap) :
  call_get_monthly_patterns self h =
  (get_monthly_patterns (frame_of self h),
   h ++ if is_empty (frame_of self h) then []
        else [add_month (frame_of self h)]).
Proof.
  unfold call_get_monthly_patterns, frame_of, bind at 1, read at 1.
  destruct (nth (self_df self) h []) as [|r t] eqn:E;
    cbn [is_empty]; [unfold ret; now rewrite app_nil_r|].
  unfold copy, alloc, bind, read at 1. rewrite E.
  rewrite !setitem_fresh, read_fresh. reflexivity.
Qed.

Lemma call_get_mood_correlations_run (self : MoodAnalytics) (h : heap) :
  call_get_mood_correlations self h =
  (get_mood_correlations (frame_of self h),
   h ++ if is_empty (frame_of self h) then []
        else if has_journal_text (frame_of self h)
             then [add_factors (frame_of self h)]
             else [add_date_factors (frame_of self h)]).
Proof.
  unfold call_get_mood_correlations, frame_of, bind at 1, read at 1.
  destruct (nth (self_df self) h []) as [|r t] eqn:E;
    cbn [is_empty]; [unfold ret; now rewrite app_nil_r|].
  unfold copy, alloc, bind, read at 1. rewrite E.
  rewrite !setitem_fresh, read_fresh.
  change (set_column "month" _ _) with (add_date_factors (r :: t)).
  unfold get_mood_correlations.
  rewrite add_date_factors_journal.
  destruct (has_journal_text (r :: t)); [|reflexivity].
  rewrite setitem_fresh, read_fresh. reflexivity.
Qed.

Lemma call_get_streak_analysis_run (self : MoodAnalytics) (h : heap) :
  call_get_streak_analysis self h =
  (get_streak_analysis (frame_of self h),
   h ++ if is_empty (frame_of self h) then []
        else [sort_values_date (frame_of self h)]).
Proof.
  unfold call_get_streak_analysis, frame_of, bind at 1, read at 1.
  destruct (nth (self_df self) h []) as [|r t] eqn:E;
    cbn [is_empty]; [unfold ret; now rewrite app_nil_r|].
  unfold sort_values, alloc, bind, read at 1. rewrite E.
  rewrite read_fresh. reflexivity.
Qed.

Lemma call_get_mood_volatility_run (self : MoodAnalytics) (h : heap) :
  call_get_mood_volatility self h =
  (get_mood_volatility (frame_of self h),
   h ++ if is_empty (frame_of self h) || (length (frame_of self h) <? 2)%nat
        then []
        else [sort_values_date (frame_of self h)]).
Proof.
  unfold call_get_mood_volatility, get_mood_volatility, frame_of,
    bind at 1, read at 1.
  destruct (is_empty (nth (self_df self) h [])
            || (length (nth (self_df self) h []) <? 2)%nat) eqn:E;
    [unfold ret; now rewrite app_nil_r|].
  unfold sort_values, alloc, bind, read at 1.
  rewrite read_fresh. reflexivity.
Qed.

(** A call that only appends frames to the store, and nothing when the
    caller's frame is empty, is a pure operation. *)
Lemma appending_is_pure {A : Type} (op : MoodAnalytics -> M A)
    (result : DataFrame -> A) (built : DataFrame -> list DataFrame) :
  built [] = [] ->
  (forall self h,
     op self h = (result (frame_of self h), h ++ built (frame_of self h))) ->
  pure_operation op.
Proof.
  intros Hempty Hrun self h.
  assert (forall h', frame_of self (h' ++ built (frame_of self h'))
                     = frame_of self h') as Hkeep.
  { intros h'. unfold frame_of.
    destruct (Nat.lt_ge_cases (self_df self) (length h')) as [Hlt|Hge].
    - now apply app_nth1.
    - rewrite (nth_overflow h') by exact Hge. rewrite Hempty.
      now rewrite app_nil_r, nth_overflow. }
  pose proof (Hkeep h) as H1.
  pose proof (Hkeep (h ++ built (frame_of self h))) as H2.
  rewrite H1 in H2.
  rewrite (Hrun self h).
  rewrite (Hrun self (h ++ built (frame_of self h))).
  rewrite !H1.
  split; [reflexivity|]. split; [reflexivity|]. split; [exact H2|].
  intros r Hr. now apply app_nth1.
Qed.
End StoreFacts.

(** C8: each of the six operations returns the same result when called a
    second time, and no call changes a frame that existed before it, the
    caller's frame among them. *)
Theorem analytics_operations_are_pure :
  Store.pure_operation Store.call_get_mood_trends /\
  Store.pure_operation Store.call_get_weekly_patterns /\
  Store.pure_operation Store.call_get_monthly_patterns /\
  Store.pure_operation Store.call_get_mood_correlations /\
  Store.pure_operation Store.call_get_streak_analysis /\
  Store.pure_operation Store.call_get_mood_volatility.
Proof.
  repeat split.
  - apply (StoreFacts.appending_is_pure _ get_mood_trends
             (fun df => if is_empty df then []
                        else [add_moving_averages (sort_values_date df)]));
      [reflexivity|].
    exact StoreFacts.call_get_mood_trends_run.
  - apply (StoreFacts.appending_is_pure _ get_weekly_patterns
             (fun df => if is_empty df then [] else [add_weekday df]));
      [reflexivity|].
    exact StoreFacts.call_get_weekly_patterns_run.
  - apply (StoreFacts.appending_is_pure _ get_monthly_patterns
             (fun df => if is_empty df then [] else [add_month df]));
      [reflexivity|].
    exact StoreFacts.call_get_monthly_patterns_run.
  - apply (StoreFacts.appending_is_pure _ get_mood_correlations
             (fun df => if is_empty df then []
                        else if has_journal_text df then [add_factors df]
                             else [add_date_factors df]));
      [reflexivity|].
    exact StoreFacts.call_get_mood_correlations_run.
  - apply (StoreFacts.appending_is_pure _ get_streak_analysis
             (fun df => if is_empty df then [] else [sort_values_date df]));
      [reflexivity|].
    exact StoreFacts.call_get_streak_analysis_run.
  - apply (StoreFacts.appending_is_pure _ get_mood_volatility
             (fun df => if is_empty df || (length df <? 2)%nat then []
                        else [sort_values_date df])); [reflexivity|].
    exact StoreFacts.call_get_mood_volatility_run.
Qed.

(** * Further properties of the engine *)

(** ** The rolling means of [get_mood_trends] *)

Lemma set_column_cells (name : string) (values : list Cell) (df : DataFrame) :
  length values = length df ->
  map (fun r => get_cell name (extras r)) (set_column name values df)
  = map Some values.
Proof.
  unfold set_column. revert values.
  induction df as [|r t IH]; intros [|v vs] Hlen; cbn in *;
    try discriminate; [reflexivity|].
  injection Hlen as Hlen. now rewrite get_set_cell_same, IH.
Qed.

Lemma set_column_other_cells (name other : string) (values : list Cell)
    (df : DataFrame) :
  name <> other -> length values = length df ->
  map (fun r => get_cell other (extras r)) (set_column name values df)
  = map (fun r => get_cell other (extras r)) df.
Proof.
  intros Hne. unfold set_column. revert values.
  induction df as [|r t IH]; intros [|v vs] Hlen; cbn in *;
    try discriminate; [reflexivity|].
  injection Hlen as Hlen. now rewrite get_set_cell_other, IH.
Qed.

Lemma moving_average_columns (df : DataFrame) :
  map (num_cell "mood_7day_avg") (add_moving_averages df)
    = map Some (rolling_mean 7 (map mood df)) /\
  map (num_cell "mood_30day_avg") (add_moving_averages df)
    = map Some (rolling_mean 30 (map mood df)).
Proof.
  unfold add_moving_averages.
  set (with7 := set_column "mood_7day_avg"
                  (map CNum (rolling_mean 7 (map mood df))) df).
  assert (length (map CNum (rolling_mean 7 (map mood df))) = length df) as L7
    by now rewrite !length_map, rolling_mean_length, length_map.
  destruct (set_column_base "mood_7day_avg" _ df L7) as (_ & Hm & _ & Hl).
  fold with7 in Hm, Hl.
  assert (length (map CNum (rolling_mean 30 (map mood with7))) = length with7)
    as L30 by now rewrite !length_map, rolling_mean_length, length_map.
  assert (forall name f,
            map (num_cell name) f
            = map (fun c => match c with Some (CNum q) => Some q | _ => None end)
                  (map (fun r => get_cell name (extras r)) f)) as Hnum.
  { intros name f. rewrite map_map. reflexivity. }
  split.
  - rewrite Hnum, set_column_other_cells by (discriminate || exact L30).
    unfold with7. rewrite set_column_cells by exact L7.
    rewrite !map_map. reflexivity.
  - rewrite Hnum, set_column_cells by exact L30.
    rewrite Hm, !map_map. reflexivity.
Qed.

Lemma last_map {A B : Type} (f : A -> B) (l : list A) (a : A) :
  last (map f l) (f a) = f (last l a).
Proof.
  induction l as [|x t IH]; [reflexivity|].
  destruct t; [reflexivity|]. exact IH.
Qed.

Lemma last_seq (n : nat) : last (seq 0 (S n)) 0%nat = n.
Proof. rewrite seq_S. apply last_last. Qed.

(** The last rolling mean of window [w] is the mean of the last [w]
    values. *)
Lemma rolling_mean_last (w : nat) (l : list Z) (d : Q) :
  l <> [] -> last (rolling_mean w l) d = mean (tail w l).
Proof.
  intros Hne. unfold rolling_mean.
  destruct (length l) as [|n] eqn:E.
  { apply length_zero_iff_nil in E. congruence. }
  rewrite seq_S, map_app. cbn [map]. rewrite last_last.
  cbn [Nat.add]. rewrite <- E, firstn_all. reflexivity.
Qed.

Lemma last_map_some {A : Type} (l : list A) (d : A) :
  l <> [] -> last (map Some l) None = Some (last l d).
Proof.
  induction l as [|x t IH]; [congruence|]. intros _.
  destruct t as [|y t']; [reflexivity|].
  change (last (map Some (y :: t')) None = Some (last (y :: t') d)).
  apply IH. discriminate.
Qed.

Lemma rolling_mean_short (w1 w2 : nat) (l : list Z) :
  (length l <= w1)%nat -> (length l <= w2)%nat ->
  rolling_mean w1 l = rolling_mean w2 l.
Proof.
  intros H1 H2. unfold rolling_mean. apply map_ext_in. intros i Hi.
  apply in_seq in Hi.
  rewrite !tail_all; [reflexivity | |]; rewrite length_firstn; lia.
Qed.

(** X1: the frame returned with the trend is the frame sorted by date with
    its two columns of rolling means; the last 7-day rolling mean is the
    recent average, and with at most 7 entries the two columns coincide. *)
Theorem rolling_columns_of_trend_frame (df : DataFrame) :
  df <> [] ->
  exists r,
    get_mood_trends df = Some r /\
    let sorted := sort_values_date df in
    map date_of (data_with_averages r) = map date_of sorted /\
    map mood (data_with_averages r) = map mood sorted /\
    map (num_cell "mood_7day_avg") (data_with_averages r)
      = map Some (rolling_mean 7 (map mood sorted)) /\
    map (num_cell "mood_30day_avg") (data_with_averages r)
      = map Some (rolling_mean 30 (map mood sorted)) /\
    last (map (num_cell "mood_7day_avg") (data_with_averages r)) None
      = Some (recent_average r) /\
    ((length df <= 7)%nat ->
     map (num_cell "mood_30day_avg") (data_with_averages r)
     = map (num_cell "mood_7day_avg") (data_with_averages r)).
Proof.
  intros Hne. rewrite (get_mood_trends_some df Hne).
  eexists. split; [reflexivity|]. cbv zeta.
  unfold trend_result;
    cbn [data_with_averages recent_average].
  destruct (add_moving_averages_base (sort_values_date df)) as (Hd & Hm & Hl).
  destruct (moving_average_columns (sort_values_date df)) as (H7 & H30).
  rewrite Hd, Hm, H7, H30.
  assert (map mood (sort_values_date df) <> []) as Hmoods.
  { intros E. apply map_eq_nil in E.
    now apply (sort_values_date_nonempty df Hne). }
  repeat split.
  - rewrite (last_map_some _ 0%Q).
    + now rewrite rolling_mean_last.
    + intros E. apply (f_equal (@length Q)) in E.
      rewrite rolling_mean_length in E. cbn in E.
      apply length_zero_iff_nil in E. contradiction.
  - intros Hlen. f_equal.
    apply rolling_mean_short;
      rewrite length_map, sort_values_date_length; lia.
Qed.

Lemma rolling_columns_of_trend_frame_witness :
  exists r,
    get_mood_trends [mkRow (mkDate 2024 1 2) 5 None [];
                     mkRow (mkDate 2024 1 1) 2 None []] = Some r /\
    last (map (num_cell "mood_7day_avg") (data_with_averages r)) None
      = Some (recent_average r).
Proof.
  destruct (rolling_columns_of_trend_frame
              [mkRow (mkDate 2024 1 2) 5 None [];
               mkRow (mkDate 2024 1 1) 2 None []])
    as (r & Hr & _ & _ & _ & _ & Hlast & _); [discriminate|].
  exists r. split; assumption.
Defined.

(** ** The order of the rows does not matter *)

Lemma sorted_perm_unique_on {A : Type} (leb : A -> A -> bool) (l1 l2 : list A) :
  (forall a b, In a l1 -> In b l1 ->
               leb a b = true -> leb b a = true -> a = b) ->
  StronglySorted (fun a b => leb a b = true) l1 ->
  StronglySorted (fun a b => leb a b = true) l2 ->
  Permutation l1 l2 -> l1 = l2.
Proof.
  intros Hanti H1. revert l2 Hanti.
  induction H1 as [|a t1 Hs1 IH Ha]; intros l2 Hanti H2 Hp.
  - now apply Permutation_nil in Hp.
  - destruct H2 as [|b t2 Hs2 Hb].
    + now apply Permutation_sym, Permutation_nil in Hp.
    + assert (a = b) as ->.
      { assert (In a (b :: t2)) as Hin1
          by (eapply Permutation_in; [exact Hp | now left]).
        assert (In b (a :: t1)) as Hin2
          by (eapply Permutation_in;
              [apply Permutation_sym; exact Hp | now left]).
        destruct Hin1 as [->|Hin1]; [reflexivity|].
        destruct Hin2 as [->|Hin2]; [reflexivity|].
        rewrite Forall_forall in Ha, Hb.
        apply Hanti; [now left | now right | now apply Ha | now apply Hb]. }
      f_equal. apply IH; [|exact Hs2|now apply Permutation_cons_inv with b].
      intros x y Hx Hy. apply Hanti; now right.
Qed.

Lemma NoDup_map_injective_on {A B : Type} (f : A -> B) (l : list A) :
  NoDup (map f l) ->
  forall a b, In a l -> In b l -> f a = f b -> a = b.
Proof.
  induction l as [|x t IH]; intros Hnd a b Ha Hb E; [destruct Ha|].
  cbn [map] in Hnd. inversion Hnd as [|? ? Hnotin Hnd']; subst.
  destruct Ha as [<-|Ha], Hb as [<-|Hb]; try reflexivity.
  - exfalso. apply Hnotin. rewrite E. now apply in_map.
  - exfalso. apply Hnotin. rewrite <- E. now apply in_map.
  - now apply IH.
Qed.

Lemma sort_values_date_perm_invariant (df1 df2 : DataFrame) :
  Permutation df1 df2 -> NoDup (map date_of df1) ->
  sort_values_date df1 = sort_values_date df2.
Proof.
  intros Hp Hnd.
  apply (sorted_perm_unique_on
           (fun a b => date_leb (date_of a) (date_of b))).
  - intros a b Ha Hb Hab Hba.
    apply (NoDup_map_injective_on date_of df1 Hnd).
    + eapply Permutation_in; [apply sort_values_date_perm | exact Ha].
    + eapply Permutation_in; [apply sort_values_date_perm | exact Hb].
    + now apply date_leb_antisym.
  - apply sort_values_date_sorted.
  - apply sort_values_date_sorted.
  - rewrite !sort_values_date_perm. exact Hp.
Qed.

(** X2: when no two rows share a date, the trend, the streak analysis and
    the volatility do not depend on the order in which the rows are
    stored. *)
Theorem sorted_analyses_ignore_row_order (df1 df2 : DataFrame) :
  Permutation df1 df2 -> NoDup (map date_of df1) ->
  get_mood_trends df1 = get_mood_trends df2 /\
  get_streak_analysis df1 = get_streak_analysis df2 /\
  get_mood_volatility df1 = get_mood_volatility df2.
Proof.
  intros Hp Hnd.
  pose proof (sort_values_date_perm_invariant df1 df2 Hp Hnd) as Hs.
  pose proof (Permutation_length Hp) as Hl.
  unfold get_mood_trends, get_streak_analysis, get_mood_volatility.
  rewrite Hs, Hl.
  destruct df1 as [|a t1], df2 as [|b t2]; try discriminate Hl;
    repeat split.
Qed.

Lemma sorted_analyses_ignore_row_order_witness :
  get_streak_analysis [mkRow (mkDate 2024 1 2) 5 None [];
                       mkRow (mkDate 2024 1 1) 2 None []]
  = get_streak_analysis [mkRow (mkDate 2024 1 1) 2 None [];
                         mkRow (mkDate 2024 1 2) 5 None []].
Proof.
  apply (sorted_analyses_ignore_row_order
           [mkRow (mkDate 2024 1 2) 5 None [];
            mkRow (mkDate 2024 1 1) 2 None []]
           [mkRow (mkDate 2024 1 1) 2 None [];
            mkRow (mkDate 2024 1 2) 5 None []]).
  - apply perm_swap.
  - repeat constructor; cbn; intuition discriminate.
Defined.

(** ** Averages stay on the scale *)

Lemma Zsum_bounds (l : list Z) (lo hi : Z) :
  Forall (fun v => lo <= v <= hi) l ->
  Zlen l * lo <= Zsum l <= Zlen l * hi.
Proof.
  induction 1 as [|v t Hv _ IH]; [unfold Zlen; cbn; lia|].
  rewrite Zlen_cons. cbn [Zsum fold_right]. unfold Zsum in IH. lia.
Qed.

Lemma mean_bounds (l : list Z) (lo hi : Z) :
  l <> [] -> Forall (fun v => lo <= v <= hi) l ->
  (inject_Z lo <= mean l <= inject_Z hi)%Q.
Proof.
  intros Hne Hall. unfold mean.
  pose proof (Zlen_pos l Hne) as Hpos.
  destruct (Zsum_bounds l lo hi Hall) as [Hlo Hhi].
  assert (0 < inject_Z (Zlen l))%Q as Hq
    by (change 0%Q with (inject_Z 0); now rewrite <- Zlt_Qlt).
  split.
  - apply Qle_shift_div_l; [exact Hq|].
    rewrite <- inject_Z_mult, <- Zle_Qle. lia.
  - apply Qle_shift_div_r; [exact Hq|].
    rewrite <- inject_Z_mult, <- Zle_Qle. lia.
Qed.

Lemma Forall_skipn {A : Type} (P : A -> Prop) (n : nat) (l : list A) :
  Forall P l -> Forall P (skipn n l).
Proof.
  intros H. rewrite <- (firstn_skipn n l) in H.
  now apply Forall_app in H.
Qed.

Lemma Forall_firstn {A : Type} (P : A -> Prop) (n : nat) (l : list A) :
  Forall P l -> Forall P (firstn n l).
Proof.
  intros H. rewrite <- (firstn_skipn n l) in H.
  now apply Forall_app in H.
Qed.

Lemma tail_nonempty {A : Type} (n : nat) (l : list A) :
  (0 < n)%nat -> l <> [] -> tail n l <> [].
Proof.
  intros Hn Hne E. apply (f_equal (@length A)) in E.
  unfold tail in E. rewrite length_skipn in E. cbn in E.
  assert (length l <> 0%nat) by (intros H0; apply length_zero_iff_nil in H0; auto).
  lia.
Qed.

(** X3: when every mood lies between 1 and 5, so do the recent and the
    previous average. *)
Theorem trend_averages_on_scale (df : DataFrame) :
  df <> [] -> Spec.moods_in_range df ->
  exists r,
    get_mood_trends df = Some r /\
    (1 <= recent_average r <= 5)%Q /\
    (1 <= previous_average r <= 5)%Q.
Proof.
  intros Hne Hrange. rewrite (get_mood_trends_some df Hne).
  eexists. split; [reflexivity|].
  unfold trend_result; cbn [recent_average previous_average].
  destruct (add_moving_averages_base (sort_values_date df)) as (_ & Hm & Hl).
  rewrite Hm, Hl.
  set (moods := map mood (sort_values_date df)).
  assert (Forall (fun v => 1 <= v <= 5) moods) as Hall.
  { apply Forall_map.
    eapply Permutation_Forall;
      [apply Permutation_sym, sort_values_date_perm | exact Hrange]. }
  assert (moods <> []) as Hmoods.
  { intros E. apply map_eq_nil in E.
    now apply (sort_values_date_nonempty df Hne). }
  assert (1 <= mean (tail 7 moods) <= 5)%Q as Hrecent.
  { apply (mean_bounds _ 1 5).
    - apply tail_nonempty; [lia | exact Hmoods].
    - now apply Forall_skipn. }
  split; [exact Hrecent|].
  destruct (Nat.leb_spec 14 (length (sort_values_date df))) as [H14|_];
    [|exact Hrecent].
  apply (mean_bounds _ 1 5).
  - unfold head, tail. intros E. apply (f_equal (@length Z)) in E.
    rewrite length_firstn, length_skipn in E. unfold moods in E.
    rewrite length_map in E. cbn [length] in E. lia.
  - now apply Forall_firstn, Forall_skipn.
Qed.

Lemma trend_averages_on_scale_witness :
  exists r,
    get_mood_trends [mkRow (mkDate 2024 1 2) 5 None [];
                     mkRow (mkDate 2024 1 1) 2 None []] = Some r /\
    (1 <= recent_average r <= 5)%Q /\
    (1 <= previous_average r <= 5)%Q.
Proof.
  apply (trend_averages_on_scale
           [mkRow (mkDate 2024 1 2) 5 None [];
            mkRow (mkDate 2024 1 1) 2 None []]).
  - discriminate.
  - repeat constructor; cbn; lia.
Defined.

(** ** Every entry is counted in exactly one group *)

Lemma Zsum_cons (a : Z) (l : list Z) : Zsum (a :: l) = a + Zsum l.
Proof. reflexivity. Qed.

Lemma Zsum_map_add {A : Type} (f g : A -> Z) (l : list A) :
  Zsum (map (fun a => f a + g a) l) = Zsum (map f l) + Zsum (map g l).
Proof.
  induction l as [|a t IH]; [reflexivity|].
  cbn [map]. rewrite !Zsum_cons, IH. lia.
Qed.

Lemma Zsum_map_zero {A : Type} (f : A -> Z) (l : list A) :
  (forall a, In a l -> f a = 0) -> Zsum (map f l) = 0.
Proof.
  induction l as [|a t IH]; intros H; [reflexivity|].
  cbn [map]. rewrite Zsum_cons, IH, H; [reflexivity | now left |].
  intros x Hx. apply H. now right.
Qed.

Section Partition.
Context {K : Type} (key : Row -> K) (eqb : K -> K -> bool).
Hypothesis eqb_eq : forall a b, eqb a b = true <-> a = b.

Lemma one_key_matches (k0 : K) (ks : list K) :
  NoDup ks -> In k0 ks ->
  Zsum (map (fun k => if eqb k0 k then 1 else 0) ks) = 1.
Proof.
  induction 1 as [|k t Hnotin Hnd IH]; intros Hin; [destruct Hin|].
  cbn [map]. rewrite Zsum_cons.
  destruct (eqb k0 k) eqn:E.
  - apply eqb_eq in E. subst k0.
    rewrite Zsum_map_zero; [reflexivity|].
    intros x Hx. destruct (eqb k x) eqn:Ex; [|reflexivity].
    apply eqb_eq in Ex. subst x. contradiction.
  - destruct Hin as [->|Hin].
    + assert (eqb k0 k0 = true) by now apply eqb_eq. congruence.
    + rewrite (IH Hin). lia.
Qed.

Lemma groups_partition (ks : list K) (df : DataFrame) :
  NoDup ks -> (forall r, In r df -> In (key r) ks) ->
  Zsum (map (fun k => Zlen (filter (fun r => eqb (key r) k) df)) ks)
  = Zlen df.
Proof.
  intros Hnd. induction df as [|r t IH]; intros Hkeys.
  - now apply Zsum_map_zero.
  - rewrite Zlen_cons, <- IH by (intros x Hx; apply Hkeys; now right).
    rewrite <- (one_key_matches (key r) ks Hnd) by (apply Hkeys; now left).
    rewrite Z.add_comm, <- Zsum_map_add. f_equal. apply map_ext.
    intros k. cbn [filter].
    destruct (eqb (key r) k); [rewrite Zlen_cons|]; lia.
Qed.
End Partition.

(** ** The weekly and the monthly table *)

Lemma weekday_order_nodup : NoDup weekday_order.
Proof. repeat constructor; cbn; intuition discriminate. Qed.

Lemma weekly_labels_cover (df : DataFrame) (r : Row) :
  In r df ->
  In (day_name (date_of r)) (filter (Spec.has_entry_on df) weekday_order).
Proof.
  intros Hr. apply filter_In. split; [apply day_name_in_order|].
  unfold Spec.has_entry_on. apply existsb_exists.
  exists r. split; [exact Hr | apply String.eqb_refl].
Qed.

Lemma on_weekday_nonempty (df : DataFrame) (name : string) :
  Spec.has_entry_on df name = true -> Spec.on_weekday name df <> [].
Proof.
  unfold Spec.has_entry_on. rewrite existsb_exists.
  intros (r & Hr & E) Hnil.
  assert (In r (Spec.on_weekday name df)) as Hin
    by (apply filter_In; split; assumption).
  rewrite Hnil in Hin. exact Hin.
Qed.

Lemma Forall_filter_keep {A : Type} (P : A -> Prop) (f : A -> bool)
    (l : list A) :
  Forall P l -> Forall P (filter f l).
Proof.
  rewrite !Forall_forall. intros H x Hx. apply filter_In in Hx. now apply H.
Qed.

(** The statistics of a non-empty group: a count of at least one, a mean
    within half a hundredth of the exact mean, and on the scale when the
    moods are. *)
Lemma group_stat_sound (g : DataFrame) :
  g <> [] ->
  1 <= Zlen g /\
  (mean (map mood g) - (1 # 200) <= round2 (mean (map mood g))
   <= mean (map mood g) + (1 # 200))%Q /\
  (Forall (fun r => 1 <= mood r <= 5) g ->
   (1 <= round2 (mean (map mood g)) <= 5)%Q).
Proof.
  intros Hne. split; [pose proof (Zlen_pos g Hne); lia|].
  split; [apply round2_close|].
  intros Hrange. apply (round2_between _ 1 5).
  apply (mean_bounds _ 1 5).
  - intros E. apply map_eq_nil in E. contradiction.
  - now apply Forall_map.
Qed.

(** X4: in the weekly table every entry of the series is counted under
    exactly one weekday: the counts add up to the number of entries, no
    weekday appears twice and none with a count of zero.  Each reported
    mean is within 0.005 of the exact mean of that weekday's moods, and
    between 1 and 5 when all moods are. *)
Theorem weekly_table_accounts_for_entries (df : DataFrame) :
  df <> [] ->
  exists r,
    get_weekly_patterns df = Some r /\
    Zsum (map (fun row => snd (snd row)) (weekday_averages r)) = Zlen df /\
    NoDup (map fst (weekday_averages r)) /\
    (forall name m c,
       In (name, (m, c)) (weekday_averages r) ->
       1 <= c /\
       (mean (map mood (Spec.on_weekday name df)) - (1 # 200) <= m
        <= mean (map mood (Spec.on_weekday name df)) + (1 # 200))%Q /\
       (Spec.moods_in_range df -> (1 <= m <= 5)%Q)).
Proof.
  intros Hne. rewrite (get_weekly_patterns_some df Hne).
  eexists. split; [reflexivity|]. rewrite weekly_table.
  set (labels := filter (Spec.has_entry_on df) weekday_order).
  split; [|split].
  - rewrite map_map. cbn [snd]. unfold Spec.weekday_stat. cbn [snd].
    apply (groups_partition (fun r => day_name (date_of r)) String.eqb).
    + apply String.eqb_eq.
    + apply NoDup_filter, weekday_order_nodup.
    + intros r Hr. now apply weekly_labels_cover.
  - rewrite map_map. cbn [fst]. rewrite map_id.
    apply NoDup_filter, weekday_order_nodup.
  - intros name m c Hin. apply in_map_iff in Hin.
    destruct Hin as (l & Hl & Hlab). unfold Spec.weekday_stat in Hl.
    injection Hl as -> <- <-.
    apply filter_In in Hlab. destruct Hlab as [_ Hhas].
    destruct (group_stat_sound (Spec.on_weekday name df)
                (on_weekday_nonempty df name Hhas)) as (Hc & Hm & Hs).
    split; [exact Hc|]. split; [exact Hm|].
    intros Hrange. apply Hs. now apply Forall_filter_keep.
Qed.

Lemma weekly_table_accounts_for_entries_witness :
  exists r,
    get_weekly_patterns
      [mkRow (mkDate 2024 1 1) 4 None []; mkRow (mkDate 2024 1 8) 5 None [];
       mkRow (mkDate 2024 1 9) 3 None []] = Some r /\
    Zsum (map (fun row => snd (snd row)) (weekday_averages r)) = 3.
Proof.
  destruct (weekly_table_accounts_for_entries
              [mkRow (mkDate 2024 1 1) 4 None [];
               mkRow (mkDate 2024 1 8) 5 None [];
               mkRow (mkDate 2024 1 9) 3 None []])
    as (r & Hr & Hsum & _); [discriminate|].
  exists r. split; assumption.
Defined.

Lemma month_numbers_nodup (df : DataFrame) :
  NoDup (map snd (group_keys month_key_dec month_key_leb Spec.month_key df)).
Proof.
  apply NoDup_map_inv with (f := fun m => (month_label m, m)).
  rewrite <- month_keys_shape. apply group_keys_nodup.
Qed.

(** X5: in the monthly table every entry of the series is counted under
    exactly one month: the counts add up to the number of entries and no
    bucket is empty.  Each reported mean is within 0.005 of the exact mean
    of that month's moods, and between 1 and 5 when all moods are. *)
Theorem monthly_table_accounts_for_entries (df : DataFrame) :
  df <> [] ->
  exists r,
    get_monthly_patterns df = Some r /\
    Zsum (map (fun row => snd (snd row)) (monthly_averages r)) = Zlen df /\
    (forall name m avg c,
       In ((name, m), (avg, c)) (monthly_averages r) ->
       1 <= c /\
       (mean (map mood (Spec.in_month m df)) - (1 # 200) <= avg
        <= mean (map mood (Spec.in_month m df)) + (1 # 200))%Q /\
       (Spec.moods_in_range df -> (1 <= avg <= 5)%Q)).
Proof.
  intros Hne. rewrite (get_monthly_patterns_some df Hne).
  eexists. split; [reflexivity|]. rewrite monthly_table.
  set (keys := group_keys month_key_dec month_key_leb Spec.month_key df).
  split.
  - rewrite (Zsum_perm _ (map (fun row => snd (snd row))
                            (map (fun k => (k, Spec.month_stat df (snd k))) keys)))
      by apply Permutation_map, sort_by_perm.
    rewrite map_map. cbn [snd]. unfold Spec.month_stat. cbn [snd].
    rewrite <- (map_map snd (fun m => Zlen (Spec.in_month m df))).
    apply (groups_partition (fun r => month (date_of r)) Z.eqb).
    + apply Z.eqb_eq.
    + apply month_numbers_nodup.
    + intros r Hr. apply in_map_iff. exists (Spec.month_key r).
      split; [reflexivity|]. apply group_keys_in. eauto.
  - intros name m avg c Hin. apply sort_by_in in Hin.
    apply in_map_iff in Hin. destruct Hin as (k & Hk & Hkeys).
    pose proof (group_rows_nonempty month_key_dec month_key_leb Spec.month_key
                  df k Hkeys) as Hrows.
    apply group_keys_in in Hkeys. destruct Hkeys as (r & _ & <-).
    unfold Spec.month_key, month_name, Spec.month_stat in Hk, Hrows.
    cbn [snd] in Hk. injection Hk as <- <- <- <-.
    rewrite month_group_rows in Hrows.
    destruct (group_stat_sound _ Hrows) as (Hc & Hm & Hs).
    split; [exact Hc|]. split; [exact Hm|].
    intros Hrange. apply Hs. now apply Forall_filter_keep.
Qed.

Lemma monthly_table_accounts_for_entries_witness :
  exists r,
    get_monthly_patterns
      [mkRow (mkDate 2023 3 14) 4 None []; mkRow (mkDate 2024 3 2) 5 None [];
       mkRow (mkDate 2024 5 2) 1 None []] = Some r /\
    Zsum (map (fun row => snd (snd row)) (monthly_averages r)) = 3.
Proof.
  destruct (monthly_table_accounts_for_entries
              [mkRow (mkDate 2023 3 14) 4 None [];
               mkRow (mkDate 2024 3 2) 5 None [];
               mkRow (mkDate 2024 5 2) 1 None []])
    as (r & Hr & Hsum & _); [discriminate|].
  exists r. split; assumption.
Defined.

(** ** More on [get_streak_analysis] *)

Lemma Zsum_app (l1 l2 : list Z) : Zsum (l1 ++ l2) = Zsum l1 + Zsum l2.
Proof.
  induction l1 as [|a t IH]; [reflexivity|].
  cbn [app]. rewrite !Zsum_cons, IH. lia.
Qed.

Lemma Zsum_lengths_concat {A : Type} (ls : list (list A)) :
  Zsum (map Zlen ls) = Zlen (concat ls).
Proof.
  induction ls as [|l t IH]; [reflexivity|].
  cbn [map concat]. rewrite Zsum_cons, Zlen_app, IH. reflexivity.
Qed.

Lemma Zsum_filter_le {A : Type} (f : A -> Z) (p : A -> bool) (l : list A) :
  (forall a, 0 <= f a) -> Zsum (map f (filter p l)) <= Zsum (map f l).
Proof.
  intros Hpos. induction l as [|a t IH]; [cbn; lia|].
  cbn [filter map]. specialize (Hpos a).
  destruct (p a); cbn [map]; rewrite !Zsum_cons; lia.
Qed.

Lemma Zmax_list_in (l : list Z) : l <> [] -> In (Zmax_list l) l.
Proof.
  destruct l as [|a t]; [congruence|]. intros _. unfold Zmax_list.
  revert a. induction t as [|b t IH]; intros a; [now left|].
  cbn [fold_left]. destruct (IH (Z.max a b)) as [H|H].
  - rewrite <- H.
    destruct (Z.max_spec a b) as [[_ E]|[_ E]]; rewrite E;
      [right; left | left]; reflexivity.
  - right. right. exact H.
Qed.

Lemma Zsum_ge_member (l : list Z) (x : Z) :
  Forall (fun v => 0 <= v) l -> In x l -> x <= Zsum l.
Proof.
  induction 1 as [|v t Hv Ht IH]; intros Hin; [destruct Hin|].
  rewrite Zsum_cons.
  assert (0 <= Zsum t).
  { clear IH Hin. induction Ht; [cbn; lia | rewrite Zsum_cons; lia]. }
  destruct Hin as [->|Hin]; [lia | specialize (IH Hin); lia].
Qed.

Lemma Zsum_ge_twice_len (l : list Z) :
  Forall (fun v => 2 <= v) l -> 2 * Zlen l <= Zsum l.
Proof.
  induction 1 as [|v t Hv _ IH]; [cbn; lia|].
  rewrite Zsum_cons, Zlen_cons. lia.
Qed.

(** The recorded streaks: each has at least two days, and together they
    have no more days than the series has entries. *)
Lemma find_streaks_sound (df : DataFrame) :
  let streaks := find_streaks (map date_of (sort_values_date df)) in
  Forall (fun v => 2 <= v) streaks /\ Zsum streaks <= Zlen df.
Proof.
  cbv zeta. rewrite find_streaks_long_runs. split.
  - apply Forall_map, Forall_forall. intros run Hrun.
    unfold Spec.long_runs in Hrun. apply filter_In in Hrun.
    destruct Hrun as [_ Hlen]. apply Nat.ltb_lt in Hlen. unfold Zlen. lia.
  - unfold Spec.long_runs.
    eapply Z.le_trans; [apply Zsum_filter_le; intros; apply Zlen_nonneg|].
    rewrite Zsum_lengths_concat. unfold Spec.runs_of.
    rewrite runs_concat. unfold Zlen.
    rewrite length_map, sort_values_date_length. lia.
Qed.

(** X6: the streaks that [get_streak_analysis] records hold at least two
    days each and together no more days than there are entries; so the
    longest streak is between 1 and the number of entries, there are at
    most half as many streaks as entries, and as soon as there is a streak
    the longest has at least two days. *)
Theorem streak_counts_bounded_by_entries (df : DataFrame) :
  df <> [] ->
  exists r,
    get_streak_analysis df = Some r /\
    1 <= longest_streak r <= Zlen df /\
    0 <= 2 * total_streaks r <= Zlen df /\
    (0 < total_streaks r -> 2 <= longest_streak r) /\
    (1 <= average_streak r)%Q.
Proof.
  intros Hne. rewrite (get_streak_analysis_some df Hne).
  eexists. split; [reflexivity|].
  unfold streak_result;
    cbn [longest_streak total_streaks average_streak].
  destruct (find_streaks_sound df) as [H2 Hsum]. cbv zeta in H2, Hsum.
  pose proof (Zlen_pos df Hne) as Hn.
  set (streaks := find_streaks (map date_of (sort_values_date df))) in *.
  pose proof (Zsum_ge_twice_len streaks H2) as Htwice.
  pose proof (Zlen_nonneg streaks) as Hlen.
  destruct streaks as [|s t] eqn:E.
  - change (Zlen (@nil Z)) with 0.
    split; [lia|]. split; [lia|]. split; [lia | apply Qle_refl].
  - assert (s :: t <> []) as Hst by discriminate.
    pose proof (Zmax_list_in (s :: t) Hst) as Hin.
    assert (2 <= Zmax_list (s :: t)) as Hmax2
      by (rewrite Forall_forall in H2; now apply H2).
    assert (Zmax_list (s :: t) <= Zsum (s :: t)) as Hmaxsum.
    { apply Zsum_ge_member; [|exact Hin].
      eapply Forall_impl; [|exact H2]. intros v Hv. cbv beta in Hv. lia. }
    split; [lia|]. split; [lia|]. split; [lia|].
    apply (mean_bounds (s :: t) 1 (Zmax_list (s :: t)) Hst).
    rewrite Forall_forall in H2 |- *. intros v Hv. split.
    + specialize (H2 v Hv). cbv beta in H2. lia.
    + pose proof (Zmax_list_ge (s :: t)) as Hge.
      rewrite Forall_forall in Hge. now apply Hge.
Qed.

Lemma streak_counts_bounded_by_entries_witness :
  exists r,
    get_streak_analysis [mkRow (mkDate 2024 1 1) 4 None [];
                         mkRow (mkDate 2024 1 2) 2 None [];
                         mkRow (mkDate 2024 1 5) 2 None []] = Some r /\
    1 <= longest_streak r <= 3 /\ 0 <= 2 * total_streaks r <= 3.
Proof.
  destruct (streak_counts_bounded_by_entries
              [mkRow (mkDate 2024 1 1) 4 None [];
               mkRow (mkDate 2024 1 2) 2 None [];
               mkRow (mkDate 2024 1 5) 2 None []])
    as (r & Hr & H1 & H2 & _); [discriminate|].
  exists r. split; [exact Hr|]. split; assumption.
Defined.

(** ** The consistency score *)

(** On calendar dates, a later date has a larger ordinal. *)
Lemma toordinal_strict (a b : date) :
  valid_date a -> valid_date b -> date_leb a b = true -> a <> b ->
  toordinal a < toordinal b.
Proof.
  intros (Hya & Hma & Hda) (Hyb & Hmb & Hdb). unfold date_leb, toordinal.
  destruct a as [ya ma da], b as [yb mb db]. cbn [year month day] in *.
  destruct (Z.compare_spec ya yb) as [Ey|Hy|Hy]; [|intros _ _|discriminate].
  - subst yb.
    destruct (Z.compare_spec ma mb) as [Em|Hm|Hm]; [|intros _ _|discriminate].
    + subst mb. rewrite Z.leb_le. intros Hle Hne.
      assert (da <> db) by congruence. lia.
    + pose proof (days_before_month_mono ya ma mb da). lia.
  - pose proof (day_of_year_bounds _ _ _ Hma Hda) as Ba.
    pose proof (day_of_year_bounds _ _ _ Hmb Hdb) as Bb.
    pose proof (days_before_year_step ya) as Hs.
    pose proof (days_before_year_mono (ya + 1) yb).
    destruct (is_leap ya), (is_leap yb); lia.
Qed.

Lemma last_cons_default {A : Type} (x : A) (l : list A) (d1 d2 : A) :
  last (x :: l) d1 = last (x :: l) d2.
Proof.
  revert x. induction l as [|y t IH]; intros x; [reflexivity|].
  change (last (y :: t) d1 = last (y :: t) d2). apply IH.
Qed.

(** In a series of distinct calendar dates in ascending order, the span
    from the first date to the last is at least the number of steps. *)
Lemma sorted_dates_span (dates : list date) (d0 : date) :
  StronglySorted (fun a b => date_leb a b = true) (d0 :: dates) ->
  NoDup (d0 :: dates) -> Forall valid_date (d0 :: dates) ->
  Zlen dates <= days_between (last (d0 :: dates) d0) d0.
Proof.
  revert d0. induction dates as [|d1 t IH]; intros d0 Hs Hnd Hv.
  - unfold days_between, Zlen. cbn. lia.
  - inversion Hs as [|? ? Hs' Hall]; subst.
    inversion Hnd as [|? ? Hnotin Hnd']; subst.
    inversion Hv as [|? ? Hv0 Hv']; subst.
    specialize (IH d1 Hs' Hnd' Hv').
    inversion Hall as [|? ? H01 _]; subst.
    inversion Hv' as [|? ? Hv1 _]; subst.
    assert (d0 <> d1) as Hne by (intros ->; apply Hnotin; now left).
    pose proof (toordinal_strict d0 d1 Hv0 Hv1 H01 Hne) as Hlt.
    rewrite Zlen_cons.
    change (last (d0 :: d1 :: t) d0) with (last (d1 :: t) d0).
    rewrite (last_cons_default d1 t d0 d1).
    unfold days_between in *. lia.
Qed.

(** X7: for distinct calendar dates the consistency score lies in (0, 1]:
    the span of days from the first to the last entry, both included, has
    room for every entry. *)
Theorem consistency_score_is_a_fraction (df : DataFrame) :
  df <> [] -> NoDup (map date_of df) ->
  Forall (fun r => valid_date (date_of r)) df ->
  exists r,
    get_streak_analysis df = Some r /\
    (0 < consistency_score r <= 1)%Q.
Proof.
  intros Hne Hnd Hvalid. rewrite (get_streak_analysis_some df Hne).
  eexists. split; [reflexivity|].
  unfold streak_result; cbn [consistency_score].
  set (dates := map date_of (sort_values_date df)).
  destruct (Z.ltb_spec 1 (Zlen dates)) as [Hlen|_]; [|lra].
  assert (StronglySorted (fun a b => date_leb a b = true) dates) as Hs.
  { apply (StronglySorted_map date_of), sort_values_date_sorted. }
  assert (NoDup dates) as Hnd'.
  { eapply Permutation_NoDup; [|exact Hnd].
    apply Permutation_map, Permutation_sym, sort_values_date_perm. }
  assert (Forall valid_date dates) as Hv.
  { apply Forall_map.
    eapply Permutation_Forall;
      [apply Permutation_sym, sort_values_date_perm | exact Hvalid]. }
  destruct dates as [|d0 t] eqn:E; [unfold Zlen in Hlen; cbn in Hlen; lia|].
  pose proof (sorted_dates_span t d0 Hs Hnd' Hv) as Hspan.
  cbn [hd]. rewrite (last_cons_default d0 t (mkDate 0 0 0) d0).
  rewrite Zlen_cons in *.
  set (span := days_between (last (d0 :: t) d0) d0) in *.
  assert (0 < inject_Z (span + 1))%Q as Hpos
    by (change 0%Q with (inject_Z 0); rewrite <- Zlt_Qlt; lia).
  split.
  - apply Qlt_shift_div_l; [exact Hpos|]. rewrite Qmult_0_l.
    change 0%Q with (inject_Z 0). rewrite <- Zlt_Qlt. lia.
  - apply Qle_shift_div_r; [exact Hpos|]. rewrite Qmult_1_l.
    rewrite <- Zle_Qle. lia.
Qed.

Lemma consistency_score_is_a_fraction_witness :
  exists r,
    get_streak_analysis [mkRow (mkDate 2024 1 1) 4 None [];
                         mkRow (mkDate 2024 2 29) 2 None []] = Some r /\
    (0 < consistency_score r <= 1)%Q.
Proof.
  apply (consistency_score_is_a_fraction
           [mkRow (mkDate 2024 1 1) 4 None [];
            mkRow (mkDate 2024 2 29) 2 None []]).
  - discriminate.
  - repeat constructor; cbn; intuition discriminate.
  - repeat (apply Forall_cons;
            [unfold valid_date; vm_compute; intuition discriminate|]).
    apply Forall_nil.
Defined.

(** ** A series without a gap *)

Lemma runs_of_one_run (d0 : date) (t : list date) :
  Spec.day_by_day (d0 :: t) -> Spec.runs (d0 :: t) = [d0 :: t].
Proof.
  revert d0. induction t as [|d1 t IH]; intros d0 H; [reflexivity|].
  destruct H as [E H].
  destruct (runs_step d0 d1 t) as (r & rs & Hr & Hstep).
  rewrite (IH d1 H) in Hr. injection Hr as <- <-.
  rewrite Hstep. apply Z.eqb_eq in E. now rewrite E.
Qed.

Lemma day_by_day_span (d0 : date) (t : list date) :
  Spec.day_by_day (d0 :: t) ->
  days_between (last (d0 :: t) d0) d0 = Zlen t.
Proof.
  revert d0. induction t as [|d1 t IH]; intros d0 H.
  - unfold days_between, Zlen. cbn. lia.
  - destruct H as [E H]. specialize (IH d1 H).
    change (last (d0 :: d1 :: t) d0) with (last (d1 :: t) d0).
    rewrite (last_cons_default d1 t d0 d1), Zlen_cons.
    unfold days_between in *. lia.
Qed.

(** X8: when the entries, in date order, follow each other day by day,
    the whole series is one streak: the longest and the average streak are
    the number of entries, there is one streak and the consistency score
    is 1. *)
Theorem gapless_series_is_one_streak (df : DataFrame) :
  (2 <= length df)%nat ->
  Spec.day_by_day (map date_of (sort_values_date df)) ->
  exists r,
    get_streak_analysis df = Some r /\
    longest_streak r = Zlen df /\
    (average_streak r == inject_Z (Zlen df))%Q /\
    total_streaks r = 1 /\
    (consistency_score r == 1)%Q.
Proof.
  intros Hlen Hdays.
  assert (df <> []) as Hne by (intros ->; cbn in Hlen; lia).
  rewrite (get_streak_analysis_some df Hne).
  eexists. split; [reflexivity|].
  unfold streak_result;
    cbn [longest_streak average_streak total_streaks consistency_score].
  rewrite find_streaks_runs.
  assert (Zlen (map date_of (sort_values_date df)) = Zlen df) as Hn
    by (unfold Zlen; now rewrite length_map, sort_values_date_length).
  assert (2 <= Zlen df) as Hn2 by (unfold Zlen; lia).
  destruct (map date_of (sort_values_date df)) as [|d0 t] eqn:E.
  { unfold Zlen in Hn. cbn in Hn. lia. }
  rewrite (runs_of_one_run d0 t Hdays). cbn [map filter].
  rewrite Hn. destruct (Z.ltb_spec 1 (Zlen df)) as [_|H]; [|lia].
  cbn [hd]. rewrite (last_cons_default d0 t (mkDate 0 0 0) d0).
  rewrite (day_by_day_span d0 t Hdays).
  rewrite Zlen_cons in Hn. rewrite Hn.
  assert (~ inject_Z (Zlen df) == 0)%Q as Hnz.
  { intros H0. unfold Qeq in H0. cbn in H0. lia. }
  split; [reflexivity|]. split.
  - unfold mean, Zlen at 2. cbn [length Zsum fold_right Z.of_nat].
    rewrite Z.add_0_r. change (inject_Z (Z.pos 1)) with 1%Q. field.
  - split; [reflexivity|]. now field.
Qed.

Lemma gapless_series_is_one_streak_witness :
  exists r,
    get_streak_analysis [mkRow (mkDate 2024 2 29) 4 None [];
                         mkRow (mkDate 2024 3 1) 2 None [];
                         mkRow (mkDate 2024 2 28) 2 None []] = Some r /\
    longest_streak r = 3 /\ total_streaks r = 1 /\
    (consistency_score r == 1)%Q.
Proof.
  destruct (gapless_series_is_one_streak
              [mkRow (mkDate 2024 2 29) 4 None [];
               mkRow (mkDate 2024 3 1) 2 None [];
               mkRow (mkDate 2024 2 28) 2 None []])
    as (r & Hr & Hl & _ & Ht & Hc).
  - cbn; lia.
  - vm_compute. repeat split.
  - exists r. repeat split; assumption.
Defined.

(** ** More on [get_mood_volatility] *)

Lemma fold_left_min_le (l : list Z) (a : Z) :
  fold_left Z.min l a <= a /\ Forall (fun x => fold_left Z.min l a <= x) l.
Proof.
  revert a. induction l as [|x t IH]; intros a; cbn [fold_left];
    [split; [lia | constructor]|].
  destruct (IH (Z.min a x)) as [H1 H2]. split; [lia|].
  constructor; [lia | exact H2].
Qed.

Lemma Zmin_list_le (l : list Z) : Forall (fun x => Zmin_list l <= x) l.
Proof.
  destruct l as [|a t]; [constructor|]. unfold Zmin_list.
  destruct (fold_left_min_le t a). now constructor.
Qed.

Lemma Zmin_list_in (l : list Z) : l <> [] -> In (Zmin_list l) l.
Proof.
  destruct l as [|a t]; [congruence|]. intros _. unfold Zmin_list.
  revert a. induction t as [|b t IH]; intros a; [now left|].
  cbn [fold_left]. destruct (IH (Z.min a b)) as [H|H].
  - rewrite <- H.
    destruct (Z.min_spec a b) as [[_ E]|[_ E]]; rewrite E;
      [left | right; left]; reflexivity.
  - right. right. exact H.
Qed.

(** Neighbouring values differ by no more than the whole range. *)
Lemma abs_diffs_bounds (l : list Z) (lo hi : Z) :
  Forall (fun v => lo <= v <= hi) l ->
  Forall (fun d => 0 <= d <= hi - lo) (abs_diffs l).
Proof.
  induction 1 as [|a t Ha Ht IH]; [constructor|].
  destruct t as [|b t']; [constructor|].
  change (abs_diffs (a :: b :: t'))
    with (Z.abs (b - a) :: abs_diffs (b :: t')).
  inversion Ht as [|? ? Hb _]; subst.
  constructor; [lia | exact IH].
Qed.

Lemma abs_diffs_nonempty (l : list Z) :
  (2 <= length l)%nat -> abs_diffs l <> [].
Proof.
  destruct l as [|a [|b t]]; cbn [length]; try lia. discriminate.
Qed.

Lemma list_range (l : list Z) :
  Forall (fun v => Zmin_list l <= v <= Zmax_list l) l.
Proof.
  pose proof (Zmin_list_le l) as Hmin. pose proof (Zmax_list_ge l) as Hmax.
  rewrite Forall_forall in *. intros v Hv. split; auto.
Qed.

(** X9: with at least two entries, the average change between neighbouring
    entries is not negative and not larger than the mood range; when all
    moods lie between 1 and 5 the range is between 0 and 4. *)
Theorem daily_change_within_range (df : DataFrame) :
  (2 <= length df)%nat ->
  exists r,
    get_mood_volatility df = Some r /\
    0 <= mood_range r /\
    (0 <= average_daily_change r <= inject_Z (mood_range r))%Q /\
    (Spec.moods_in_range df -> mood_range r <= 4).
Proof.
  intros Hlen. rewrite (get_mood_volatility_some df Hlen).
  eexists. split; [reflexivity|].
  unfold volatility_result; cbn [mood_range average_daily_change].
  set (moods := map mood (sort_values_date df)).
  assert (2 <= length moods)%nat as Hm
    by (unfold moods; now rewrite length_map, sort_values_date_length).
  assert (moods <> []) as Hne by (intros E; rewrite E in Hm; cbn in Hm; lia).
  pose proof (list_range moods) as Hrange.
  pose proof (Zmin_list_in moods Hne) as Hin.
  assert (Zmin_list moods <= Zmax_list moods) as Hle.
  { rewrite Forall_forall in Hrange. now apply Hrange. }
  split; [lia|]. split.
  - apply (mean_bounds _ 0 (Zmax_list moods - Zmin_list moods)).
    + now apply abs_diffs_nonempty.
    + now apply abs_diffs_bounds.
  - intros Hscale.
    assert (Forall (fun v => 1 <= v <= 5) moods) as Hall.
    { apply Forall_map.
      eapply Permutation_Forall;
        [apply Permutation_sym, sort_values_date_perm | exact Hscale]. }
    rewrite Forall_forall in Hall.
    pose proof (Hall _ Hin). pose proof (Hall _ (Zmax_list_in moods Hne)).
    lia.
Qed.

Lemma daily_change_within_range_witness :
  exists r,
    get_mood_volatility [mkRow (mkDate 2024 1 1) 1 None [];
                         mkRow (mkDate 2024 1 2) 5 None [];
                         mkRow (mkDate 2024 1 4) 4 None []] = Some r /\
    (0 <= average_daily_change r <= inject_Z (mood_range r))%Q.
Proof.
  destruct (daily_change_within_range
              [mkRow (mkDate 2024 1 1) 1 None [];
               mkRow (mkDate 2024 1 2) 5 None [];
               mkRow (mkDate 2024 1 4) 4 None []])
    as (r & Hr & _ & Hc & _); [cbn; lia|].
  exists r. split; assumption.
Defined.

Lemma std_of_constant (x : list Z) : Spec.constant x -> std x = 0%R.
Proof.
  intros Hc. unfold std, sample_variance.
  assert (ssqd x / inject_Z (Zlen x - 1) == 0)%Q as E.
  { rewrite (constant_ssqd x Hc). unfold Qdiv. ring. }
  rewrite (Qeq_eqR _ _ E). change (Q2R 0) with (0 * / 1)%R.
  replace (0 * / 1)%R with 0%R by lra. apply sqrt_0.
Qed.

Lemma categorize_zero : _categorize_volatility 0 = "Very Stable"%string.
Proof.
  unfold _categorize_volatility.
  destruct (Rlt_dec 0 (5 / 10)) as [_|H]; [reflexivity|].
  exfalso. apply H. lra.
Qed.

(** X10: when every entry has the same mood (and there are at least two
    entries) the standard deviation is 0, the stability score is 1, the
    category is "Very Stable", and the range and the average daily change
    are 0. *)
Theorem constant_moods_are_very_stable (df : DataFrame) (c : Z) :
  (2 <= length df)%nat -> Forall (fun r => mood r = c) df ->
  exists r,
    get_mood_volatility df = Some r /\
    standard_deviation r = 0%R /\
    stability_score r = 1%R /\
    volatility_category r = "Very Stable"%string /\
    mood_range r = 0 /\
    (average_daily_change r == 0)%Q.
Proof.
  intros Hlen Hconst. rewrite (get_mood_volatility_some df Hlen).
  eexists. split; [reflexivity|].
  unfold volatility_result;
    cbn [standard_deviation stability_score volatility_category mood_range
         average_daily_change].
  set (moods := map mood (sort_values_date df)).
  assert (Forall (fun v => c <= v <= c) moods) as Hall.
  { apply Forall_map.
    eapply Permutation_Forall;
      [apply Permutation_sym, sort_values_date_perm|].
    eapply Forall_impl; [|exact Hconst]. intros r ->. lia. }
  assert (Spec.constant moods) as Hc.
  { intros a b Ha Hb. rewrite Forall_forall in Hall.
    pose proof (Hall a Ha). pose proof (Hall b Hb). lia. }
  assert (2 <= length moods)%nat as Hm
    by (unfold moods; now rewrite length_map, sort_values_date_length).
  assert (moods <> []) as Hne by (intros E; rewrite E in Hm; cbn in Hm; lia).
  rewrite (std_of_constant moods Hc).
  split; [reflexivity|]. split; [lra|]. split; [apply categorize_zero|].
  split.
  - rewrite (Hc _ _ (Zmax_list_in moods Hne) (Zmin_list_in moods Hne)). lia.
  - pose proof (abs_diffs_bounds moods c c Hall) as Hd.
    replace (c - c) with 0 in Hd by lia.
    pose proof (mean_bounds _ 0 0 (abs_diffs_nonempty moods Hm) Hd) as [H1 H2].
    change (inject_Z 0) with 0%Q in H1, H2. lra.
Qed.

Lemma constant_moods_are_very_stable_witness :
  exists r,
    get_mood_volatility [mkRow (mkDate 2024 1 1) 3 None [];
                         mkRow (mkDate 2024 1 5) 3 None []] = Some r /\
    stability_score r = 1%R /\
    volatility_category r = "Very Stable"%string.
Proof.
  destruct (constant_moods_are_very_stable
              [mkRow (mkDate 2024 1 1) 3 None [];
               mkRow (mkDate 2024 1 5) 3 None []] 3)
    as (r & Hr & _ & Hs & Hc & _).
  - cbn; lia.
  - repeat constructor.
  - exists r. repeat split; assumption.
Defined.




(** * The streak chart against the streak analysis *)

Lemma chart_streak_loop_runs (rest : list date) :
  forall (prev : date) (streaks : list Visualizations.ChartStreak) (c : Z)
         (start dflt : date),
  exists r rs,
    Spec.runs (prev :: rest) = r :: rs /\
    (let '(streaks', c', start') :=
       Visualizations.chart_streak_loop prev rest streaks c start in
     streaks' ++
     [Visualizations.mkChartStreak start' (last (prev :: rest) dflt) c'])
    = streaks ++
      Visualizations.mkChartStreak start (last r (mkDate 0 0 0))
        (c - 1 + Zlen r)
      :: map Visualizations.bar_of_run rs.
Proof.
  induction rest as [|d rest' IH]; intros prev streaks c start dflt.
  - exists [prev], []. split; [reflexivity|].
    cbn [Visualizations.chart_streak_loop last map].
    do 3 f_equal. unfold Zlen. cbn. lia.
  - destruct (runs_step prev d rest') as (r & rs & Hr & Hstep).
    destruct (runs_head d rest') as (r' & rs' & Hr').
    rewrite Hr in Hr'. injection Hr' as -> ->.
    rewrite Hstep. cbn [Visualizations.chart_streak_loop].
    change (last (prev :: d :: rest') dflt) with (last (d :: rest') dflt).
    destruct (days_between d prev =? 1).
    + destruct (IH d streaks (c + 1) start dflt) as (r1 & rs1 & Hr1 & Hloop).
      rewrite Hr in Hr1. injection Hr1 as <- <-.
      eexists _, _. split; [reflexivity|].
      rewrite Hloop.
      change (last (prev :: d :: r') (mkDate 0 0 0))
        with (last (d :: r') (mkDate 0 0 0)).
      rewrite (Zlen_cons prev). do 3 f_equal. lia.
    + destruct (IH d (streaks ++ [Visualizations.mkChartStreak start prev c])
                  1 d dflt) as (r1 & rs1 & Hr1 & Hloop).
      rewrite Hr in Hr1. injection Hr1 as <- <-.
      eexists _, _. split; [reflexivity|].
      rewrite Hloop, <- app_assoc. cbn [app map last].
      unfold Visualizations.bar_of_run at 2. cbn [hd].
      replace (c - 1 + Zlen [prev]) with c by (unfold Zlen; cbn; lia).
      replace (1 - 1 + Zlen (d :: r')) with (Zlen (d :: r')) by lia.
      reflexivity.
Qed.

Lemma chart_streaks_runs (df : DataFrame) :
  Visualizations.chart_streaks df
  = map Visualizations.bar_of_run (Spec.runs_of df).
Proof.
  unfold Visualizations.chart_streaks, Spec.runs_of.
  destruct df as [|r0 t]; [reflexivity|].
  destruct (map date_of (sort_values_date (r0 :: t))) as [|d0 rest];
    [reflexivity|].
  destruct (chart_streak_loop_runs rest d0 [] 1 d0 d0)
    as (r & rs & Hr & Hloop).
  destruct (runs_head d0 rest) as (r' & rs' & Hr').
  rewrite Hr in Hr'. injection Hr' as -> ->.
  rewrite Hr. cbn [map].
  destruct (Visualizations.chart_streak_loop d0 rest [] 1 d0)
    as [[streaks c] start].
  rewrite Hloop. cbn [app].
  f_equal; try (unfold Visualizations.bar_of_run; cbn [hd]; f_equal; lia).
Qed.

(** X12: the bars of the streak chart are the maximal runs of consecutive
    dates, single days included, each from its first to its last date: the
    lengths add up to the number of entries, and the streaks that
    [get_streak_analysis] counts are exactly the bars longer than one
    day. *)
Theorem streak_chart_shows_every_run (df : DataFrame) :
  Visualizations.chart_streaks df
    = map Visualizations.bar_of_run (Spec.runs_of df) /\
  Zsum (map Visualizations.streak_length (Visualizations.chart_streaks df))
    = Zlen df /\
  Forall (fun bar => 1 <= Visualizations.streak_length bar)
         (Visualizations.chart_streaks df) /\
  find_streaks (map date_of (sort_values_date df))
    = filter (fun n => 1 <? n)
        (map Visualizations.streak_length (Visualizations.chart_streaks df)).
Proof.
  rewrite chart_streaks_runs. rewrite !map_map.
  change (fun x => Visualizations.streak_length (Visualizations.bar_of_run x))
    with (fun x : list date => Zlen x).
  split; [reflexivity|]. split; [|split].
  - rewrite Zsum_lengths_concat. unfold Spec.runs_of.
    rewrite runs_concat. unfold Zlen.
    now rewrite length_map, sort_values_date_length.
  - apply Forall_map. unfold Spec.runs_of.
    destruct (runs_separated (map date_of (sort_values_date df))) as [_ Hne].
    eapply Forall_impl; [|exact Hne]. intros run Hrun.
    unfold Visualizations.bar_of_run. cbn [Visualizations.streak_length].
    pose proof (Zlen_pos run Hrun). lia.
  - apply find_streaks_runs.
Qed.

(** * The pages of the history list *)

Lemma firstn_add_skipn {A : Type} (a b : nat) (l : list A) :
  firstn a l ++ firstn b (skipn a l) = firstn (a + b) l.
Proof.
  revert l. induction a as [|a IH]; intros l; [reflexivity|].
  destruct l as [|x t]; [cbn [skipn]; now rewrite !firstn_nil|].
  cbn [firstn skipn Nat.add app]. now rewrite IH.
Qed.

Lemma total_pages_bounds (n pp : Z) :
  1 <= n -> 1 <= pp ->
  1 <= History.total_pages n pp /\
  (History.total_pages n pp - 1) * pp < n <= History.total_pages n pp * pp.
Proof.
  intros Hn Hpp. unfold History.total_pages.
  pose proof (Z.mul_div_le (n - 1) pp ltac:(lia)) as H1.
  pose proof (Z.mul_succ_div_gt (n - 1) pp ltac:(lia)) as H2.
  pose proof (Z.div_pos (n - 1) pp ltac:(lia) ltac:(lia)) as H3.
  set (q := (n - 1) / pp) in *. nia.
Qed.

(** The first [k] pages, one after the other, are the first [k] times
    [entries_per_page] entries. *)
Lemma pages_prefix {A : Type} (l : list A) (pp : Z) (k : nat) :
  1 <= pp ->
  concat (map (fun i => History.page_df l (Z.of_nat i + 1) pp) (seq 0 k))
  = firstn (Z.to_nat (Z.min (Z.of_nat k * pp) (Zlen l))) l.
Proof.
  intros Hpp. induction k as [|k IH].
  { pose proof (Zlen_nonneg l).
    now replace (Z.to_nat (Z.min (Z.of_nat 0 * pp) (Zlen l))) with 0%nat
      by lia. }
  rewrite seq_S, map_app, concat_app, IH. cbn [map concat Nat.add].
  rewrite app_nil_r.
  unfold History.page_df, History.end_idx, History.start_idx.
  replace (Z.of_nat k + 1 - 1) with (Z.of_nat k) by lia.
  replace (Z.of_nat (S k) * pp) with (Z.of_nat k * pp + pp) by lia.
  pose proof (Zlen_nonneg l) as Hl.
  assert (0 <= Z.of_nat k * pp) as Hm by nia.
  set (m := Z.of_nat k * pp) in *.
  destruct (Z.le_gt_cases m (Zlen l)) as [Hin|Hout].
  - rewrite (Z.min_l m) by exact Hin.
    rewrite firstn_add_skipn. f_equal. lia.
  - rewrite !(Z.min_r _ (Zlen l)) by lia.
    replace (Z.to_nat (Zlen l - m)) with 0%nat by lia.
    cbn [firstn]. now rewrite app_nil_r.
Qed.

(** X13: with at least one entry and at least one entry per page, the
    pages 1 to [total_pages] are non-empty, hold at most
    [entries_per_page] entries each, and laid end to end they are the whole
    list in its order; a page after the last one is empty. *)
Theorem history_pages_partition_the_list {A : Type} (filtered_df : list A)
    (entries_per_page : Z) :
  filtered_df <> [] -> 1 <= entries_per_page ->
  let total := History.total_pages (Zlen filtered_df) entries_per_page in
  1 <= total /\
  concat (map (fun i => History.page_df filtered_df (Z.of_nat i + 1)
                          entries_per_page)
              (seq 0 (Z.to_nat total)))
    = filtered_df /\
  (forall page, 1 <= page <= total ->
     History.page_df filtered_df page entries_per_page <> [] /\
     Zlen (History.page_df filtered_df page entries_per_page)
       <= entries_per_page) /\
  (forall page, total < page ->
     History.page_df filtered_df page entries_per_page = []).
Proof.
  intros Hne Hpp. cbv zeta.
  pose proof (Zlen_pos filtered_df Hne) as Hn.
  destruct (total_pages_bounds (Zlen filtered_df) entries_per_page)
    as (Ht & Hlo & Hhi); try lia.
  set (total := History.total_pages (Zlen filtered_df) entries_per_page) in *.
  split; [exact Ht|]. split; [|split].
  - rewrite pages_prefix by exact Hpp.
    rewrite Z2Nat.id by lia. rewrite Z.min_r by lia.
    unfold Zlen. rewrite Nat2Z.id. apply firstn_all.
  - intros page Hpage.
    unfold History.page_df, History.end_idx, History.start_idx.
    set (s := (page - 1) * entries_per_page).
    set (e := Z.min (s + entries_per_page) (Zlen filtered_df)).
    assert (0 <= s < Zlen filtered_df) as Hs by (unfold s; nia).
    assert (s < e <= s + entries_per_page) as He by (unfold e; lia).
    assert (e <= Zlen filtered_df) as He' by (unfold e; lia).
    assert (length (firstn (Z.to_nat (e - s))
                      (skipn (Z.to_nat s) filtered_df))
            = Z.to_nat (e - s)) as Hlen.
    { rewrite length_firstn, length_skipn. unfold Zlen in *. lia. }
    split.
    + intros E. rewrite E in Hlen. cbn in Hlen. lia.
    + unfold Zlen at 1. rewrite Hlen. lia.
  - intros page Hpage.
    unfold History.page_df, History.end_idx, History.start_idx.
    set (s := (page - 1) * entries_per_page).
    assert (Zlen filtered_df <= s) as Hs by (unfold s; nia).
    replace (Z.to_nat (Z.min (s + entries_per_page) (Zlen filtered_df) - s))
      with 0%nat by lia.
    reflexivity.
Qed.

Lemma history_pages_partition_the_list_witness :
  concat (map (fun i => History.page_df [1; 2; 3; 4; 5] (Z.of_nat i + 1) 2)
              (seq 0 (Z.to_nat (History.total_pages 5 2))))
  = [1; 2; 3; 4; 5].
Proof.
  apply (history_pages_partition_the_list [1; 2; 3; 4; 5] 2);
    [discriminate | lia].
Defined.

(** * The queries of the data manager *)

Lemma date_eqb_eq (a b : date) : date_eqb a b = true <-> a = b.
Proof.
  unfold date_eqb. destruct a as [ya ma da], b as [yb mb db].
  cbn [year month day]. rewrite !andb_true_iff, !Z.eqb_eq. split.
  - intros [[-> ->] ->]. reflexivity.
  - intros E. injection E as -> -> ->. auto.
Qed.

Lemma date_leb_refl (a : date) : date_leb a a = true.
Proof. destruct (date_leb_total a a); assumption. Qed.

(** A date is within the range from [d] to [d] exactly when it is [d]. *)
Lemma date_in_point_range (d x : date) :
  date_leb d x && date_leb x d = date_eqb x d.
Proof.
  apply eq_iff_eq_true. rewrite andb_true_iff, date_eqb_eq. split.
  - intros [H1 H2]. now apply date_leb_antisym.
  - intros ->. split; apply date_leb_refl.
Qed.

Lemma get_date_range_data_filter (df : DataFrame) (s e : date) :
  DataManager.get_date_range_data df s e
  = filter (fun r => date_leb s (date_of r) && date_leb (date_of r) e) df.
Proof. destruct df; reflexivity. Qed.

(** X14: [get_date_range_data] keeps exactly the rows dated from
    [start_date] to [end_date], both included, in their order; it returns
    the whole frame when every date is in the range and nothing when the
    range is inverted; and narrowing twice gives the same rows whichever
    range is applied first. *)
Theorem date_range_selects_rows_in_range (df : DataFrame) (s e : date) :
  (forall r, In r (DataManager.get_date_range_data df s e) <->
             In r df /\ date_leb s (date_of r) = true
             /\ date_leb (date_of r) e = true) /\
  (Forall (fun r => date_leb s (date_of r) = true
                    /\ date_leb (date_of r) e = true) df ->
   DataManager.get_date_range_data df s e = df) /\
  (date_leb s e = false -> DataManager.get_date_range_data df s e = []) /\
  (forall s' e',
     DataManager.get_date_range_data
       (DataManager.get_date_range_data df s e) s' e'
     = DataManager.get_date_range_data
         (DataManager.get_date_range_data df s' e') s e) /\
  (StronglySorted Spec.date_ordered df ->
   StronglySorted Spec.date_ordered (DataManager.get_date_range_data df s e)).
Proof.
  rewrite get_date_range_data_filter.
  split; [|split; [|split; [|split]]].
  - intros r. rewrite filter_In, andb_true_iff. tauto.
  - intros Hall. apply forallb_filter_id. apply forallb_forall.
    rewrite Forall_forall in Hall. intros r Hr.
    destruct (Hall r Hr) as [-> ->]. reflexivity.
  - intros Hinv.
    destruct (filter _ df) as [|r t] eqn:E; [reflexivity|].
    assert (In r (filter (fun r => date_leb s (date_of r)
                                   && date_leb (date_of r) e) df)) as Hin
      by (rewrite E; now left).
    apply filter_In in Hin. destruct Hin as [_ Hr].
    apply andb_true_iff in Hr. destruct Hr as [H1 H2].
    rewrite (date_leb_trans _ _ _ H1 H2) in Hinv. discriminate.
  - intros s' e'. rewrite !get_date_range_data_filter.
    induction df as [|r t IH]; [reflexivity|].
    cbn [filter].
    destruct (date_leb s (date_of r) && date_leb (date_of r) e) eqn:E1;
      destruct (date_leb s' (date_of r) && date_leb (date_of r) e') eqn:E2;
      cbn [filter]; rewrite ?E1, ?E2, IH; reflexivity.
  - intros Hs. induction Hs as [|r t Hs IH Hr]; [constructor|].
    cbn [filter].
    destruct (date_leb s (date_of r) && date_leb (date_of r) e);
      [|exact IH].
    constructor; [exact IH|]. now apply Forall_filter_keep.
Qed.

Lemma date_range_selects_rows_in_range_witness :
  DataManager.get_date_range_data
    [mkRow (mkDate 2024 1 1) 3 None []; mkRow (mkDate 2024 1 5) 4 None []]
    (mkDate 2024 2 1) (mkDate 2024 1 1) = [].
Proof.
  apply (proj1 (proj2 (proj2 (date_range_selects_rows_in_range
           [mkRow (mkDate 2024 1 1) 3 None [];
            mkRow (mkDate 2024 1 5) 4 None []]
           (mkDate 2024 2 1) (mkDate 2024 1 1))))).
  reflexivity.
Defined.

Lemma get_entry_by_date_find (df : DataFrame) (d : date) :
  DataManager.get_entry_by_date df d
  = hd_error (filter (fun r => date_eqb (date_of r) d) df).
Proof.
  unfold DataManager.get_entry_by_date.
  destruct df as [|r0 t]; [reflexivity|]. cbn [is_empty].
  set (df := r0 :: t).
  destruct (existsb (fun b => b) (map (fun r => date_eqb (date_of r) d) df))
    eqn:E; [reflexivity|].
  destruct (filter (fun r => date_eqb (date_of r) d) df) as [|x xs] eqn:F;
    [reflexivity|].
  assert (In x (filter (fun r => date_eqb (date_of r) d) df)) as Hin
    by (rewrite F; now left).
  apply filter_In in Hin. destruct Hin as [Hx Hd].
  assert (existsb (fun b => b) (map (fun r => date_eqb (date_of r) d) df)
          = true) as Ht.
  { apply existsb_exists. exists true. split; [|reflexivity].
    apply in_map_iff. exists x. auto. }
  congruence.
Qed.

(** X15: [get_entry_by_date] returns no entry exactly when no row has the
    date; otherwise it returns the first row of the frame with that date,
    which is also the first row that [get_date_range_data] returns for the
    range from that date to itself. *)
Theorem entry_by_date_is_first_match (df : DataFrame) (d : date) :
  (DataManager.get_entry_by_date df d = None <->
   forall r, In r df -> date_of r <> d) /\
  (forall r,
     DataManager.get_entry_by_date df d = Some r ->
     exists before after,
       df = before ++ r :: after /\ date_of r = d /\
       Forall (fun x => date_of x <> d) before) /\
  DataManager.get_entry_by_date df d
    = hd_error (DataManager.get_date_range_data df d d).
Proof.
  rewrite get_entry_by_date_find, get_date_range_data_filter.
  split; [|split].
  - split.
    + intros Hnone r Hr Hd.
      assert (In r (filter (fun r => date_eqb (date_of r) d) df)) as Hin
        by (apply filter_In; split; [exact Hr | now apply date_eqb_eq]).
      destruct (filter _ df); [exact Hin | discriminate].
    + intros Hall.
      destruct (filter (fun r => date_eqb (date_of r) d) df) as [|x xs] eqn:F;
        [reflexivity|].
      assert (In x (filter (fun r => date_eqb (date_of r) d) df)) as Hin
        by (rewrite F; now left).
      apply filter_In in Hin. destruct Hin as [Hx Hd].
      apply date_eqb_eq in Hd. exfalso. now apply (Hall x Hx).
  - intros r. induction df as [|x t IH]; [discriminate|].
    cbn [filter]. destruct (date_eqb (date_of x) d) eqn:E.
    + intros H. injection H as <-. exists [], t.
      split; [reflexivity|]. split; [now apply date_eqb_eq | constructor].
    + intros H. destruct (IH H) as (before & after & -> & Hd & Hb).
      exists (x :: before), after. split; [reflexivity|]. split; [exact Hd|].
      constructor; [|exact Hb]. intros Hx. apply date_eqb_eq in Hx.
      congruence.
  - f_equal. apply filter_ext. intros r. symmetry.
    apply date_in_point_range.
Qed.

Lemma entry_by_date_is_first_match_witness :
  DataManager.get_entry_by_date
    [mkRow (mkDate 2024 1 1) 3 None []] (mkDate 2024 1 2) = None.
Proof.
  apply (proj2 (proj1 (entry_by_date_is_first_match
           [mkRow (mkDate 2024 1 1) 3 None []] (mkDate 2024 1 2)))).
  intros r [<-|[]]. discriminate.
Defined.

(** * The current streak *)

Lemma toordinal_inj (a b : date) :
  valid_date a -> valid_date b -> toordinal a = toordinal b -> a = b.
Proof.
  intros Ha Hb E.
  destruct (date_eqb a b) eqn:Eab; [now apply date_eqb_eq|].
  assert (a <> b) as Hne.
  { intros H. apply date_eqb_eq in H. congruence. }
  destruct (date_leb_total a b) as [H|H].
  - pose proof (toordinal_strict a b Ha Hb H Hne). lia.
  - assert (b <> a) as Hne' by congruence.
    pose proof (toordinal_strict b a Hb Ha H Hne'). lia.
Qed.

(** The day before a valid date other than [date.min] is a valid date, one
    ordinal lower. *)
Lemma prev_day_spec (d : date) :
  valid_date d -> d <> DataManager.date_min ->
  exists d', DataManager.prev_day d = Some d' /\ valid_date d' /\
             toordinal d' = toordinal d - 1.
Proof.
  intros (Hy & Hm & Hd) Hne. unfold DataManager.prev_day.
  destruct (date_eqb d DataManager.date_min) eqn:E;
    [apply date_eqb_eq in E; contradiction|].
  destruct d as [y m dd]. cbn [year month day] in *.
  destruct (Z.ltb_spec 1 dd) as [Hdd|Hdd].
  - eexists. split; [reflexivity|]. split.
    + unfold valid_date. cbn [year month day]. lia.
    + unfold toordinal. cbn [year month day]. lia.
  - assert (dd = 1) by lia. subst dd.
    destruct (Z.ltb_spec 1 m) as [Hmm|Hmm].
    + eexists. split; [reflexivity|].
      assert (m = 2 \/ m = 3 \/ m = 4 \/ m = 5 \/ m = 6 \/ m = 7 \/
              m = 8 \/ m = 9 \/ m = 10 \/ m = 11 \/ m = 12) as C by lia.
      unfold valid_date, toordinal. cbn [year month day].
      unfold days_before_month, days_in_month.
      destruct (is_leap y);
        repeat (destruct C as [->|C]); try subst m;
        cbn [Z.sub Z.pos_sub Z.succ_double Z.pred_double Z.double
             Pos.pred_double Z.add Z.opp];
        eval_month; lia.
    + assert (m = 1) by lia. subst m.
      assert (1 < y) as Hy1.
      { destruct (Z.eq_dec y 1) as [->|]; [|lia].
        exfalso. apply Hne. reflexivity. }
      eexists. split; [reflexivity|].
      pose proof (days_before_year_step (y - 1)) as Hs.
      replace (y - 1 + 1) with y in Hs by lia.
      unfold valid_date, toordinal. cbn [year month day].
      unfold days_before_month, days_in_month.
      destruct (is_leap (y - 1)); eval_month; lia.
Qed.

Lemma sort_values_date_desc_perm (df : DataFrame) :
  Permutation (DataManager.sort_values_date_desc df) df.
Proof. apply sort_by_perm. Qed.

Lemma sort_values_date_desc_sorted (df : DataFrame) :
  StronglySorted (fun a b => date_leb (date_of b) (date_of a) = true)
                 (DataManager.sort_values_date_desc df).
Proof.
  apply sort_by_sorted.
  - intros a b. apply date_leb_total.
  - intros a b c H1 H2. exact (date_leb_trans _ _ _ H2 H1).
Qed.

(** The loop on rows in descending date order: the count it adds, the days
    it has found, and, when no date repeats and none is after
    [current_date], the day it stopped at. *)
Lemma streak_scan_spec (rows : list Row) :
  Forall (fun r => valid_date (date_of r)) rows ->
  Forall (fun r => date_of r <> DataManager.date_min) rows ->
  forall (current_date : date) (streak : Z),
    valid_date current_date ->
    exists k,
      DataManager.streak_scan rows current_date streak = Some (streak + k) /\
      0 <= k <= Zlen rows /\
      (forall i, 0 <= i < k ->
         exists r, In r rows /\
                   toordinal (date_of r) = toordinal current_date - i) /\
      (StronglySorted (fun a b => date_leb (date_of b) (date_of a) = true)
                      rows ->
       NoDup (map date_of rows) ->
       Forall (fun r => date_leb (date_of r) current_date = true) rows ->
       forall r, In r rows ->
                 toordinal (date_of r) <> toordinal current_date - k).
Proof.
  induction rows as [|entry rest IH]; intros Hv Hmin cur streak Hcur.
  - exists 0. cbn [DataManager.streak_scan].
    split; [f_equal; lia|]. split; [unfold Zlen; cbn; lia|].
    split; [intros i Hi; lia|]. intros _ _ _ r [].
  - pose proof (Forall_inv Hv) as Hve. pose proof (Forall_inv_tail Hv) as Hvr.
    pose proof (Forall_inv Hmin) as Hme.
    pose proof (Forall_inv_tail Hmin) as Hmr.
    cbn [DataManager.streak_scan].
    destruct (date_eqb (date_of entry) cur) eqn:E.
    + apply date_eqb_eq in E.
      assert (cur <> DataManager.date_min) as Hcm by congruence.
      destruct (prev_day_spec cur Hcur Hcm) as (d' & -> & Hd' & Hord).
      destruct (IH Hvr Hmr d' (streak + 1) Hd') as (k & Hscan & Hk & Hdays & Hstop).
      exists (1 + k). rewrite Hscan, Zlen_cons.
      split; [f_equal; lia|]. split; [lia|]. split.
      * intros i Hi. destruct (Z.eq_dec i 0) as [->|Hi0].
        -- exists entry. split; [now left|]. rewrite E. lia.
        -- destruct (Hdays (i - 1)) as (r & Hr & Hrd); [lia|].
           exists r. split; [now right|]. lia.
      * intros Hs Hnd Hle r Hr.
        apply StronglySorted_inv in Hs. destruct Hs as [Hs' Hall].
        cbn [map] in Hnd. apply NoDup_cons_iff in Hnd.
        destruct Hnd as [Hnotin Hnd'].
        assert (forall x, In x rest ->
                          toordinal (date_of x) < toordinal cur) as Hbelow.
        { intros x Hx. rewrite Forall_forall in Hall, Hvr.
          apply toordinal_strict; [now apply Hvr | exact Hcur | |].
          - rewrite <- E. now apply Hall.
          - intros Hx'. apply Hnotin. rewrite E, <- Hx'.
            now apply in_map. }
        destruct Hr as [<-|Hr].
        -- rewrite E. lia.
        -- assert (toordinal (date_of r) <> toordinal d' - k) as Hne.
           { apply Hstop; [exact Hs' | exact Hnd' | | exact Hr].
             apply Forall_forall. intros x Hx.
             pose proof (Hbelow x Hx) as Hlt.
             destruct (date_leb_total (date_of x) d') as [H|H];
               [exact H|].
             destruct (date_eqb d' (date_of x)) eqn:Ex.
             - apply date_eqb_eq in Ex. rewrite <- Ex.
               apply date_leb_refl.
             - assert (d' <> date_of x) as Hdx.
               { intros Hd. apply date_eqb_eq in Hd. congruence. }
               rewrite Forall_forall in Hvr.
               pose proof (toordinal_strict d' (date_of x) Hd'
                             (Hvr x Hx) H Hdx).
               lia. }
           lia.
    + exists 0. split; [f_equal; lia|].
      split; [pose proof (Zlen_nonneg (entry :: rest)); lia|].
      split; [intros i Hi; lia|].
      intros Hs Hnd Hle r Hr.
      apply StronglySorted_inv in Hs. destruct Hs as [Hs' Hall].
      pose proof (Forall_inv Hle) as Hle1.
      assert (date_of entry <> cur) as Hne.
      { intros H. apply date_eqb_eq in H. congruence. }
      pose proof (toordinal_strict _ _ Hve Hcur Hle1 Hne) as Hlt.
      destruct Hr as [<-|Hr]; [lia|].
      rewrite Forall_forall in Hall, Hvr.
      pose proof (toordinal_mono _ _ (Hvr r Hr) Hve (Hall r Hr)). lia.
Qed.

(** X16: for valid dates, none of them [date.min], [get_current_streak]
    returns a count [k] between 0 and the number of entries such that each
    of the [k] days ending today has an entry; when no two entries share a
    date and no entry is dated after today, the day before those [k] days
    has no entry, so [k] is the length of the run of logged days that ends
    today.  An entry dated after today makes the result 0. *)
Theorem current_streak_counts_back_from_today (df : DataFrame)
    (today : date) :
  Forall (fun r => valid_date (date_of r)) df ->
  Forall (fun r => date_of r <> DataManager.date_min) df ->
  valid_date today ->
  exists k,
    DataManager.get_current_streak df today = Some k /\
    0 <= k <= Zlen df /\
    (forall i, 0 <= i < k ->
       exists r, In r df /\ toordinal (date_of r) = toordinal today - i) /\
    (NoDup (map date_of df) ->
     Forall (fun r => date_leb (date_of r) today = true) df ->
     forall r, In r df -> toordinal (date_of r) <> toordinal today - k) /\
    ((exists r, In r df /\ date_leb (date_of r) today = false) -> k = 0).
Proof.
  intros Hv Hmin Htoday. unfold DataManager.get_current_streak.
  destruct df as [|r0 t].
  - exists 0. cbn [is_empty].
    split; [reflexivity|]. split; [unfold Zlen; cbn; lia|].
    split; [intros i Hi; lia|]. split; [intros _ _ r []|].
    intros (r & [] & _).
  - cbn [is_empty]. set (df := r0 :: t) in *.
    pose proof (sort_values_date_desc_perm df) as Hp.
    pose proof (sort_values_date_desc_sorted df) as Hs.
    assert (Forall (fun r => valid_date (date_of r))
                   (DataManager.sort_values_date_desc df)) as Hv'.
    { eapply Permutation_Forall; [apply Permutation_sym, Hp | exact Hv]. }
    assert (Forall (fun r => date_of r <> DataManager.date_min)
                   (DataManager.sort_values_date_desc df)) as Hmin'.
    { eapply Permutation_Forall; [apply Permutation_sym, Hp | exact Hmin]. }
    destruct (streak_scan_spec _ Hv' Hmin' today 0 Htoday)
      as (k & Hscan & Hk & Hdays & Hstop).
    exists k. split; [rewrite Hscan; f_equal; lia|].
    split.
    { unfold Zlen in *. rewrite (Permutation_length Hp) in Hk. exact Hk. }
    split.
    { intros i Hi. destruct (Hdays i Hi) as (r & Hr & Hrd).
      exists r. split; [|exact Hrd]. eapply Permutation_in; eassumption. }
    split.
    { intros Hnd Hle r Hr. apply Hstop.
      - exact Hs.
      - eapply Permutation_NoDup; [|exact Hnd].
        apply Permutation_map, Permutation_sym, Hp.
      - eapply Permutation_Forall; [apply Permutation_sym, Hp | exact Hle].
      - eapply Permutation_in; [apply Permutation_sym, Hp | exact Hr]. }
    intros (r & Hr & Hfuture).
    assert (In r (DataManager.sort_values_date_desc df)) as Hr'
      by (eapply Permutation_in; [apply Permutation_sym, Hp | exact Hr]).
    destruct (DataManager.sort_values_date_desc df) as [|h rest] eqn:Eh;
      [destruct Hr'|].
    cbn [DataManager.streak_scan] in Hscan.
    destruct (date_eqb (date_of h) today) eqn:E.
    + exfalso. apply date_eqb_eq in E.
      apply StronglySorted_inv in Hs. destruct Hs as [_ Hall].
      destruct Hr' as [<-|Hin].
      * rewrite E, date_leb_refl in Hfuture. discriminate.
      * rewrite Forall_forall in Hall. pose proof (Hall r Hin) as H.
        rewrite E in H. congruence.
    + injection Hscan as Hk0. lia.
Qed.

Lemma current_streak_counts_back_from_today_witness :
  exists k,
    DataManager.get_current_streak
      [mkRow (mkDate 2024 2 29) 3 None []; mkRow (mkDate 2024 3 1) 4 None [];
       mkRow (mkDate 2024 2 27) 5 None []]
      (mkDate 2024 3 1) = Some k /\ k = 2.
Proof.
  destruct (current_streak_counts_back_from_today
              [mkRow (mkDate 2024 2 29) 3 None [];
               mkRow (mkDate 2024 3 1) 4 None [];
               mkRow (mkDate 2024 2 27) 5 None []]
              (mkDate 2024 3 1)) as (k & Hk & _).
  - repeat (apply Forall_cons;
            [unfold valid_date; vm_compute; intuition discriminate|]).
    apply Forall_nil.
  - repeat (apply Forall_cons; [discriminate|]). apply Forall_nil.
  - unfold valid_date; vm_compute; intuition discriminate.
  - exists k. split; [exact Hk|].
    vm_compute in Hk. injection Hk as <-. reflexivity.
Defined.

(** * The tables behind the charts *)

Section GroupByMap.
Context {K : Type} (K_eq_dec : forall a b : K, {a = b} + {a <> b}).
Context (K_leb : K -> K -> bool) (key key' : Row -> K) (g : Row -> Row).
Hypothesis key_g : forall r, key' (g r) = key r.

Lemma group_keys_map (df : DataFrame) :
  group_keys K_eq_dec K_leb key' (map g df)
  = group_keys K_eq_dec K_leb key df.
Proof.
  unfold group_keys. rewrite map_map.
  now rewrite (map_ext (fun r => key' (g r)) key key_g).
Qed.

Lemma group_rows_map (df : DataFrame) (k : K) :
  group_rows K_eq_dec key' (map g df) k
  = map g (group_rows K_eq_dec key df k).
Proof.
  unfold group_rows. induction df as [|r t IH]; [reflexivity|].
  cbn [map filter]. rewrite key_g, IH.
  destruct (K_eq_dec (key r) k); reflexivity.
Qed.
End GroupByMap.

Lemma Zleb_sorted_keys (l : list Z) :
  NoDup l -> StronglySorted (fun a b => (a <=? b) = true) l ->
  StronglySorted Z.lt l.
Proof.
  intros Hnd Hs. apply sorted_nodup_strict; [|exact Hnd].
  eapply StronglySorted_impl; [|exact Hs].
  intros a b. apply Z.leb_le.
Qed.

(** X17: the slices of the mood distribution are the moods that occur, in
    strictly ascending order, each with the number of entries of that
    mood: no slice is empty and the counts add up to the number of
    entries. *)
Theorem mood_distribution_counts_every_entry (df : DataFrame) :
  StronglySorted Z.lt (map fst (Visualizations.mood_distribution_slices df)) /\
  Zsum (map snd (Visualizations.mood_distribution_slices df)) = Zlen df /\
  (forall k, In k (map fst (Visualizations.mood_distribution_slices df)) <->
             exists r, In r df /\ mood r = k) /\
  (forall k c, In (k, c) (Visualizations.mood_distribution_slices df) ->
               1 <= c /\ c = Zlen (filter (fun r => mood r =? k) df)).
Proof.
  assert (forall k, group_rows Z.eq_dec mood df k
                    = filter (fun r => mood r =? k) df) as Hrows.
  { intros k. apply filter_ext. intros r.
    destruct (Z.eq_dec (mood r) k) as [->|Hne].
    - symmetry. apply Z.eqb_refl.
    - symmetry. now apply Z.eqb_neq. }
  destruct df as [|r0 t].
  - cbn. split; [constructor|]. split; [reflexivity|].
    split; [|intros k c []].
    intros k. split; [intros [] | intros (r & [] & _)].
  - set (df := r0 :: t) in *.
    change (Visualizations.mood_distribution_slices df)
      with (Visualizations.mood_counts df).
    unfold Visualizations.mood_counts. rewrite !map_map. cbn [fst snd].
    rewrite map_id.
    split; [|split; [|split]].
    + apply Zleb_sorted_keys; [apply group_keys_nodup|].
      apply sort_by_sorted.
      * intros a b. rewrite !Z.leb_le. lia.
      * intros a b c. rewrite !Z.leb_le. lia.
    + rewrite (map_ext _ (fun k => Zlen (filter (fun r => mood r =? k) df)))
        by (intros k; now rewrite Hrows).
      apply (groups_partition mood Z.eqb).
      * apply Z.eqb_eq.
      * apply group_keys_nodup.
      * intros r Hr. apply group_keys_in. eauto.
    + intros k. apply group_keys_in.
    + intros k c Hin. apply in_map_iff in Hin.
      destruct Hin as (k' & E & Hk). injection E as -> <-.
      pose proof (group_rows_nonempty Z.eq_dec Z.leb mood df k Hk) as Hne.
      pose proof (Zlen_pos _ Hne) as Hpos.
      split.
      * change (1 <= Zlen (group_rows Z.eq_dec mood df k)). lia.
      * change (Zlen (group_rows Z.eq_dec mood df k)
                = Zlen (filter (fun r => mood r =? k) df)).
        now rewrite Hrows.
Qed.

(** ** The weekly chart *)

Lemma pairs_functional {A B : Type} (l : list (A * B)) (a : A) (b b' : B) :
  NoDup (map fst l) -> In (a, b) l -> In (a, b') l -> b = b'.
Proof.
  induction l as [|[x y] t IH]; intros Hnd H1 H2; [destruct H1|].
  cbn [map fst] in Hnd. apply NoDup_cons_iff in Hnd.
  destruct Hnd as [Hnotin Hnd].
  destruct H1 as [E1|H1], H2 as [E2|H2].
  - congruence.
  - injection E1 as -> ->. exfalso. apply Hnotin.
    change a with (fst (a, b')). now apply in_map.
  - injection E2 as -> ->. exfalso. apply Hnotin.
    change a with (fst (a, b)). now apply in_map.
  - now apply IH.
Qed.

Lemma pairs_functional_snd {A B : Type} (l : list (A * B)) (a a' : A)
    (b : B) :
  NoDup (map snd l) -> In (a, b) l -> In (a', b) l -> a = a'.
Proof.
  induction l as [|[x y] t IH]; intros Hnd H1 H2; [destruct H1|].
  cbn [map snd] in Hnd. apply NoDup_cons_iff in Hnd.
  destruct Hnd as [Hnotin Hnd].
  destruct H1 as [E1|H1], H2 as [E2|H2].
  - congruence.
  - injection E1 as -> ->. exfalso. apply Hnotin.
    change b with (snd (a', b)). now apply in_map.
  - injection E2 as -> ->. exfalso. apply Hnotin.
    change b with (snd (a, b)). now apply in_map.
  - now apply IH.
Qed.

Lemma StronglySorted_filter {A : Type} (R : A -> A -> Prop) (f : A -> bool)
    (l : list A) :
  StronglySorted R l -> StronglySorted R (filter f l).
Proof.
  induction 1 as [|a t Hs IH Ha]; [constructor|].
  cbn [filter]. destruct (f a); [|exact IH].
  constructor; [exact IH|]. now apply Forall_filter_keep.
Qed.

Lemma weekday_key_in_table (d : date) :
  In (day_name d, dayofweek d) Visualizations.weekday_numbers.
Proof.
  unfold day_name.
  assert (0 <= dayofweek d < 7) as Hb
    by (unfold dayofweek; apply Z.mod_pos_bound; lia).
  generalize dependent (dayofweek d). intros w Hb.
  assert (w = 0 \/ w = 1 \/ w = 2 \/ w = 3 \/ w = 4 \/ w = 5 \/ w = 6)
    as C by lia.
  repeat (destruct C as [->|C]); try subst w; vm_compute; auto 10.
Qed.

Lemma weekday_names_nodup : NoDup (map fst Visualizations.weekday_numbers).
Proof. exact weekday_order_nodup. Qed.

Lemma weekday_nums_nodup : NoDup (map snd Visualizations.weekday_numbers).
Proof. repeat constructor; cbn; intuition discriminate. Qed.

Lemma weekday_numbers_sorted :
  StronglySorted (fun a b : string * Z => (snd a <=? snd b) = true)
                 Visualizations.weekday_numbers.
Proof. repeat constructor. Qed.

Lemma weekday_key_add_columns (r : Row) :
  let with_name :=
    mkRow (date_of r) (mood r) (journal r)
          (set_cell "weekday" (CStr (day_name (date_of r))) (extras r)) in
  let with_num :=
    mkRow (date_of with_name) (mood with_name) (journal with_name)
          (set_cell "weekday_num" (CInt (dayofweek (date_of with_name)))
                    (extras with_name)) in
  (str_cell "weekday" with_num, int_cell "weekday_num" with_num)
  = Visualizations.weekday_key r.
Proof.
  cbv zeta. unfold str_cell, int_cell, Visualizations.weekday_key. cbn [extras date_of].
  rewrite get_set_cell_same, get_set_cell_other by discriminate.
  now rewrite get_set_cell_same.
Qed.

(** The rows of one weekday's group. *)
Lemma weekday_group_rows (df : DataFrame) (r : Row) :
  group_rows month_key_dec Visualizations.weekday_key df (Visualizations.weekday_key r)
  = Spec.on_weekday (day_name (date_of r)) df.
Proof.
  apply filter_ext. intros x.
  destruct (month_key_dec (Visualizations.weekday_key x) (Visualizations.weekday_key r)) as [E|Hne].
  - injection E as -> _. symmetry. apply String.eqb_refl.
  - symmetry. apply String.eqb_neq. intros E. apply Hne.
    unfold Visualizations.weekday_key. rewrite E. f_equal.
    apply (pairs_functional Visualizations.weekday_numbers
             (day_name (date_of r))).
    + exact weekday_names_nodup.
    + rewrite <- E. apply weekday_key_in_table.
    + apply weekday_key_in_table.
Qed.

(** The weekdays that occur, with their numbers, are the group keys. *)
Lemma weekday_keys_perm (df : DataFrame) :
  Permutation
    (group_keys month_key_dec month_key_leb Visualizations.weekday_key df)
    (filter (fun p => Spec.has_entry_on df (fst p))
            Visualizations.weekday_numbers).
Proof.
  apply NoDup_Permutation.
  - apply group_keys_nodup.
  - apply NoDup_filter.
    apply (NoDup_map_inv fst). exact weekday_names_nodup.
  - intros [name num]. rewrite group_keys_in, filter_In. cbn [fst].
    unfold Spec.has_entry_on. rewrite existsb_exists. split.
    + intros (r & Hr & E). unfold Visualizations.weekday_key in E.
      injection E as <- <-. split; [apply weekday_key_in_table|].
      exists r. split; [exact Hr | apply String.eqb_refl].
    + intros (Hin & r & Hr & E). apply String.eqb_eq in E.
      exists r. split; [exact Hr|]. unfold Visualizations.weekday_key. rewrite E.
      f_equal.
      apply (pairs_functional Visualizations.weekday_numbers name).
      * exact weekday_names_nodup.
      * rewrite <- E. apply weekday_key_in_table.
      * exact Hin.
Qed.

Lemma weekday_avg_table (df : DataFrame) :
  Visualizations.weekday_avg (Visualizations.add_weekday_columns df)
  = map (fun p => (p, mean (map mood (Spec.on_weekday (fst p) df))))
        (filter (fun p => Spec.has_entry_on df (fst p))
                Visualizations.weekday_numbers).
Proof.
  unfold Visualizations.weekday_avg, Visualizations.add_weekday_columns.
  rewrite set_column_map, set_column_map, map_map.
  unfold Visualizations.groupby_mood_mean.
  rewrite (group_keys_map month_key_dec month_key_leb Visualizations.weekday_key)
    by exact weekday_key_add_columns.
  set (keys := group_keys month_key_dec month_key_leb Visualizations.weekday_key df).
  set (F := fun p : string * Z =>
              (p, mean (map mood (Spec.on_weekday (fst p) df)))).
  assert (Permutation keys
            (filter (fun p => Spec.has_entry_on df (fst p))
                    Visualizations.weekday_numbers)) as Hp
    by apply weekday_keys_perm.
  match goal with
  | |- sort_by _ (map ?G keys) = _ =>
      assert (map G keys = map F keys) as ->
  end.
  { apply map_ext_in. intros k Hk. unfold F. f_equal.
    rewrite (group_rows_map month_key_dec Visualizations.weekday_key)
      by exact weekday_key_add_columns.
    rewrite map_map. cbn [mood].
    apply group_keys_in in Hk. destruct Hk as (r & _ & <-).
    rewrite weekday_group_rows. reflexivity. }
  apply (sorted_perm_unique_on Visualizations.weekday_num_leb).
  - intros a b Ha Hb. apply sort_by_in in Ha, Hb.
    apply in_map_iff in Ha, Hb.
    destruct Ha as (ka & <- & Hka), Hb as (kb & <- & Hkb).
    unfold Visualizations.weekday_num_leb, F. cbn [fst snd].
    rewrite !Z.leb_le. intros H1 H2.
    assert (snd ka = snd kb) as E by lia.
    assert (ka = kb) as ->; [|reflexivity].
    assert (In ka Visualizations.weekday_numbers) as Ia.
    { eapply Permutation_in in Hka; [|exact Hp].
      now apply filter_In in Hka. }
    assert (In kb Visualizations.weekday_numbers) as Ib.
    { eapply Permutation_in in Hkb; [|exact Hp].
      now apply filter_In in Hkb. }
    destruct ka as [na xa], kb as [nb xb]. cbn [snd] in E. subst xb.
    f_equal.
    apply (pairs_functional_snd Visualizations.weekday_numbers na nb xa);
      [exact weekday_nums_nodup | exact Ia | exact Ib].
  - apply sort_by_sorted.
    + intros a b. unfold Visualizations.weekday_num_leb.
      rewrite !Z.leb_le. lia.
    + intros a b c. unfold Visualizations.weekday_num_leb.
      rewrite !Z.leb_le. lia.
  - apply (StronglySorted_map F
             (fun a b => Visualizations.weekday_num_leb a b = true)).
    apply StronglySorted_filter. exact weekday_numbers_sorted.
  - rewrite sort_by_perm. now apply Permutation_map.
Qed.

Lemma Forall2_map_same {A B C : Type} (R : B -> C -> Prop) (f : A -> B)
    (g : A -> C) (l : list A) :
  (forall a, In a l -> R (f a) (g a)) -> Forall2 R (map f l) (map g l).
Proof.
  induction l as [|a t IH]; intros H; [constructor|].
  cbn [map]. constructor; [apply H; now left|].
  apply IH. intros x Hx. apply H. now right.
Qed.

(** X18: the bars of the weekly chart are the weekdays that have entries,
    from Monday to Sunday, each with the exact mean of the moods logged on
    that weekday; the table of [get_weekly_patterns] has the same weekdays
    in the same order, and each mean it reports is the value of the bar
    rounded to two decimals: a whole number of hundredths within half a
    hundredth of it. *)
Theorem weekly_chart_bars_in_week_order (df : DataFrame) :
  Visualizations.weekly_pattern_bars df
  = map (fun p => (p, mean (map mood (Spec.on_weekday (fst p) df))))
        (filter (fun p => Spec.has_entry_on df (fst p))
                Visualizations.weekday_numbers) /\
  match get_weekly_patterns df with
  | Some r =>
      map fst (weekday_averages r)
      = map (fun bar => fst (fst bar))
            (Visualizations.weekly_pattern_bars df) /\
      Forall2 (fun row bar =>
                 (exists k : Z, (fst (snd row) == inject_Z k / 100)%Q) /\
                 (snd bar - (1 # 200) <= fst (snd row)
                  <= snd bar + (1 # 200))%Q)
              (weekday_averages r)
              (Visualizations.weekly_pattern_bars df)
  | None => df = []
  end.
Proof.
  destruct df as [|r0 t].
  - split; [|reflexivity]. cbn [Visualizations.weekly_pattern_bars].
    assert (forall l : list (string * Z),
              filter (fun p => Spec.has_entry_on [] (fst p)) l = []) as ->;
      [|reflexivity].
    induction l as [|p l IH]; [reflexivity|]. cbn [filter]. exact IH.
  - set (df := r0 :: t).
    change (Visualizations.weekly_pattern_bars df)
      with (Visualizations.weekday_avg (Visualizations.add_weekday_columns df)).
    rewrite weekday_avg_table. split; [reflexivity|].
    change (get_weekly_patterns df)
      with (Some (weekly_result (add_weekday df))).
    cbv iota beta. rewrite weekly_table.
    change weekday_order with (map fst Visualizations.weekday_numbers).
    rewrite filter_map_comm, !map_map. cbn [fst snd].
    split; [reflexivity|].
    apply Forall2_map_same. intros p _. cbn [fst snd].
    unfold Spec.weekday_stat. cbn [fst].
    split; [apply round2_hundredth | apply round2_close].
Qed.

(** ** The monthly trend chart *)

Lemma StronglySorted_nodup_strict {A : Type} (R : A -> A -> Prop)
    (l : list A) :
  StronglySorted R l -> NoDup l ->
  StronglySorted (fun a b => R a b /\ a <> b) l.
Proof.
  induction 1 as [|a t Hs IH Ha]; intros Hnd; constructor;
    apply NoDup_cons_iff in Hnd; destruct Hnd as [Hnotin Hnd].
  - now apply IH.
  - rewrite Forall_forall in *. intros x Hx. split; [now apply Ha|].
    intros ->. contradiction.
Qed.

Lemma filter_filter_implied {A : Type} (f g : A -> bool) (l : list A) :
  (forall a, f a = true -> g a = true) ->
  filter f (filter g l) = filter f l.
Proof.
  intros Himp. induction l as [|a t IH]; [reflexivity|].
  cbn [filter]. destruct (g a) eqn:G.
  - cbn [filter]. now rewrite IH.
  - rewrite IH. destruct (f a) eqn:F; [|reflexivity].
    apply Himp in F. congruence.
Qed.

Lemma period_add_year_month (r : Row) :
  date_cell "year_month"
    (mkRow (date_of r) (mood r) (journal r)
           (set_cell "year_month"
              (CDate (Visualizations.to_period_M (date_of r))) (extras r)))
  = Visualizations.to_period_M (date_of r).
Proof. unfold date_cell. cbn [extras]. now rewrite get_set_cell_same. Qed.

Lemma period_group_rows (df : DataFrame) (k : date) :
  group_rows Visualizations.date_eq_dec
    (fun r => Visualizations.to_period_M (date_of r)) df k
  = filter (fun r => date_eqb (Visualizations.to_period_M (date_of r)) k) df.
Proof.
  apply filter_ext. intros r.
  destruct (Visualizations.date_eq_dec
              (Visualizations.to_period_M (date_of r)) k) as [E|Hne].
  - symmetry. now apply date_eqb_eq.
  - destruct (date_eqb (Visualizations.to_period_M (date_of r)) k) eqn:E;
      [|reflexivity].
    apply date_eqb_eq in E. contradiction.
Qed.

Lemma monthly_stats_table (df : DataFrame) :
  Visualizations.monthly_stats (Visualizations.add_year_month df)
  = map (fun k =>
           let rows :=
             filter (fun r =>
                       date_eqb (Visualizations.to_period_M (date_of r)) k)
                    df in
           (k, (mean (map mood rows), Zlen rows)))
        (group_keys Visualizations.date_eq_dec date_leb
           (fun r => Visualizations.to_period_M (date_of r)) df).
Proof.
  unfold Visualizations.monthly_stats, Visualizations.add_year_month.
  rewrite set_column_map.
  rewrite (group_keys_map Visualizations.date_eq_dec date_leb
             (fun r => Visualizations.to_period_M (date_of r)))
    by exact period_add_year_month.
  apply map_ext. intros k. cbv zeta.
  rewrite (group_rows_map Visualizations.date_eq_dec
             (fun r => Visualizations.to_period_M (date_of r)))
    by exact period_add_year_month.
  rewrite map_map. cbn [mood]. rewrite period_group_rows.
  unfold Zlen at 1. rewrite length_map. reflexivity.
Qed.

(** X19: the points of the monthly trend chart are the months of the
    years that have entries, in strict order of time, each with the exact
    mean and the number of the entries of that month of that year: no
    point is empty, the counts add up to the number of entries, and the
    count that [get_monthly_patterns] reports for a month of the calendar
    is the sum of the chart's counts for that month over the years. *)
Theorem monthly_chart_points_by_year_and_month (df : DataFrame) :
  StronglySorted (fun a b => date_leb a b = true /\ a <> b)
    (map fst (Visualizations.monthly_trend_points df)) /\
  Zsum (map (fun p => snd (snd p)) (Visualizations.monthly_trend_points df))
    = Zlen df /\
  (forall r, In r df ->
     In (mkDate (year (date_of r)) (month (date_of r)) 1)
        (map fst (Visualizations.monthly_trend_points df))) /\
  (forall k m c, In (k, (m, c)) (Visualizations.monthly_trend_points df) ->
     day k = 1 /\ 1 <= c /\
     c = Zlen (filter (fun r => (year (date_of r) =? year k)
                                && (month (date_of r) =? month k)) df) /\
     m = mean (map mood
                 (filter (fun r => (year (date_of r) =? year k)
                                   && (month (date_of r) =? month k)) df))) /\
  (forall m,
     Zsum (map (fun p => snd (snd p))
             (filter (fun p => month (fst p) =? m)
                     (Visualizations.monthly_trend_points df)))
     = snd (Spec.month_stat df m)).
Proof.
  set (pkey := fun r : Row => Visualizations.to_period_M (date_of r)).
  assert (Visualizations.monthly_trend_points df
          = map (fun k =>
                   let rows := filter (fun r => date_eqb (pkey r) k) df in
                   (k, (mean (map mood rows), Zlen rows)))
                (group_keys Visualizations.date_eq_dec date_leb pkey df))
    as ->.
  { destruct df as [|r0 t]; [reflexivity|].
    change (Visualizations.monthly_trend_points (r0 :: t))
      with (Visualizations.monthly_stats
              (Visualizations.add_year_month (r0 :: t))).
    apply monthly_stats_table. }
  set (keys := group_keys Visualizations.date_eq_dec date_leb pkey df).
  assert (NoDup keys) as Hnd by apply group_keys_nodup.
  assert (forall k, In k keys <-> exists r, In r df /\ pkey r = k) as Hkeys
    by (intros k; apply group_keys_in).
  cbv zeta. rewrite !map_map. cbn [fst snd]. rewrite map_id.
  split; [|split; [|split; [|split]]].
  - apply StronglySorted_nodup_strict; [|exact Hnd].
    apply sort_by_sorted.
    + intros a b. apply date_leb_total.
    + intros a b c. apply date_leb_trans.
  - apply (groups_partition pkey date_eqb).
    + intros a b. apply date_eqb_eq.
    + exact Hnd.
    + intros r Hr. apply Hkeys. eauto.
  - intros r Hr. apply Hkeys. exists r. split; [exact Hr | reflexivity].
  - intros k m c Hin. apply in_map_iff in Hin.
    destruct Hin as (k' & E & Hk). injection E as -> <- <-.
    assert (filter (fun r => date_eqb (pkey r) k) df
            = filter (fun r => (year (date_of r) =? year k)
                               && (month (date_of r) =? month k)) df) as Hf.
    { apply Hkeys in Hk. destruct Hk as (r0 & _ & <-).
      apply filter_ext. intros r. unfold date_eqb, pkey.
      unfold Visualizations.to_period_M. cbn [year month day].
      now rewrite Z.eqb_refl, andb_true_r. }
    rewrite <- Hf. split; [|split; [|split; reflexivity]].
    + apply Hkeys in Hk. destruct Hk as (r0 & _ & <-). reflexivity.
    + assert (filter (fun r => date_eqb (pkey r) k) df <> []) as Hne.
      { unfold pkey. rewrite <- (period_group_rows df k).
        apply (group_rows_nonempty Visualizations.date_eq_dec date_leb).
        exact Hk. }
      pose proof (Zlen_pos _ Hne). lia.
  - intros m. rewrite filter_map_comm, map_map. cbn [fst snd].
    unfold Spec.month_stat. cbn [snd].
    rewrite <- (groups_partition pkey date_eqb date_eqb_eq
                  (filter (fun k => month k =? m) keys)
                  (Spec.in_month m df)).
    + f_equal. apply map_ext_in. intros k Hk. apply filter_In in Hk.
      destruct Hk as [_ Hm]. apply Z.eqb_eq in Hm. f_equal.
      unfold Spec.in_month. symmetry. apply filter_filter_implied.
      intros r E. apply date_eqb_eq in E. apply Z.eqb_eq.
      rewrite <- Hm, <- E. reflexivity.
    + now apply NoDup_filter.
    + intros r Hr. apply filter_In in Hr. destruct Hr as [Hr Hm].
      apply filter_In. split; [apply Hkeys; eauto|]. exact Hm.
Qed.

(** * The calendar page *)

Lemma valid_dateb_spec (d : date) :
  CalendarView.valid_dateb d = true <-> valid_date d.
Proof.
  unfold CalendarView.valid_dateb, valid_date.
  rewrite !andb_true_iff, !Z.leb_le. tauto.
Qed.

Lemma days_in_month_bounds (y m : Z) :
  1 <= m <= 12 -> 28 <= days_in_month y m <= 31.
Proof.
  intros Hm. unfold days_in_month.
  assert (m = 1 \/ m = 2 \/ m = 3 \/ m = 4 \/ m = 5 \/ m = 6 \/ m = 7 \/
          m = 8 \/ m = 9 \/ m = 10 \/ m = 11 \/ m = 12) as C by lia.
  destruct (is_leap y);
    repeat (destruct C as [->|C]); try subst m; eval_month; lia.
Qed.

Lemma first_of_month_valid (y m : Z) :
  1 <= y <= 9999 -> 1 <= m <= 12 -> valid_date (mkDate y m 1).
Proof.
  intros Hy Hm. unfold valid_date. cbn [year month day].
  pose proof (days_in_month_bounds y m Hm). lia.
Qed.

(** The first of the month after [(y, m)], unless the calendar ends. *)
Lemma next_month_first (y m : Z) :
  1 <= y <= 9999 -> 1 <= m <= 12 -> (y, m) <> (9999, 12) ->
  CalendarView.next_month (mkDate y m 1)
  = Some (if m =? 12 then mkDate (y + 1) 1 1 else mkDate y (m + 1) 1).
Proof.
  intros Hy Hm Hend. unfold CalendarView.next_month.
  cbn [year month day].
  unfold CalendarView.replace_year_month. cbn [day].
  destruct (Z.eqb_spec m 12) as [->|Hm12].
  - assert (y <> 9999) by (intros ->; now apply Hend).
    assert (CalendarView.valid_dateb (mkDate (y + 1) 1 1) = true) as ->;
      [|reflexivity].
    apply valid_dateb_spec, first_of_month_valid; lia.
  - assert (CalendarView.valid_dateb (mkDate y (m + 1) 1) = true) as ->;
      [|reflexivity].
    apply valid_dateb_spec, first_of_month_valid; lia.
Qed.

Lemma previous_month_first (y m : Z) :
  1 <= y <= 9999 -> 1 <= m <= 12 -> (y, m) <> (1, 1) ->
  CalendarView.previous_month (mkDate y m 1)
  = Some (if m =? 1 then mkDate (y - 1) 12 1 else mkDate y (m - 1) 1).
Proof.
  intros Hy Hm Hstart. unfold CalendarView.previous_month.
  unfold CalendarView.replace_day_1. cbn [year month day].
  unfold DataManager.prev_day.
  assert ((date_eqb (mkDate y m 1) DataManager.date_min) = false) as ->.
  { destruct (date_eqb (mkDate y m 1) DataManager.date_min) eqn:E;
      [|reflexivity].
    apply date_eqb_eq in E. injection E as -> ->. now contradiction Hstart. }
  cbn [year month day]. change (1 <? 1) with false. cbv iota.
  destruct (Z.eqb_spec m 1) as [->|Hm1].
  - reflexivity.
  - assert ((1 <? m) = true) as -> by (apply Z.ltb_lt; lia). reflexivity.
Qed.




(** X21: the buttons "Previous Month" and "Next Month" undo each other: from
    the first of a month, one step back and one step forward, or one
    forward and one back, return to the same month; the step back fails
    only in January of the year 1 and the step forward only in December
    of the year 9999. *)
Theorem calendar_navigation_round_trip (y m : Z) :
  1 <= y <= 9999 -> 1 <= m <= 12 ->
  (match CalendarView.previous_month (mkDate y m 1) with
   | Some p => CalendarView.next_month p = Some (mkDate y m 1)
   | None => (y, m) = (1, 1)
   end) /\
  (match CalendarView.next_month (mkDate y m 1) with
   | Some n => CalendarView.previous_month n = Some (mkDate y m 1)
   | None => (y, m) = (9999, 12)
   end).
Proof.
  intros Hy Hm. split.
  - destruct (Z.eq_dec y 1) as [->|Hy1];
      [destruct (Z.eq_dec m 1) as [->|Hm1]; [reflexivity|]|].
    + rewrite previous_month_first by (try lia; intros E; injection E; lia).
      assert ((m =? 1) = false) as -> by (apply Z.eqb_neq; lia).
      rewrite next_month_first by (try lia; intros E; injection E; lia).
      assert ((m - 1 =? 12) = false) as -> by (apply Z.eqb_neq; lia).
      do 2 f_equal. lia.
    + rewrite previous_month_first by (try lia; intros E; injection E; lia).
      destruct (Z.eqb_spec m 1) as [->|Hm1].
      * rewrite next_month_first by (try lia; intros E; injection E; lia).
        cbn. do 2 f_equal. lia.
      * rewrite next_month_first by (try lia; intros E; injection E; lia).
        assert ((m - 1 =? 12) = false) as -> by (apply Z.eqb_neq; lia).
        do 2 f_equal. lia.
  - destruct (Z.eq_dec y 9999) as [->|Hy9];
      [destruct (Z.eq_dec m 12) as [->|Hm12]; [reflexivity|]|].
    + rewrite next_month_first by (try lia; intros E; injection E; lia).
      assert ((m =? 12) = false) as -> by (apply Z.eqb_neq; lia).
      rewrite previous_month_first by (try lia; intros E; injection E; lia).
      assert ((m + 1 =? 1) = false) as -> by (apply Z.eqb_neq; lia).
      do 2 f_equal. lia.
    + rewrite next_month_first by (try lia; intros E; injection E; lia).
      destruct (Z.eqb_spec m 12) as [->|Hm12].
      * rewrite previous_month_first by (try lia; intros E; injection E; lia).
        cbn. do 2 f_equal. lia.
      * rewrite previous_month_first by (try lia; intros E; injection E; lia).
        assert ((m + 1 =? 1) = false) as -> by (apply Z.eqb_neq; lia).
        do 2 f_equal. lia.
Qed.

Lemma calendar_navigation_round_trip_witness :
  CalendarView.previous_month (mkDate 2025 1 1) = Some (mkDate 2024 12 1)
  /\ CalendarView.next_month (mkDate 2024 12 1) = Some (mkDate 2025 1 1).
Proof.
  pose proof (calendar_navigation_round_trip 2025 1 ltac:(lia) ltac:(lia))
    as [H _].
  split; [reflexivity | exact H].
Defined.

(** * Saving an entry *)

Example isoformat_pads_with_zeros :
  DataManager.isoformat (mkDate 2024 3 7) = "2024-03-07"%string.
Proof. reflexivity. Qed.

(** No date object of the loaded frame equals an ISO string. *)
Lemma no_loaded_date_is_a_string (df : DataFrame) (s : string) :
  existsb (fun v => DataManager.py_eq v (DataManager.PyStr s))
          (map (fun r => DataManager.PyDate (date_of r)) df) = false.
Proof.
  induction df as [|r t IH]; [reflexivity|].
  cbn [map existsb DataManager.py_eq]. exact IH.
Qed.

(** X23: [save_entry] never updates a row.  Whatever the date, and whether
    or not the loaded frame has an entry for it, the frame written back is
    the loaded frame, every row as it was, followed by one new row for the
    ISO string of the date: the test of line 29 compares that string with
    the date objects of the loaded frame, and none is equal to it. *)
Theorem save_entry_always_appends (df : DataFrame)
    (entry_date : DataManager.PyVal) (mood : Z) (journal : string) :
  let date_str :=
    match entry_date with
    | DataManager.PyDate d => DataManager.isoformat d
    | DataManager.PyStr s => s
    end in
  let written := DataManager.save_entry_frame df entry_date mood journal in
  written
  = map DataManager.unchanged df
    ++ [DataManager.mkSavedRow (DataManager.PyStr date_str) mood
          (Some journal)] /\
  Zlen written = Zlen df + 1.
Proof.
  cbv zeta.
  assert (DataManager.save_entry_frame df entry_date mood journal
          = map DataManager.unchanged df
            ++ [DataManager.mkSavedRow
                  (DataManager.PyStr
                     match entry_date with
                     | DataManager.PyDate d => DataManager.isoformat d
                     | DataManager.PyStr s => s
                     end) mood (Some journal)]) as ->.
  { unfold DataManager.save_entry_frame.
    destruct entry_date as [s|d]; cbv zeta;
      rewrite no_loaded_date_is_a_string, andb_false_r; reflexivity. }
  split; [reflexivity|].
  rewrite Zlen_app. unfold Zlen. rewrite length_map. cbn. lia.
Qed.

(** * The statistics of the data manager *)

Lemma first_best_row (better : Q -> Q -> bool) (r0 : Row) (t : DataFrame) :
  (forall a b c, better b a = true -> better c b = true ->
                 better c a = true) ->
  (forall a b c, better a b = false -> better c b = true ->
                 better c a = true) ->
  exists pre r post,
    r0 :: t = pre ++ r :: post /\
    idx_first better (date_of r0, inject_Z (mood r0))
      (map (fun r => (date_of r, inject_Z (mood r))) t) = date_of r /\
    Forall (fun x => better (inject_Z (mood r)) (inject_Z (mood x)) = true)
           pre /\
    Forall (fun x => better (inject_Z (mood x)) (inject_Z (mood r)) = false)
           post.
Proof.
  intros Htrans Hpass.
  set (key := fun r : Row => (date_of r, inject_Z (mood r))).
  destruct (idx_first_split better Htrans Hpass (map key t) [] (key r0) [])
    as (pre & v & post & H & Hpre & Hpost); try constructor.
  change ([] ++ key r0 :: [] ++ map key t) with (map key (r0 :: t)) in H.
  apply map_eq_app in H. destruct H as (pre' & rest & E & <- & Hrest).
  apply map_eq_cons in Hrest.
  destruct Hrest as (r & post' & -> & Hr & <-).
  unfold key in Hr. injection Hr as Hd Hv.
  exists pre', r, post'. split; [exact E|]. split; [symmetry; exact Hd|].
  rewrite Forall_map in Hpre, Hpost. rewrite <- Hv in Hpre, Hpost.
  split; [exact Hpre | exact Hpost].
Qed.

Lemma earliest_spec (t : list date) (d0 : date) :
  In (DataManager.earliest d0 t) (d0 :: t) /\
  Forall (fun d => date_leb (DataManager.earliest d0 t) d = true) (d0 :: t).
Proof.
  unfold DataManager.earliest. revert d0.
  induction t as [|d t IH]; intros d0.
  - cbn. split; [now left|]. constructor; [apply date_leb_refl|constructor].
  - cbn [fold_left].
    destruct (IH (if date_leb d d0 then d else d0)) as [Hin Hall].
    set (m := fold_left _ t _) in *.
    apply Forall_cons_iff in Hall. destruct Hall as [Hm Hall].
    split.
    + destruct Hin as [E|Hin]; [|now right; right].
      destruct (date_leb d d0); rewrite <- E; [right; now left | now left].
    + destruct (date_leb d d0) eqn:E.
      * constructor; [exact (date_leb_trans _ _ _ Hm E)|].
        constructor; [exact Hm | exact Hall].
      * constructor; [exact Hm|]. constructor; [|exact Hall].
        destruct (date_leb_total d d0) as [H|H]; [congruence|].
        exact (date_leb_trans _ _ _ Hm H).
Qed.

Lemma latest_spec (t : list date) (d0 : date) :
  In (DataManager.latest d0 t) (d0 :: t) /\
  Forall (fun d => date_leb d (DataManager.latest d0 t) = true) (d0 :: t).
Proof.
  unfold DataManager.latest. revert d0.
  induction t as [|d t IH]; intros d0.
  - cbn. split; [now left|]. constructor; [apply date_leb_refl|constructor].
  - cbn [fold_left].
    destruct (IH (if date_leb d0 d then d else d0)) as [Hin Hall].
    set (m := fold_left _ t _) in *.
    apply Forall_cons_iff in Hall. destruct Hall as [Hm Hall].
    split.
    + destruct Hin as [E|Hin]; [|now right; right].
      destruct (date_leb d0 d); rewrite <- E; [right; now left | now left].
    + destruct (date_leb d0 d) eqn:E.
      * constructor; [exact (date_leb_trans _ _ _ E Hm)|].
        constructor; [exact Hm | exact Hall].
      * constructor; [exact Hm|]. constructor; [|exact Hall].
        destruct (date_leb_total d0 d) as [H|H]; [congruence|].
        exact (date_leb_trans _ _ _ H Hm).
Qed.

(** The median lies between any bounds of the values. *)
Lemma median_bounds (l : list Z) (lo hi : Z) :
  l <> [] -> Forall (fun v => lo <= v <= hi) l ->
  (inject_Z lo <= DataManager.median l <= inject_Z hi)%Q.
Proof.
  intros Hne Hall. unfold DataManager.median. cbv zeta.
  set (s := sort_by Z.leb l).
  assert (Forall (fun v => lo <= v <= hi) s) as Hs.
  { eapply Permutation_Forall; [|exact Hall].
    apply Permutation_sym, sort_by_perm. }
  assert (0 < length s)%nat as Hlen.
  { unfold s. rewrite sort_by_length. destruct l; [congruence|]. cbn. lia. }
  assert (forall i, (i < length s)%nat -> lo <= nth i s 0 <= hi) as Hnth.
  { intros i Hi. rewrite Forall_forall in Hs. apply Hs. now apply nth_In. }
  pose proof (Nat.div_lt (length s) 2 Hlen ltac:(lia)) as Hhalf.
  set (mid := (length s / 2)%nat) in *.
  destruct (Nat.even (length s)) eqn:Ev.
  - assert (mid - 1 < length s)%nat as H1 by lia.
    pose proof (Hnth _ H1) as Ha. pose proof (Hnth _ Hhalf) as Hb.
    set (a := nth (mid - 1) s 0) in *.
    set (b := nth mid s 0) in *.
    assert (inject_Z (lo + lo) <= inject_Z (a + b) <= inject_Z (hi + hi))%Q
      as [H2 H3] by (rewrite <- !Zle_Qle; lia).
    rewrite !inject_Z_plus in H2, H3. rewrite inject_Z_plus.
    split.
    + apply Qle_shift_div_l; [reflexivity | lra].
    + apply Qle_shift_div_r; [reflexivity | lra].
  - pose proof (Hnth _ Hhalf) as Hb. rewrite <- !Zle_Qle. exact Hb.
Qed.

(** X24: for a non-empty frame [get_mood_statistics] counts all entries;
    the average and the median lie between the lowest and the highest
    mood; [best_mood_date] is the date of the first row, in the order of
    the frame, that has the highest mood, and [worst_mood_date] that of the
    first row with the lowest; the date range runs from the earliest to
    the latest date of the frame; and [mood_distribution] has a key for
    exactly the moods that occur, with the number of their entries. *)
Theorem mood_statistics_summarise_entries (df : DataFrame) :
  df <> [] ->
  exists s,
    DataManager.get_mood_statistics df = Some s /\
    DataManager.total_entries s = Zlen df /\
    (inject_Z (Zmin_list (map mood df)) <= DataManager.average_mood s
     <= inject_Z (Zmax_list (map mood df)))%Q /\
    (inject_Z (Zmin_list (map mood df)) <= DataManager.median_mood s
     <= inject_Z (Zmax_list (map mood df)))%Q /\
    (exists pre r post,
       df = pre ++ r :: post /\ DataManager.best_mood_date s = date_of r /\
       mood r = Zmax_list (map mood df) /\
       Forall (fun x => mood x < mood r) pre) /\
    (exists pre r post,
       df = pre ++ r :: post /\ DataManager.worst_mood_date s = date_of r /\
       mood r = Zmin_list (map mood df) /\
       Forall (fun x => mood r < mood x) pre) /\
    (In (DataManager.date_range_start s) (map date_of df) /\
     In (DataManager.date_range_end s) (map date_of df) /\
     Forall (fun r =>
               date_leb (DataManager.date_range_start s) (date_of r) = true /\
               date_leb (date_of r) (DataManager.date_range_end s) = true)
            df) /\
    (forall k,
       match DataManager.mood_distribution s k with
       | Some c => 1 <= c /\ c = Zlen (filter (fun r => mood r =? k) df)
       | None => forall r, In r df -> mood r <> k
       end).
Proof.
  intros Hne. destruct df as [|r0 t]; [congruence|].
  set (df := r0 :: t) in *.
  eexists. split; [reflexivity|].
  cbn [DataManager.total_entries DataManager.average_mood
       DataManager.median_mood DataManager.mood_distribution
       DataManager.best_mood_date DataManager.worst_mood_date
       DataManager.date_range_start DataManager.date_range_end].
  assert (map mood df <> []) as Hm by discriminate.
  assert (Forall (fun v => Zmin_list (map mood df) <= v
                           <= Zmax_list (map mood df)) (map mood df)) as Hb.
  { pose proof (Zmin_list_le (map mood df)) as H1.
    pose proof (Zmax_list_ge (map mood df)) as H2.
    rewrite Forall_forall in *. intros v Hv.
    split; [now apply H1 | now apply H2]. }
  split; [reflexivity|].
  split; [now apply mean_bounds|].
  split; [now apply median_bounds|].
  rewrite Forall_map in Hb.
  split; [|split; [|split]].
  - destruct (first_best_row (fun v b => Qltb b v) r0 t)
      as (pre & r & post & E & Hd & Hpre & Hpost).
    { intros a b c. rewrite !Qltb_lt. intros; lra. }
    { intros a b c. rewrite Qltb_ge, !Qltb_lt. intros; lra. }
    exists pre, r, post. split; [exact E|]. split; [exact Hd|].
    assert (Forall (fun x => mood x < mood r) pre) as Hpre'.
    { eapply Forall_impl; [|exact Hpre]. cbv beta. intros x.
      rewrite Qltb_lt, <- Zlt_Qlt. auto. }
    assert (Forall (fun x => mood x <= mood r) post) as Hpost'.
    { eapply Forall_impl; [|exact Hpost]. cbv beta. intros x.
      rewrite Qltb_ge, <- Zle_Qle. auto. }
    split; [|exact Hpre'].
    assert (In r df) as Hr by (fold df in E; rewrite E; apply in_elt).
    rewrite Forall_forall in Hb. pose proof (Hb r Hr) as [_ Hhi].
    pose proof (Zmax_list_in (map mood df) Hm) as Hin.
    apply in_map_iff in Hin. destruct Hin as (x & Ex & Hx).
    fold df in E. rewrite E in Hx. apply in_app_or in Hx.
    rewrite Forall_forall in Hpre', Hpost'.
    destruct Hx as [Hx|[<-|Hx]].
    + pose proof (Hpre' x Hx). lia.
    + lia.
    + pose proof (Hpost' x Hx). lia.
  - destruct (first_best_row (fun v b => Qltb v b) r0 t)
      as (pre & r & post & E & Hd & Hpre & Hpost).
    { intros a b c. rewrite !Qltb_lt. intros; lra. }
    { intros a b c. rewrite Qltb_ge, !Qltb_lt. intros; lra. }
    exists pre, r, post. split; [exact E|]. split; [exact Hd|].
    assert (Forall (fun x => mood r < mood x) pre) as Hpre'.
    { eapply Forall_impl; [|exact Hpre]. cbv beta. intros x.
      rewrite Qltb_lt, <- Zlt_Qlt. auto. }
    assert (Forall (fun x => mood r <= mood x) post) as Hpost'.
    { eapply Forall_impl; [|exact Hpost]. cbv beta. intros x.
      rewrite Qltb_ge, <- Zle_Qle. auto. }
    split; [|exact Hpre'].
    assert (In r df) as Hr by (fold df in E; rewrite E; apply in_elt).
    rewrite Forall_forall in Hb. pose proof (Hb r Hr) as [Hlo _].
    pose proof (Zmin_list_in (map mood df) Hm) as Hin.
    apply in_map_iff in Hin. destruct Hin as (x & Ex & Hx).
    fold df in E. rewrite E in Hx. apply in_app_or in Hx.
    rewrite Forall_forall in Hpre', Hpost'.
    destruct Hx as [Hx|[<-|Hx]].
    + pose proof (Hpre' x Hx). lia.
    + lia.
    + pose proof (Hpost' x Hx). lia.
  - destruct (earliest_spec (map date_of t) (date_of r0)) as [He1 He2].
    destruct (latest_spec (map date_of t) (date_of r0)) as [Hl1 Hl2].
    split; [exact He1|]. split; [exact Hl1|].
    change (date_of r0 :: map date_of t) with (map date_of df) in He2, Hl2.
    rewrite Forall_map in He2, Hl2.
    rewrite Forall_forall in *. intros r Hr. split; auto.
  - intros k.
    pose proof (Zlen_nonneg (filter (fun r => mood r =? k) df)) as Hnn.
    destruct (Z.eqb_spec (Zlen (filter (fun r => mood r =? k) df)) 0)
      as [E0|Hpos].
    + intros r Hr Hk.
      assert (In r (filter (fun r => mood r =? k) df)) as Hin
        by (apply filter_In; split; [exact Hr | now apply Z.eqb_eq]).
      destruct (filter (fun r => mood r =? k) df); [exact Hin|].
      rewrite Zlen_cons in E0. pose proof (Zlen_nonneg l). lia.
    + split; [lia | reflexivity].
Qed.

Lemma mood_statistics_summarise_entries_witness :
  exists s,
    DataManager.get_mood_statistics
      [mkRow (mkDate 2024 1 1) 4 None []; mkRow (mkDate 2024 1 2) 2 None [];
       mkRow (mkDate 2024 1 3) 4 None []] = Some s /\
    DataManager.best_mood_date s = mkDate 2024 1 1 /\
    DataManager.total_entries s = 3.
Proof.
  destruct (mood_statistics_summarise_entries
              [mkRow (mkDate 2024 1 1) 4 None [];
               mkRow (mkDate 2024 1 2) 2 None [];
               mkRow (mkDate 2024 1 3) 4 None []])
    as (s & Hs & Htotal & _); [discriminate|].
  exists s. split; [exact Hs|]. split; [|exact Htotal].
  injection Hs as <-. reflexivity.
Defined.

(** * The home page *)

Lemma sort_by_sorted_id {A : Type} (leb : A -> A -> bool) (l : list A) :
  StronglySorted (fun a b => leb a b = true) l -> sort_by leb l = l.
Proof.
  induction 1 as [|x t Hs IH Hx]; [reflexivity|].
  cbn [sort_by]. rewrite IH.
  destruct t as [|y t']; [reflexivity|].
  cbn [insert_sorted]. now rewrite (Forall_inv Hx).
Qed.

Lemma StronglySorted_skipn {A : Type} (R : A -> A -> Prop) (n : nat)
    (l : list A) :
  StronglySorted R l -> StronglySorted R (skipn n l).
Proof.
  revert l. induction n as [|n IH]; intros l Hs; [exact Hs|].
  destruct l as [|x t]; [constructor|].
  cbn [skipn]. apply IH. now apply StronglySorted_inv in Hs.
Qed.

Lemma StronglySorted_app_one {A : Type} (R : A -> A -> Prop) (l : list A)
    (x : A) :
  StronglySorted R l -> Forall (fun a => R a x) l ->
  StronglySorted R (l ++ [x]).
Proof.
  induction 1 as [|a t Hs IH Ha]; intros Hall.
  - cbn. constructor; constructor.
  - cbn [app]. constructor.
    + apply IH. now apply Forall_inv_tail in Hall.
    + apply Forall_app. split; [exact Ha|].
      constructor; [now apply Forall_inv in Hall | constructor].
Qed.

Lemma StronglySorted_rev {A : Type} (R : A -> A -> Prop) (l : list A) :
  StronglySorted R l -> StronglySorted (fun a b => R b a) (rev l).
Proof.
  induction 1 as [|a t Hs IH Ha]; [constructor|].
  cbn [rev]. apply StronglySorted_app_one; [exact IH|].
  apply Forall_rev. exact Ha.
Qed.

Lemma NoDup_skipn {A : Type} (n : nat) (l : list A) :
  NoDup l -> NoDup (skipn n l).
Proof.
  revert l. induction n as [|n IH]; intros l Hnd; [exact Hnd|].
  destruct l as [|x t]; [constructor|].
  cbn [skipn]. apply IH. now apply NoDup_cons_iff in Hnd.
Qed.

Lemma load_data_perm (parsed : DataFrame) :
  Permutation (DataManager.load_data parsed) parsed.
Proof.
  unfold DataManager.load_data.
  destruct (is_empty parsed); [reflexivity | apply sort_values_date_perm].
Qed.

Lemma load_data_sorted (parsed : DataFrame) :
  StronglySorted Spec.date_ordered (DataManager.load_data parsed).
Proof.
  unfold DataManager.load_data. destruct parsed as [|r t]; [constructor|].
  cbn [is_empty]. apply sort_values_date_sorted.
Qed.

(** X25: when no two entries share a date, then on the frame that
    [load_data] returns the 7-day average of the home page is the
    [recent_average] that [get_mood_trends] computes for the same frame,
    and the preview lists the five latest entries, the newest first. *)
Theorem home_page_shows_latest_entries (parsed : DataFrame) :
  parsed <> [] ->
  NoDup (map date_of parsed) ->
  (exists r,
     get_mood_trends (DataManager.load_data parsed) = Some r /\
     recent_average r = HomePage.avg_mood (DataManager.load_data parsed)) /\
  HomePage.recent_df (DataManager.load_data parsed)
  = rev (tail 5 (DataManager.load_data parsed)).
Proof.
  intros Hne Hnd.
  pose proof (load_data_perm parsed) as Hp.
  pose proof (load_data_sorted parsed) as Hs.
  set (df := DataManager.load_data parsed) in *.
  assert (df <> []) as Hne'.
  { intros E. rewrite E in Hp. apply Permutation_nil in Hp. contradiction. }
  split.
  - rewrite (get_mood_trends_some df Hne'). eexists. split; [reflexivity|].
    unfold trend_result. cbn [recent_average].
    unfold sort_values_date. rewrite (sort_by_sorted_id _ df Hs).
    destruct (add_moving_averages_base df) as (_ & -> & _).
    unfold HomePage.avg_mood, HomePage.recent_entries.
    now rewrite tail_map.
  - assert (NoDup (map date_of df)) as Hnd'.
    { eapply Permutation_NoDup; [|exact Hnd].
      apply Permutation_map, Permutation_sym, Hp. }
    unfold HomePage.recent_df.
    set (latest := tail 5 df).
    assert (NoDup (map date_of latest)) as Hndl.
    { unfold latest, tail. rewrite <- skipn_map. now apply NoDup_skipn. }
    apply (sorted_perm_unique_on
             (fun a b => date_leb (date_of b) (date_of a))).
    + intros a b Ha Hb H1 H2.
      apply sort_by_in in Ha, Hb.
      apply (NoDup_map_injective_on date_of latest Hndl); try assumption.
      now apply date_leb_antisym.
    + apply sort_values_date_desc_sorted.
    + apply (StronglySorted_rev Spec.date_ordered).
      unfold latest, tail. now apply StronglySorted_skipn.
    + etransitivity; [apply sort_values_date_desc_perm|].
      apply Permutation_rev.
Qed.

Lemma home_page_shows_latest_entries_witness :
  HomePage.recent_df
    (DataManager.load_data
       [mkRow (mkDate 2024 1 2) 4 None []; mkRow (mkDate 2024 1 1) 2 None []])
  = [mkRow (mkDate 2024 1 2) 4 None []; mkRow (mkDate 2024 1 1) 2 None []].
Proof.
  rewrite (proj2 (home_page_shows_latest_entries
                    [mkRow (mkDate 2024 1 2) 4 None [];
                     mkRow (mkDate 2024 1 1) 2 None []]
                    ltac:(discriminate)
                    ltac:(repeat constructor; cbn; intuition discriminate))).
  reflexivity.
Defined.

(** * The filters of the history page *)

Lemma row_leb_total (o : History.SortOption) (a b : Row) :
  History.row_leb o a b = true \/ History.row_leb o b a = true.
Proof.
  destruct o; cbn [History.row_leb];
    try apply date_leb_total; rewrite !Z.leb_le; lia.
Qed.

Lemma row_leb_trans (o : History.SortOption) (a b c : Row) :
  History.row_leb o a b = true -> History.row_leb o b c = true ->
  History.row_leb o a c = true.
Proof.
  destruct o; cbn [History.row_leb].
  - intros H1 H2. exact (date_leb_trans _ _ _ H2 H1).
  - apply date_leb_trans.
  - rewrite !Z.leb_le. lia.
  - rewrite !Z.leb_le. lia.
Qed.

Lemma filter_twice {A : Type} (f g : A -> bool) (l : list A) :
  filter f (filter g l) = filter (fun x => g x && f x) l.
Proof.
  induction l as [|a t IH]; [reflexivity|].
  cbn [filter]. destruct (g a); cbn [filter andb]; now rewrite IH.
Qed.

(** X26: with a query, the filters of the history page raise
    [AttributeError] exactly when no entry of the loaded frame has journal
    text, and otherwise [re.error] exactly when the query is not a regular
    expression.  When they return, the result list is a rearrangement of
    the rows that pass all the filters in use: the date range when both of
    its dates are set, the chosen moods, and the search when there is a
    query; it is in the chosen order; and with the whole range, every mood
    that occurs and no query, it holds every entry. *)
Theorem history_filters_select_and_order
    (valid_pattern : string -> bool)
    (contains : string -> option string -> bool) (df : DataFrame)
    (date_range : list date) (mood_filter : list Z) (search_query : string)
    (sort_option : History.SortOption) :
  let outcome :=
    History.apply_filters valid_pattern contains df date_range mood_filter
      search_query sort_option in
  let in_range := fun r : Row =>
    match date_range with
    | [start_date; end_date] =>
        date_leb start_date (date_of r) && date_leb (date_of r) end_date
    | _ => true
    end in
  let found := fun r : Row =>
    if String.eqb search_query "" then true
    else contains search_query (journal r) in
  (outcome = Raises AttributeError <->
   search_query <> ""%string /\ has_journal_text df = false) /\
  (outcome = Raises ReError <->
   search_query <> ""%string /\ has_journal_text df = true /\
   valid_pattern search_query = false) /\
  (forall shown,
     outcome = Returns shown ->
     Permutation shown
       (filter (fun r => in_range r
                         && existsb (Z.eqb (mood r)) mood_filter
                         && found r) df) /\
     StronglySorted (fun a b => History.row_leb sort_option a b = true)
                    shown /\
     (Forall (fun r => in_range r = true) df ->
      Forall (fun r => In (mood r) mood_filter) df ->
      search_query = ""%string ->
      Permutation shown df)).
Proof.
  cbv zeta.
  set (in_range := fun r : Row =>
    match date_range with
    | [start_date; end_date] =>
        date_leb start_date (date_of r) && date_leb (date_of r) end_date
    | _ => true
    end).
  set (found := fun r : Row =>
    if String.eqb search_query "" then true
    else contains search_query (journal r)).
  set (pass := fun r => in_range r
                        && existsb (Z.eqb (mood r)) mood_filter && found r).
  unfold History.apply_filters. cbv zeta.
  assert (match date_range with
          | [start_date; end_date] =>
              filter (fun r => date_leb start_date (date_of r)
                               && date_leb (date_of r) end_date) df
          | _ => df
          end = filter in_range df) as ->.
  { unfold in_range.
    destruct date_range as [|s [|e [|x t]]];
      try reflexivity; symmetry; apply forallb_filter_id;
      apply forallb_forall; reflexivity. }
  set (chosen := filter (fun r => existsb (Z.eqb (mood r)) mood_filter)
                        (filter in_range df)).
  assert (forall l, Permutation l
                      (if String.eqb search_query "" then chosen
                       else filter (fun r => contains search_query (journal r))
                                   chosen) ->
                    Permutation l (filter pass df)) as Hpass.
  { intros l Hl. rewrite Hl.
    assert ((if String.eqb search_query "" then chosen
             else filter (fun r => contains search_query (journal r)) chosen)
            = filter found chosen) as ->.
    { unfold found. destruct (String.eqb search_query ""); [|reflexivity].
      symmetry. apply forallb_filter_id. apply forallb_forall. reflexivity. }
    unfold chosen. rewrite !filter_twice.
    rewrite (filter_ext _ pass); [reflexivity|].
    intros r. unfold pass.
    destruct (in_range r), (existsb (Z.eqb (mood r)) mood_filter),
      (found r); reflexivity. }
  assert (forall l, StronglySorted
                      (fun a b => History.row_leb sort_option a b = true)
                      (sort_by (History.row_leb sort_option) l)) as Hsorted.
  { intros l. apply sort_by_sorted.
    - apply row_leb_total.
    - apply row_leb_trans. }
  assert (Forall (fun r => in_range r = true) df ->
          Forall (fun r => In (mood r) mood_filter) df ->
          search_query = ""%string ->
          filter pass df = df) as Hall.
  { intros Hrange Hmoods Hq. apply forallb_filter_id.
    apply forallb_forall. intros r Hr. unfold pass, found.
    rewrite Forall_forall in Hrange, Hmoods.
    rewrite (Hrange r Hr). subst search_query. cbn [String.eqb andb].
    rewrite andb_true_r. apply existsb_exists.
    exists (mood r). split; [now apply Hmoods | apply Z.eqb_refl]. }
  destruct (String.eqb_spec search_query "") as [Hq|Hq].
  - split; [|split].
    + split; [discriminate | intros [H _]; contradiction].
    + split; [discriminate | intros [H _]; contradiction].
    + intros shown E. injection E as <-.
      split; [apply Hpass, sort_by_perm|]. split; [apply Hsorted|].
      intros H1 H2 H3. transitivity (filter pass df).
      * apply Hpass, sort_by_perm.
      * now rewrite (Hall H1 H2 H3).
  - destruct (has_journal_text df) eqn:Ht; cbn [negb].
    + destruct (valid_pattern search_query) eqn:Hv; cbn [negb].
      * split; [|split].
        -- split; [discriminate | intros [_ H]; discriminate].
        -- split; [discriminate | intros (_ & _ & H); discriminate].
        -- intros shown E. injection E as <-.
           split; [apply Hpass, sort_by_perm|]. split; [apply Hsorted|].
           intros _ _ H3. contradiction.
      * split; [|split].
        -- split; [discriminate | intros [_ H]; discriminate].
        -- split; [auto | reflexivity].
        -- intros shown E. discriminate.
    + split; [|split].
      * split; [auto | reflexivity].
      * split; [discriminate | intros (_ & H & _); discriminate].
      * intros shown E. discriminate.
Qed.

Lemma history_filters_select_and_order_witness :
  exists shown,
    History.apply_filters (fun _ => true)
      (fun q cell => match cell with
                     | Some text => String.eqb q text
                     | None => false
                     end)
      [mkRow (mkDate 2024 1 1) 4 (Some "calm"%string) [];
       mkRow (mkDate 2024 1 2) 2 None []]
      [mkDate 2024 1 1; mkDate 2024 1 2] [1; 2; 3; 4; 5] "calm"
      History.NewestFirst = Returns shown /\
    Permutation shown [mkRow (mkDate 2024 1 1) 4 (Some "calm"%string) []].
Proof.
  eexists. split; [reflexivity|].
  apply (proj1 (proj2 (proj2 (history_filters_select_and_order
           (fun _ => true)
           (fun q cell => match cell with
                          | Some text => String.eqb q text
                          | None => false
                          end)
           [mkRow (mkDate 2024 1 1) 4 (Some "calm"%string) [];
            mkRow (mkDate 2024 1 2) 2 None []]
           [mkDate 2024 1 1; mkDate 2024 1 2] [1; 2; 3; 4; 5] "calm"
           History.NewestFirst)) _ eq_refl)).
Defined.

(** * The cells of the calendar *)

Lemma date_eqb_refl_true (d : date) : date_eqb d d = true.
Proof. now apply date_eqb_eq. Qed.

Lemma dict_get_set (k d : date) (v : Z * option string)
    (dict : CalendarView.MoodDict) :
  CalendarView.dict_get d (CalendarView.dict_set k v dict)
  = if date_eqb k d then Some v else CalendarView.dict_get d dict.
Proof.
  induction dict as [|[k' v'] t IH].
  - reflexivity.
  - cbn [CalendarView.dict_set CalendarView.dict_get].
    destruct (date_eqb k' k) eqn:E.
    + apply date_eqb_eq in E. subst k'.
      cbn [CalendarView.dict_get]. destruct (date_eqb k d); reflexivity.
    + cbn [CalendarView.dict_get]. rewrite IH.
      destruct (date_eqb k' d) eqn:E'; [|reflexivity].
      apply date_eqb_eq in E'. subst k'.
      destruct (date_eqb k d) eqn:E''; [|reflexivity].
      apply date_eqb_eq in E''. subst k.
      rewrite date_eqb_refl_true in E. discriminate.
Qed.

Lemma dict_set_keys_nodup (k : date) (v : Z * option string)
    (dict : CalendarView.MoodDict) :
  NoDup (map fst dict) -> NoDup (map fst (CalendarView.dict_set k v dict)).
Proof.
  induction dict as [|[k' v'] t IH]; intros Hnd.
  - cbn. constructor; [intros [] | constructor].
  - cbn [CalendarView.dict_set]. cbn [map fst] in Hnd.
    apply NoDup_cons_iff in Hnd. destruct Hnd as [Hnotin Hnd].
    destruct (date_eqb k' k) eqn:E.
    + cbn [map fst]. now constructor.
    + cbn [map fst]. constructor; [|now apply IH].
      intros Hin. apply in_map_iff in Hin.
      destruct Hin as ([k0 v0] & E0 & Hin0). cbn [fst] in E0. subst k0.
      assert (CalendarView.dict_get k' (CalendarView.dict_set k v t)
              <> None) as Hget.
      { clear -Hin0. induction (CalendarView.dict_set k v t)
          as [|[a b] l IHl]; [destruct Hin0|].
        cbn [CalendarView.dict_get].
        destruct (date_eqb a k') eqn:Ea; [discriminate|].
        destruct Hin0 as [E0|Hin0]; [|now apply IHl].
        injection E0 as -> _. rewrite date_eqb_refl_true in Ea.
        discriminate. }
      rewrite dict_get_set in Hget.
      assert (date_eqb k k' = false) as Ekk.
      { destruct (date_eqb k k') eqn:E1; [|reflexivity].
        apply date_eqb_eq in E1. subst k.
        rewrite date_eqb_refl_true in E. discriminate. }
      rewrite Ekk in Hget. apply Hget. clear -Hnotin.
      induction t as [|[a b] l IHl]; [reflexivity|].
      cbn [CalendarView.dict_get].
      destruct (date_eqb a k') eqn:Ea.
      * apply date_eqb_eq in Ea. subst a. exfalso. apply Hnotin. now left.
      * apply IHl. intros Hin. apply Hnotin. now right.
Qed.

Lemma find_app_last {A : Type} (p : A -> bool) (l : list A) (x : A) :
  find p (l ++ [x])
  = match find p l with
    | Some y => Some y
    | None => if p x then Some x else None
    end.
Proof.
  induction l as [|a t IH]; [reflexivity|].
  cbn [app find]. destruct (p a); [reflexivity | exact IH].
Qed.

Lemma find_split {A : Type} (p : A -> bool) (l : list A) (x : A) :
  find p l = Some x ->
  exists l1 l2, l = l1 ++ x :: l2 /\ p x = true /\
                Forall (fun a => p a = false) l1.
Proof.
  induction l as [|a t IH]; [discriminate|].
  cbn [find]. destruct (p a) eqn:E.
  - intros H. injection H as <-. exists [], t. auto.
  - intros H. destruct (IH H) as (l1 & l2 & -> & Hx & Hall).
    exists (a :: l1), l2. auto.
Qed.

Lemma mood_lookup_fold (d : date) (rows : DataFrame)
    (acc : CalendarView.MoodDict) :
  CalendarView.dict_get d
    (fold_left (fun lookup row =>
                  CalendarView.dict_set (date_of row) (mood row, journal row)
                    lookup) rows acc)
  = match find (fun r => date_eqb (date_of r) d) (rev rows) with
    | Some r => Some (mood r, journal r)
    | None => CalendarView.dict_get d acc
    end.
Proof.
  revert acc. induction rows as [|r t IH]; intros acc; [reflexivity|].
  cbn [fold_left rev]. rewrite IH, find_app_last, dict_get_set.
  destruct (find _ (rev t)); [reflexivity|].
  destruct (date_eqb (date_of r) d); reflexivity.
Qed.

(** X27: the cell of a date in the calendar shows the mood and the journal
    of the last row of the month's data with that date, and "No entry"
    exactly when the month's data has no row with that date; each date has
    one cell value. *)
Theorem calendar_cell_shows_last_row (month_data : DataFrame) (d : date) :
  NoDup (map fst (CalendarView.mood_lookup month_data)) /\
  match CalendarView.dict_get d (CalendarView.mood_lookup month_data) with
  | Some v =>
      exists before r after,
        month_data = before ++ r :: after /\ date_of r = d /\
        v = (mood r, journal r) /\
        Forall (fun x => date_of x <> d) after
  | None => forall r, In r month_data -> date_of r <> d
  end.
Proof.
  assert (CalendarView.mood_lookup month_data
          = fold_left (fun lookup row =>
                         CalendarView.dict_set (date_of row)
                           (mood row, journal row) lookup)
                      month_data []) as ->.
  { destruct month_data; reflexivity. }
  split.
  - assert (forall acc : CalendarView.MoodDict,
              NoDup (map fst acc) ->
              NoDup (map fst
                       (fold_left (fun lookup row =>
                                     CalendarView.dict_set (date_of row)
                                       (mood row, journal row) lookup)
                                  month_data acc))) as H.
    { induction month_data as [|r t IH]; intros acc Hacc; [exact Hacc|].
      cbn [fold_left]. apply IH. now apply dict_set_keys_nodup. }
    apply H. constructor.
  - rewrite mood_lookup_fold. cbn [CalendarView.dict_get].
    destruct (find (fun r => date_eqb (date_of r) d) (rev month_data))
      as [r|] eqn:F.
    + destruct (find_split _ _ _ F) as (l1 & l2 & E & Hr & Hall).
      exists (rev l2), r, (rev l1). split.
      * rewrite <- (rev_involutive month_data), E, rev_app_distr.
        cbn [rev]. now rewrite <- app_assoc.
      * split; [now apply date_eqb_eq|]. split; [reflexivity|].
        apply Forall_rev. eapply Forall_impl; [|exact Hall].
        cbv beta. intros x Hx Hd. apply date_eqb_eq in Hd. congruence.
    + intros r Hr Hd. apply in_rev in Hr.
      pose proof (find_none _ _ F r Hr) as Hn. cbv beta in Hn.
      apply date_eqb_eq in Hd. congruence.
Qed.

(** * The coefficients that are returned *)


